(** * A shallow embedding of the timesheet/invoice bot

    The development follows the Python sources:

    - [src/bot/intent_classifier.py]  ([Intent], [EntityType], [classify],
      [get_entity_type]);
    - [src/bot/entity_extractor.py]   (the extraction functions and their
      regular expressions);
    - [src/bot/query_parser.py]       (the cleaning of the model's response);
    - [src/handlers/timesheet_handler.py], [src/handlers/invoice_handler.py],
      [src/handlers/expense_handler.py], [src/handlers/project_handler.py]
      (the document-store operations);
    - [src/bot/bot_orchestrator.py]   ([_execute_operation] and the methods
      it dispatches to).

    Conventions of the model.

    - Text is a [string] of characters with code points below 128; [upper],
      [lower], [\d], [\s] and case-insensitive matching are the ASCII ones.
    - A Python [float] is a binary64 [PrimFloat.float]; the arithmetic of the
      handlers is the kernel's IEEE arithmetic.  Numbers stored in documents
      are floats, as [src/database/models.py] declares them.
    - A [Dict[str, Any]] is a [gmap string PyVal]; a nested dictionary (an
      entry of a timesheet, an item of an invoice) is an association list in
      insertion order.
    - Code that raises returns [Raise e]; code that touches the store, the
      clock or the ObjectId supply runs in the state-and-error monad [M].
    - [logger] calls have no effect on any value and are left out; a
      [try: ... except Exception: logger.error(...); raise] block is its body.
    - Library behaviour follows the library's documentation: [%Y] prints
      four digits, [strptime] accepts what its directives' regular
      expressions accept, [update_one] counts a document as modified when a
      field it sets changes.  The messages of the library's own exceptions
      are shortened; the messages the program raises are verbatim.
    - Two limits of the model.  The C library under CPython prints the year
      of a date before the year 1000 without its leading zeros: what is
      proved of the printed text of a date a user gives is stated for the
      years from 1000 on.  The filter of [find_one] and [update_one] is
      compared with the stored values, which is what the store does for
      text; a filter value that is an operator document ([{"$ne": None}])
      is evaluated by the store, and in the model by [find_many] only: a
      property that says which document an identifier finds, or that it
      finds none, is stated for an identifier that is text, or has the
      document found as a hypothesis.
    - What the model leaves open is a variable of a section: Python's [str]
      of a value that is not text, [float] on the text of a number, the
      year of the clock, and the store's comparison operators in a [find]. *)

From Stdlib Require Import ZArith NArith Ascii String List Bool Lia.
From Stdlib Require Import DecimalString PrimFloat Uint63 FloatAxioms.
From stdpp Require Import base option list gmap strings.

Local Open Scope string_scope.
Set Warnings "-register-all,-inexact-float".

(** ** Python values *)

Inductive PyVal : Type :=
| VNone
| VStr (s : string)
| VFloat (x : float)
| VOid (n : N)                          (* a bson ObjectId *)
| VList (l : list PyVal)
| VDict (d : list (string * PyVal)).

Inductive exn : Type :=
| ValueError (msg : string)
| AttributeError (msg : string)
| TypeError (msg : string)
| OverflowError (msg : string)
| OutOfFuel.    (* not a Python exception: the bound of the model's [while]
                   loop, never reached (lemma [generate_entries_no_timeout]) *)

Inductive Res (A : Type) : Type :=
| Ok (a : A)
| Raise (e : exn).
Arguments Ok {A} a.
Arguments Raise {A} e.

(** Python truthiness, as [if v:], [not v], [a or b] use it. *)
Definition truthy (v : PyVal) : bool :=
  match v with
  | VNone => false
  | VStr s => negb (String.eqb s "")
  | VFloat x => negb (PrimFloat.eqb x 0%float)
  | VOid _ => true
  | VList l => match l with [] => false | _ => true end
  | VDict d => match d with [] => false | _ => true end
  end.

(** [d.get(k)]: the value, or [None]. *)
Definition py_get (d : gmap string PyVal) (k : string) : PyVal :=
  default VNone (d !! k).

(** [a or b]. *)
Definition py_or (a b : PyVal) : PyVal := if truthy a then a else b.

(** ** ASCII text *)

Definition is_digit (c : ascii) : bool :=
  let n := N_of_ascii c in (48 <=? n)%N && (n <=? 57)%N.

(** [\s] on a [str] pattern: TAB, LF, VT, FF, CR, FS, GS, RS, US and space. *)
Definition is_space (c : ascii) : bool :=
  let n := N_of_ascii c in
  ((9 <=? n)%N && (n <=? 13)%N) || ((28 <=? n)%N && (n <=? 32)%N).

Definition lower_ascii (c : ascii) : ascii :=
  let n := N_of_ascii c in
  if (65 <=? n)%N && (n <=? 90)%N then ascii_of_N (n + 32) else c.

Definition upper_ascii (c : ascii) : ascii :=
  let n := N_of_ascii c in
  if (97 <=? n)%N && (n <=? 122)%N then ascii_of_N (n - 32) else c.

Fixpoint str_map (f : ascii -> ascii) (s : string) : string :=
  match s with
  | EmptyString => EmptyString
  | String c s' => String (f c) (str_map f s')
  end.

Definition str_lower : string -> string := str_map lower_ascii.
Definition str_upper : string -> string := str_map upper_ascii.

Definition digit_val (c : ascii) : Z := Z.of_N (N_of_ascii c) - 48.

(** [str(n)] of a non-negative [int]. *)
Definition str_of_Z (n : Z) : string :=
  NilZero.string_of_uint (N.to_uint (Z.to_N n)).

(** [f"{n:02d}"] and [%m], [%d] of [strftime]. *)
Definition fmt_02d (n : Z) : string :=
  if (n <? 10)%Z then "0" ++ str_of_Z n else str_of_Z n.

(** [%Y] of [strftime], four digits (for the years from 1000 on, what the C
    library prints; it does not pad an earlier year). *)
Definition fmt_04d (n : Z) : string :=
  if (n <? 10)%Z then "000" ++ str_of_Z n
  else if (n <? 100)%Z then "00" ++ str_of_Z n
  else if (n <? 1000)%Z then "0" ++ str_of_Z n
  else str_of_Z n.

(** [s[:n]]. *)
Fixpoint str_take (n : nat) (s : string) : string :=
  match n, s with
  | S k, String c s' => String c (str_take k s')
  | _, _ => EmptyString
  end.

(** [s] starts with [p]: the rest of [s], or nothing. *)
Fixpoint strip_prefix (p s : string) : option string :=
  match p, s with
  | EmptyString, _ => Some s
  | String a p', String b s' =>
      if Ascii.eqb a b then strip_prefix p' s' else None
  | String _ _, EmptyString => None
  end.

(** [needle in hay]. *)
Fixpoint str_contains (needle hay : string) : bool :=
  match strip_prefix needle hay with
  | Some _ => true
  | None =>
      match hay with
      | EmptyString => false
      | String _ hay' => str_contains needle hay'
      end
  end.

(** ** [src/bot/intent_classifier.py] *)

Inductive Intent : Type := CREATE | READ | UPDATE | DELETE | QUERY.

Inductive EntityType : Type := TIMESHEET | INVOICE | EXPENSE | PROJECT | TALENT.

Definition intent_values : list string :=
  ["CREATE"; "READ"; "UPDATE"; "DELETE"; "QUERY"].

Definition entity_type_values : list string :=
  ["TIMESHEET"; "INVOICE"; "EXPENSE"; "PROJECT"; "TALENT"].

(** [Intent(s)]: the member whose value is [s]; [None] is the enumeration's
    [ValueError]. *)
Definition Intent_of_value (s : string) : option Intent :=
  if String.eqb s "CREATE" then Some CREATE
  else if String.eqb s "READ" then Some READ
  else if String.eqb s "UPDATE" then Some UPDATE
  else if String.eqb s "DELETE" then Some DELETE
  else if String.eqb s "QUERY" then Some QUERY
  else None.

Definition EntityType_of_value (s : string) : option EntityType :=
  if String.eqb s "TIMESHEET" then Some TIMESHEET
  else if String.eqb s "INVOICE" then Some INVOICE
  else if String.eqb s "EXPENSE" then Some EXPENSE
  else if String.eqb s "PROJECT" then Some PROJECT
  else if String.eqb s "TALENT" then Some TALENT
  else None.

(** [v.upper()] on a value: only a [str] has the method. *)
Definition py_upper (v : PyVal) : Res string :=
  match v with
  | VStr s => Ok (str_upper s)
  | _ => Raise (AttributeError "object has no attribute 'upper'")
  end.

(** [IntentClassifier.classify]. *)
Definition classify (parsed_query : gmap string PyVal) : Res Intent :=
  match py_upper (default (VStr "QUERY") (parsed_query !! "intent")) with
  | Raise e => Raise e
  | Ok intent_str =>
      match Intent_of_value intent_str with
      | Some i => Ok i
      | None => Ok QUERY                (* except ValueError *)
      end
  end.

(** [IntentClassifier.get_entity_type]. *)
Definition get_entity_type (parsed_query : gmap string PyVal)
  : Res (option EntityType) :=
  let entity_type_str := py_get parsed_query "entity_type" in
  if negb (truthy entity_type_str) then Ok None
  else
    match py_upper entity_type_str with
    | Raise e => Raise e
    | Ok u =>
        match EntityType_of_value u with
        | Some t => Ok (Some t)
        | None => Ok None               (* except ValueError *)
        end
    end.

(** ** [src/bot/entity_extractor.py]: [extract_dates] *)

(** [DATE_PATTERN = r'\d{4}-\d{2}-\d{2}'] matched at the head of [s]: the ten
    characters matched. *)
Definition match_date (s : string) : option string :=
  match s with
  | String y1 (String y2 (String y3 (String y4 (String h1
      (String m1 (String m2 (String h2 (String d1 (String d2 _))))))))) =>
      if is_digit y1 && is_digit y2 && is_digit y3 && is_digit y4
         && Ascii.eqb h1 "-" && is_digit m1 && is_digit m2
         && Ascii.eqb h2 "-" && is_digit d1 && is_digit d2
      then Some (str_take 10 s) else None
  | _ => None
  end.

(** [re.findall(DATE_PATTERN, text)]: the leftmost matches, none overlapping
    ([skip] counts the characters of the last match still to pass). *)
Fixpoint findall_dates_from (skip : nat) (s : string) : list string :=
  match s with
  | EmptyString => []
  | String _ s' =>
      match skip with
      | S k => findall_dates_from k s'
      | O =>
          match match_date s with
          | Some d => d :: findall_dates_from 9 s'
          | None => findall_dates_from 0 s'
          end
      end
  end.

Definition findall_dates (text : string) : list string :=
  findall_dates_from 0 text.

(** A literal matched at the head of [s] under [re.IGNORECASE] ([p] is in
    lower case): the rest of [s]. *)
Fixpoint strip_prefix_ci (p s : string) : option string :=
  match p, s with
  | EmptyString, _ => Some s
  | String a p', String b s' =>
      if Ascii.eqb a (lower_ascii b) then strip_prefix_ci p' s' else None
  | String _ _, EmptyString => None
  end.

(** The characters of the longest prefix of [s] in the class [f], and what
    follows ([\s+] is greedy and what follows it is not in its class). *)
Fixpoint span_class (f : ascii -> bool) (s : string) : nat * string :=
  match s with
  | String c s' =>
      if f c then let '(n, r) := span_class f s' in (S n, r) else (O, s)
  | EmptyString => (O, s)
  end.

(** A month pattern, [stem(?:rest)?\s+(\d{1,2})], matched at the head of [s]
    under [re.IGNORECASE]: the length of the match and [int(match.group(1))].
    The optional group is taken when it matches (what follows it, white
    space, cannot start it) and [\d{1,2}] takes two digits when it can. *)
Definition match_month (stem rest : string) (s : string) : option (nat * Z) :=
  match strip_prefix_ci stem s with
  | None => None
  | Some r1 =>
      let '(n_opt, r2) :=
        match strip_prefix_ci rest r1 with
        | Some r => (String.length rest, r)
        | None => (O, r1)
        end in
      let '(n_ws, r3) := span_class is_space r2 in
      match n_ws, r3 with
      | S _, String d1 r4 =>
          if is_digit d1 then
            let len := (String.length stem + n_opt + n_ws)%nat in
            match r4 with
            | String d2 _ =>
                if is_digit d2
                then Some ((len + 2)%nat, (10 * digit_val d1 + digit_val d2)%Z)
                else Some ((len + 1)%nat, digit_val d1)
            | EmptyString => Some ((len + 1)%nat, digit_val d1)
            end
          else None
      | _, _ => None
      end
  end.

(** [re.finditer(pattern, text, re.IGNORECASE)] for a month pattern: each
    match as ([match.start()], day); [pos] is the index of the head of [s]. *)
Fixpoint finditer_month_from (stem rest : string) (skip pos : nat) (s : string)
  : list (nat * Z) :=
  match s with
  | EmptyString => []
  | String _ s' =>
      match skip with
      | S k => finditer_month_from stem rest k (S pos) s'
      | O =>
          match match_month stem rest s with
          | Some (len, day) =>
              (pos, day) :: finditer_month_from stem rest (len - 1) (S pos) s'
          | None => finditer_month_from stem rest 0 (S pos) s'
          end
      end
  end.

Definition finditer_month (stem rest : string) (text : string) : list (nat * Z) :=
  finditer_month_from stem rest 0 0 text.

(** [month_patterns], in the dictionary's order: stem, optional rest, month. *)
Definition month_patterns : list (string * string * Z) :=
  [ ("jan", "uary", 1); ("feb", "ruary", 2); ("mar", "ch", 3);
    ("apr", "il", 4); ("may", "", 5); ("jun", "e", 6); ("jul", "y", 7);
    ("aug", "ust", 8); ("sep", "tember", 9); ("oct", "ober", 10);
    ("nov", "ember", 11); ("dec", "ember", 12) ]%Z.

(** Every month-name match of the text, in the order the two nested loops
    visit them: (month, [match.start()], day). *)
Definition month_matches (text : string) : list (Z * nat * Z) :=
  flat_map (fun '(stem, rest, month) =>
              map (fun '(start, day) => (month, start, day))
                  (finditer_month stem rest text))
           month_patterns.

(** The body of the inner loop for one match. *)
Definition assign_month_match (current_year : Z) (text : string)
    (dates : gmap string string) (m : Z * nat * Z) : gmap string string :=
  let '(month, start, day) := m in
  let date_str := str_of_Z current_year ++ "-" ++ fmt_02d month ++ "-" ++ fmt_02d day in
  let before := str_take start (str_lower text) in
  if str_contains "start" before || str_contains "from" before then
    <["start_date" := date_str]> dates
  else if str_contains "end" before || str_contains "to" before then
    <["end_date" := date_str]> dates
  else
    match dates !! "start_date" with
    | None => <["start_date" := date_str]> dates
    | Some _ => <["end_date" := date_str]> dates
    end.

(** The closing [if date_matches:] block. *)
Definition add_explicit_dates (date_matches : list string)
    (dates : gmap string string) : gmap string string :=
  match date_matches with
  | [] => dates
  | [d0] => <["start_date" := d0]> dates
  | d0 :: d1 :: _ => <["end_date" := d1]> (<["start_date" := d0]> dates)
  end.

(** [EntityExtractor.extract_dates]; [current_year] is [datetime.now().year]. *)
Definition extract_dates (current_year : Z) (text : string) : gmap string string :=
  let date_matches := findall_dates text in
  let dates :=
    fold_left (assign_month_match current_year text) (month_matches text) ∅ in
  add_explicit_dates date_matches dates.

(** ** Calendar dates ([datetime]) *)

(** A [datetime] at midnight, as [strptime(..., "%Y-%m-%d")] returns it and as
    adding [timedelta(days=1)] keeps it. *)
Record Date : Type := mkDate { year : Z; month : Z; day : Z }.

(** [datetime.now()]. *)
Record DateTime : Type := mkDateTime {
  dt_date : Date; hour : Z; minute : Z; second : Z; microsecond : Z }.

Local Open Scope Z_scope.

Definition is_leap (y : Z) : bool :=
  (y mod 4 =? 0) && (negb (y mod 100 =? 0) || (y mod 400 =? 0)).

Definition days_in_month (y m : Z) : Z :=
  if m =? 2 then (if is_leap y then 29 else 28)
  else if (m =? 4) || (m =? 6) || (m =? 9) || (m =? 11) then 30
  else 31.

(** The dates [datetime] can hold: [MINYEAR = 1], [MAXYEAR = 9999]. *)
Definition valid_date (d : Date) : bool :=
  (1 <=? year d) && (year d <=? 9999) && (1 <=? month d) && (month d <=? 12)
  && (1 <=? day d) && (day d <=? days_in_month (year d) (month d)).

(** [a <= b] and [a < b] on dates. *)
Definition date_ltb (a b : Date) : bool :=
  (year a <? year b)
  || ((year a =? year b)
      && ((month a <? month b) || ((month a =? month b) && (day a <? day b)))).

Definition date_eqb (a b : Date) : bool :=
  (year a =? year b) && (month a =? month b) && (day a =? day b).

Definition date_leb (a b : Date) : bool := date_ltb a b || date_eqb a b.

(** [d + timedelta(days=1)]: the next calendar day; past 9999-12-31 the
    addition raises [OverflowError]. *)
Definition add_one_day (d : Date) : Res Date :=
  if day d <? days_in_month (year d) (month d)
  then Ok (mkDate (year d) (month d) (day d + 1))
  else if month d <? 12 then Ok (mkDate (year d) (month d + 1) 1)
  else if year d <? 9999 then Ok (mkDate (year d + 1) 1 1)
  else Raise (OverflowError "date value out of range").

(** [d + timedelta(days=n)]. *)
Fixpoint add_days (n : nat) (d : Date) : Res Date :=
  match n with
  | O => Ok d
  | S k => match add_one_day d with
           | Ok d' => add_days k d'
           | Raise e => Raise e
           end
  end.

(** [date.toordinal()]: the day number in the proleptic Gregorian calendar,
    0001-01-01 being day 1. *)
Definition days_before_year (y : Z) : Z :=
  (y - 1) * 365 + (y - 1) / 4 - (y - 1) / 100 + (y - 1) / 400.

Definition days_before_month (y m : Z) : Z :=
  match m with
  | 2 => 31 | 3 => 59 | 4 => 90 | 5 => 120 | 6 => 151 | 7 => 181
  | 8 => 212 | 9 => 243 | 10 => 273 | 11 => 304 | 12 => 334
  | _ => 0
  end
  + (if (2 <? m) && is_leap y then 1 else 0).

Definition toordinal (d : Date) : Z :=
  days_before_year (year d) + days_before_month (year d) (month d) + day d.

(** [d.strftime("%Y-%m-%d")]. *)
Definition strftime_ymd (d : Date) : string :=
  (fmt_04d (year d) ++ "-" ++ fmt_02d (month d) ++ "-" ++ fmt_02d (day d))%string.

(** [now.strftime("%Y%m")]. *)
Definition strftime_Ym (d : Date) : string :=
  (fmt_04d (year d) ++ fmt_02d (month d))%string.

(** [now.isoformat()]: the microseconds are printed when they are not zero. *)
Definition fmt_06d (n : Z) : string :=
  String.append
    (if n <? 10 then "00000" else if n <? 100 then "0000"
     else if n <? 1000 then "000" else if n <? 10000 then "00"
     else if n <? 100000 then "0" else "")
    (str_of_Z n).

Definition iso_fraction (us : Z) : string :=
  if us =? 0 then "" else String.append "." (fmt_06d us).

Definition isoformat (t : DateTime) : string :=
  (strftime_ymd (dt_date t) ++ "T" ++ fmt_02d (hour t) ++ ":"
   ++ fmt_02d (minute t) ++ ":" ++ fmt_02d (second t)
   ++ iso_fraction (microsecond t))%string.

(** *** [datetime.strptime(s, "%Y-%m-%d")]

    The directives are the regular expressions of [_strptime]:
    [%Y] is [\d\d\d\d], [%m] is [1[0-2]|0[1-9]|[1-9]] and [%d] is
    [3[01]|[12]\d|0[1-9]|[1-9]| [1-9]]; the whole string has to be consumed
    and the fields have to name a date.  Every failure is a [ValueError]. *)

Definition in_range (lo hi : Z) (c : ascii) : bool :=
  let v := digit_val c in is_digit c && (lo <=? v) && (v <=? hi).

Definition parse_year (s : string) : option (Z * string) :=
  match s with
  | String a (String b (String c (String d r))) =>
      if is_digit a && is_digit b && is_digit c && is_digit d
      then Some (1000 * digit_val a + 100 * digit_val b
                 + 10 * digit_val c + digit_val d, r)
      else None
  | _ => None
  end.

Definition parse_month (s : string) : option (Z * string) :=
  match s with
  | String a r =>
      let two :=
        match r with
        | String b r' =>
            if Ascii.eqb a "1" && in_range 0 2 b then Some (10 + digit_val b, r')
            else if Ascii.eqb a "0" && in_range 1 9 b then Some (digit_val b, r')
            else None
        | EmptyString => None
        end in
      match two with
      | Some x => Some x
      | None => if in_range 1 9 a then Some (digit_val a, r) else None
      end
  | EmptyString => None
  end.

Definition parse_day (s : string) : option (Z * string) :=
  match s with
  | String a r =>
      let two :=
        match r with
        | String b r' =>
            if Ascii.eqb a "3" && in_range 0 1 b then Some (30 + digit_val b, r')
            else if in_range 1 2 a && is_digit b
                 then Some (10 * digit_val a + digit_val b, r')
            else if Ascii.eqb a "0" && in_range 1 9 b then Some (digit_val b, r')
            else None
        | EmptyString => None
        end in
      match two with
      | Some x => Some x
      | None =>
          if in_range 1 9 a then Some (digit_val a, r)
          else match r with
               | String b r' =>
                   if Ascii.eqb a " " && in_range 1 9 b
                   then Some (digit_val b, r') else None
               | EmptyString => None
               end
      end
  | EmptyString => None
  end.

Definition expect_dash (s : string) : option string :=
  match s with
  | String c r => if Ascii.eqb c "-" then Some r else None
  | EmptyString => None
  end.

Definition strptime_ymd (s : string) : Res Date :=
  let no_match := Raise (ValueError "time data does not match format '%Y-%m-%d'") in
  match parse_year s with
  | None => no_match
  | Some (y, r1) =>
  match expect_dash r1 with
  | None => no_match
  | Some r2 =>
  match parse_month r2 with
  | None => no_match
  | Some (m, r3) =>
  match expect_dash r3 with
  | None => no_match
  | Some r4 =>
  match parse_day r4 with
  | None => no_match
  | Some (d, r5) =>
      if negb (String.eqb r5 "") then Raise (ValueError "unconverted data remains")
      else if valid_date (mkDate y m d) then Ok (mkDate y m d)
      else Raise (ValueError "date is out of range")
  end end end end end.

(** [datetime.strptime(v, "%Y-%m-%d")] on a value. *)
Definition strptime (v : PyVal) : Res Date :=
  match v with
  | VStr s => strptime_ymd s
  | _ => Raise (TypeError "strptime() argument 1 must be str")
  end.

Local Close Scope Z_scope.

(** ** The document store, the clock and the ObjectId supply *)

Abbreviation Doc := (gmap string PyVal).

(** The store calls a handler makes, in order (a record kept by the model). *)
Inductive StoreOp : Type :=
| OpFindOne (coll : string)
| OpInsertOne (coll : string)
| OpUpdateOne (coll : string).

Record World : Type := mkWorld {
  collections : gmap string (list Doc);   (* by collection name *)
  clock : nat -> DateTime;                (* the successive [datetime.now()] *)
  ticks : nat;                            (* how many were read *)
  next_oid : N;                           (* the next ObjectId *)
  store_log : list StoreOp }.

Definition M (A : Type) : Type := World -> Res A * World.

#[global] Instance M_ret : MRet M := fun A a w => (Ok a, w).
#[global] Instance M_bind : MBind M := fun A B f m w =>
  match m w with
  | (Ok a, w') => f a w'
  | (Raise e, w') => (Raise e, w')
  end.

Definition raise {A : Type} (e : exn) : M A := fun w => (Raise e, w).

Definition lift {A : Type} (r : Res A) : M A := fun w => (r, w).

(** [datetime.now()]. *)
Definition now : M DateTime := fun w =>
  (Ok (clock w (ticks w)),
   mkWorld (collections w) (clock w) (S (ticks w)) (next_oid w) (store_log w)).

Definition get_collection (w : World) (coll : string) : list Doc :=
  default [] (collections w !! coll).

Definition log_op (op : StoreOp) (docs : option (string * list Doc)) (w : World)
  : World :=
  mkWorld (match docs with
           | Some (coll, ds) => <[coll := ds]> (collections w)
           | None => collections w
           end)
          (clock w) (ticks w) (next_oid w) (store_log w ++ [op])%list.

(** Two stored values are the same value. *)
Fixpoint val_same (a b : PyVal) : bool :=
  match a, b with
  | VNone, VNone => true
  | VStr s, VStr t => String.eqb s t
  | VFloat x, VFloat y => PrimFloat.Leibniz.eqb x y
  | VOid n, VOid m => N.eqb n m
  | VList l, VList l' =>
      (fix go (l l' : list PyVal) : bool :=
         match l, l' with
         | [], [] => true
         | x :: xs, y :: ys => val_same x y && go xs ys
         | _, _ => false
         end) l l'
  | VDict d, VDict d' =>
      (fix go (d d' : list (string * PyVal)) : bool :=
         match d, d' with
         | [], [] => true
         | (k, x) :: xs, (k', y) :: ys =>
             String.eqb k k' && val_same x y && go xs ys
         | _, _ => false
         end) d d'
  | _, _ => false
  end.

(** A filter [{k: v, ...}] of equalities: a missing field matches [None], an
    array field matches a value it contains.  The values the handlers are
    given as identifiers are text; an operator document in this place is
    not evaluated (it is in [query_field_matches], for [find]). *)
Definition field_matches (doc : Doc) (kv : string * PyVal) : bool :=
  let '(k, v) := kv in
  match doc !! k with
  | None => match v with VNone => true | _ => false end
  | Some (VList l) => val_same (VList l) v || existsb (fun x => val_same x v) l
  | Some x => val_same x v
  end.

Definition doc_matches (filter : list (string * PyVal)) (doc : Doc) : bool :=
  forallb (field_matches doc) filter.

(** [collection.find_one(filter)]. *)
Definition find_one (coll : string) (filter : list (string * PyVal))
  : M (option Doc) := fun w =>
  (Ok (List.find (doc_matches filter) (get_collection w coll)),
   log_op (OpFindOne coll) None w).

(** [collection.insert_one(doc)]: the stored document gets an [_id] when it
    has none; the result is [inserted_id]. *)
Definition insert_one (coll : string) (doc : Doc) : M PyVal := fun w =>
  match doc !! "_id" with
  | Some id =>
      (Ok id, log_op (OpInsertOne coll) (Some (coll, (get_collection w coll ++ [doc])%list)) w)
  | None =>
      let id := VOid (next_oid w) in
      let w' := mkWorld (collections w) (clock w) (ticks w)
                        (N.succ (next_oid w)) (store_log w) in
      (Ok id,
       log_op (OpInsertOne coll)
              (Some (coll, (get_collection w coll ++ [<["_id" := id]> doc])%list)) w')
  end.

(** [{"$set": fields}] applied to a document, and whether it changes it. *)
Definition apply_set (fields : list (string * PyVal)) (doc : Doc) : Doc :=
  fold_left (fun d kv => <[kv.1 := kv.2]> d) fields doc.

Definition set_changes (fields : list (string * PyVal)) (doc : Doc) : bool :=
  existsb (fun kv => match doc !! kv.1 with
                     | Some x => negb (val_same x kv.2)
                     | None => true
                     end) fields.

(** The first document matching the filter updated: the new collection and
    [modified_count]; [None] when no document matches. *)
Fixpoint update_first (filter fields : list (string * PyVal)) (docs : list Doc)
  : option (list Doc * N) :=
  match docs with
  | [] => None
  | d :: ds =>
      if doc_matches filter d
      then Some (apply_set fields d :: ds, if set_changes fields d then 1%N else 0%N)
      else match update_first filter fields ds with
           | Some (ds', n) => Some (d :: ds', n)
           | None => None
           end
  end.

(** [collection.update_one(filter, {"$set": fields}).modified_count]. *)
Definition update_one (coll : string) (filter fields : list (string * PyVal))
  : M N := fun w =>
  match update_first filter fields (get_collection w coll) with
  | Some (ds, n) => (Ok n, log_op (OpUpdateOne coll) (Some (coll, ds)) w)
  | None => (Ok 0%N, log_op (OpUpdateOne coll) None w)
  end.

(** [DatabaseModels]: the collection names. *)
Definition TIMESHEETS : string := "timesheets".
Definition INVOICES : string := "invoices".
Definition EXPENSES : string := "expenses".
Definition TALENT_INVOICE : string := "talentInvoice".
Definition BILLING_INFO : string := "billingInformation".

(** ** Arithmetic and comparison on values *)

#[global] Instance Res_ret : MRet Res := fun A a => Ok a.
#[global] Instance Res_bind : MBind Res := fun A B f r =>
  match r with
  | Ok a => f a
  | Raise e => Raise e
  end.

(** [v == "literal"]. *)
Definition py_eq_str (v : PyVal) (s : string) : bool :=
  match v with
  | VStr t => String.eqb t s
  | _ => false
  end.

(** [v in [s1, s2, ...]] for a list of string literals. *)
Definition py_in_strs (v : PyVal) (l : list string) : bool :=
  existsb (py_eq_str v) l.

(** [a * b] on numbers. *)
Definition py_mul (a b : PyVal) : Res PyVal :=
  match a, b with
  | VFloat x, VFloat y => Ok (VFloat (x * y)%float)
  | _, _ => Raise (TypeError "unsupported operand type(s) for *")
  end.

(** [a / c] for a float literal [c]. *)
Definition py_truediv (a : PyVal) (c : float) : Res PyVal :=
  match a with
  | VFloat x => Ok (VFloat (x / c)%float)
  | _ => Raise (TypeError "unsupported operand type(s) for /")
  end.

(** [total += v] on a float [total]. *)
Definition py_iadd_float (total : float) (v : PyVal) : Res float :=
  match v with
  | VFloat h => Ok (total + h)%float
  | _ => Raise (TypeError "unsupported operand type(s) for +=")
  end.

(** [not d] for an [Optional[Dict]]: [None] and the empty dictionary. *)
Definition dict_falsy (o : option Doc) : bool :=
  match o with
  | None => true
  | Some d => Nat.eqb (size d) 0
  end.

(** A nested dictionary: [d.get(k, dflt)]. *)
Fixpoint assoc_get (d : list (string * PyVal)) (k : string) (dflt : PyVal) : PyVal :=
  match d with
  | [] => dflt
  | (k', v) :: d' => if String.eqb k' k then v else assoc_get d' k dflt
  end.

(** ** Entry generation ([while current_date <= end:]) *)

Definition make_entry (current_date : Date) (hours_per_day : PyVal) : PyVal :=
  VDict [("date", VStr (strftime_ymd current_date));
         ("hours", hours_per_day);
         ("description", VNone)].

Fixpoint entries_loop (fuel : nat) (hours_per_day : PyVal) (end_ : Date)
    (current_date : Date) (entries : list PyVal) (total_hours : float)
  : Res (list PyVal * float) :=
  match fuel with
  | O => Raise OutOfFuel
  | S fuel' =>
      if date_leb current_date end_ then
        let entry := make_entry current_date hours_per_day in
        let entries := (entries ++ [entry])%list in
        total_hours ← py_iadd_float total_hours hours_per_day;
        current_date ← add_one_day current_date;
        entries_loop fuel' hours_per_day end_ current_date entries total_hours
      else Ok (entries, total_hours)
  end.

(** Enough iterations for the range: one per day and the final test. *)
Definition loop_fuel (start end_ : Date) : nat :=
  S (Z.to_nat (toordinal end_ - toordinal start + 1)).

(** The lines from [# Parse dates] to the end of the loop, shared by
    [create_timesheet] and [update_timesheet_dates]: [(entries, total_hours)]. *)
Definition generate_entries (start_date end_date hours_per_day : PyVal)
  : Res (list PyVal * float) :=
  start ← strptime start_date;
  end_ ← strptime end_date;
  entries_loop (loop_fuel start end_) hours_per_day end_ start [] 0%float.

(** ** Identifiers *)

(** [f"{prefix}-{now.strftime('%Y%m')}-{now.microsecond % 1000}"]. *)
Definition make_id (prefix : string) (now : DateTime) : string :=
  prefix ++ "-" ++ strftime_Ym (dt_date now) ++ "-"
         ++ str_of_Z (microsecond now mod 1000)%Z.

(** ** The invoice amount ([# Calculate invoice amount]) *)

Definition invoice_amount (rate_type total_hours rate_value : PyVal) : Res PyVal :=
  if py_eq_str rate_type "Hourly" then
    py_mul total_hours rate_value
  else if py_eq_str rate_type "Daily" then
    days ← py_truediv total_hours 8.0%float;
    py_mul days rate_value
  else if py_eq_str rate_type "Weekly" then
    weeks ← py_truediv total_hours (8.0 * 5)%float;
    py_mul weeks rate_value
  else if py_eq_str rate_type "Monthly" then
    months ← py_truediv total_hours (8.0 * 20)%float;
    py_mul months rate_value
  else Ok (VFloat 0.0%float).

(** [for item in expense_items]: what the loop iterates over. *)
Fixpoint chars_of (s : string) : list PyVal :=
  match s with
  | EmptyString => []
  | String c s' => VStr (String c EmptyString) :: chars_of s'
  end.

Definition py_iter (v : PyVal) : Res (list PyVal) :=
  match v with
  | VList l => Ok l
  | VStr s => Ok (chars_of s)
  | VDict d => Ok (map (fun kv => VStr kv.1) d)
  | _ => Raise (TypeError "object is not iterable")
  end.

(** [item.get(k, dflt)] on an element of the list. *)
Definition item_get (item : PyVal) (k : string) (dflt : PyVal) : Res PyVal :=
  match item with
  | VDict d => Ok (assoc_get d k dflt)
  | _ => Raise (AttributeError "object has no attribute 'get'")
  end.

Definition expense_item (item : PyVal) : Res PyVal :=
  description ← item_get item "description" (VStr "Expense item");
  quantity ← item_get item "quantity" (VFloat 1%float);
  rate ← item_get item "amount" (VFloat 0%float);
  amount ← item_get item "amount" (VFloat 0%float);
  mret (VDict [("description", description); ("quantity", quantity);
               ("rate", rate); ("amount", amount)]).

Fixpoint expense_items_loop (expense_items items : list PyVal) : Res (list PyVal) :=
  match expense_items with
  | [] => Ok items
  | item :: rest =>
      it ← expense_item item;
      expense_items_loop rest (items ++ [it])%list
  end.

(** The result dictionaries of the orchestrator's operations. *)
Record OpResult : Type := mkOpResult {
  operation : string;
  data : option Doc;
  message : string }.

(** The [query] dictionary [TimesheetHandler.list_timesheets] builds from its
    filters (the [find] it then runs is the store's). *)
Definition list_timesheets_query
    (project_id talent_id status start_date end_date : PyVal) : Doc :=
  let query : Doc := ∅ in
  let query := if truthy project_id then <["project_id" := project_id]> query else query in
  let query := if truthy talent_id then <["user_id" := talent_id]> query else query in
  let query := if truthy status then <["status" := status]> query else query in
  let query :=
    if truthy start_date
    then <["start_date" := VDict [("$gte", start_date)]]> query else query in
  if truthy end_date then
    match query !! "start_date" with
    | Some (VDict range) =>
        <["start_date" := VDict (range ++ [("$lte", end_date)])%list]> query
    | Some _ => query                   (* not reached: the value is the range *)
    | None => <["end_date" := VDict [("$lte", end_date)]]> query
    end
  else query.

Section Handlers.

(** [str(v)] of a float, an ObjectId, a list or a dictionary: Python's
    rendering of those, which the model does not fix. *)
Variable py_repr : PyVal -> string.

(** [str(v)], [f"{v}"]. *)
Definition py_str (v : PyVal) : string :=
  match v with
  | VStr s => s
  | VNone => "None"
  | _ => py_repr v
  end.

(** [if doc and "_id" in doc: doc["_id"] = str(doc["_id"])]. *)
Definition stringify_id (o : option Doc) : option Doc :=
  match o with
  | Some d =>
      match d !! "_id" with
      | Some id => Some (<["_id" := VStr (py_str id)]> d)
      | None => Some d
      end
  | None => None
  end.

(** *** [src/handlers/timesheet_handler.py] *)

(** [TimesheetHandler.get_timesheet]. *)
Definition get_timesheet (timesheet_id : PyVal) : M (option Doc) :=
  timesheet ← find_one TIMESHEETS [("timesheet_id", timesheet_id)];
  mret (stringify_id timesheet).

(** [TimesheetHandler.create_timesheet]. *)
Definition create_timesheet
    (project_id talent_id start_date end_date hours_per_day : PyVal) : M Doc :=
  now_ ← now;
  let timesheet_id := make_id "TS" now_ in
  '(entries, total_hours) ← lift (generate_entries start_date end_date hours_per_day);
  created_at ← now;
  updated_at ← now;
  let timesheet : Doc :=
    list_to_map
      [("timesheet_id", VStr timesheet_id);
       ("project_id", project_id);
       ("user_id", talent_id);
       ("start_date", start_date);
       ("end_date", end_date);
       ("status", VStr "draft");
       ("entries", VList entries);
       ("total_hours", VFloat total_hours);
       ("created_at", VStr (isoformat created_at));
       ("updated_at", VStr (isoformat updated_at))] in
  inserted_id ← insert_one TIMESHEETS timesheet;
  mret (<["_id" := VStr (py_str inserted_id)]> timesheet).

(** [TimesheetHandler.update_timesheet_dates]. *)
Definition update_timesheet_dates
    (timesheet_id start_date end_date hours_per_day : PyVal) : M (option Doc) :=
  timesheet ← get_timesheet timesheet_id;
  if dict_falsy timesheet then
    raise (ValueError ("Timesheet " ++ py_str timesheet_id ++ " not found"))
  else
    '(entries, total_hours) ← lift (generate_entries start_date end_date hours_per_day);
    updated_at ← now;
    let update_data :=
      [("start_date", start_date);
       ("end_date", end_date);
       ("entries", VList entries);
       ("total_hours", VFloat total_hours);
       ("updated_at", VStr (isoformat updated_at))] in
    modified_count ← update_one TIMESHEETS [("timesheet_id", timesheet_id)] update_data;
    if N.eqb modified_count 0 then
      raise (ValueError ("Failed to update timesheet " ++ py_str timesheet_id))
    else get_timesheet timesheet_id.

Definition timesheet_statuses : list string :=
  ["draft"; "submitted"; "approved"; "rejected"].

(** [TimesheetHandler.update_timesheet_status]. *)
Definition update_timesheet_status (timesheet_id status : PyVal) : M (option Doc) :=
  if negb (py_in_strs status timesheet_statuses) then
    raise (ValueError ("Invalid status: " ++ py_str status))
  else
    updated_at ← now;
    modified_count ←
      update_one TIMESHEETS [("timesheet_id", timesheet_id)]
                 [("status", status); ("updated_at", VStr (isoformat updated_at))];
    if N.eqb modified_count 0 then
      raise (ValueError ("Timesheet " ++ py_str timesheet_id ++ " not found"))
    else get_timesheet timesheet_id.

(** *** [src/handlers/expense_handler.py] *)

(** [ExpenseHandler.get_expense]. *)
Definition get_expense (expense_id : PyVal) : M (option Doc) :=
  expense ← find_one EXPENSES [("expense_id", expense_id)];
  mret (stringify_id expense).

(** *** [src/handlers/invoice_handler.py] *)

(** [d.get(k, dflt)] on a document. *)
Definition doc_get (d : Doc) (k : string) (dflt : PyVal) : PyVal :=
  default dflt (d !! k).

(** [InvoiceHandler.create_timesheet_invoice]. *)
Definition create_timesheet_invoice (timesheet_id : PyVal) : M Doc :=
  timesheet ← get_timesheet timesheet_id;
  match timesheet with
  | Some timesheet_doc =>
    if dict_falsy timesheet then
      raise (ValueError ("Timesheet " ++ py_str timesheet_id ++ " not found"))
    else
    let project_id := py_get timesheet_doc "project_id" in
    let talent_id := py_get timesheet_doc "user_id" in
    talent_invoice ←
      find_one TALENT_INVOICE [("project_id", project_id); ("talent_id", talent_id)];
    match talent_invoice with
    | Some talent_invoice_doc =>
      if dict_falsy talent_invoice then
        raise (ValueError ("Talent invoice settings not found for project "
                           ++ py_str project_id ++ " and talent " ++ py_str talent_id))
      else
      let rate_type := doc_get talent_invoice_doc "talentInvoiceRateType" (VStr "Hourly") in
      let rate_value := doc_get talent_invoice_doc "talentInvoiceRateValue" (VFloat 0%float) in
      let currency := doc_get talent_invoice_doc "talentInvoicingCurrency" (VStr "USD") in
      let total_hours := doc_get timesheet_doc "total_hours" (VFloat 0%float) in
      invoice_amount ← lift (invoice_amount rate_type total_hours rate_value);
      now_ ← now;
      let invoice_number := make_id "INV" now_ in
      let items :=
        [VDict [("description",
                 VStr ("Timesheet " ++ py_str timesheet_id ++ " - "
                       ++ py_str total_hours ++ " hours"));
                ("quantity", total_hours);
                ("rate", rate_value);
                ("amount", invoice_amount);
                ("rate_type", rate_type)]] in
      billing_info ← find_one BILLING_INFO [("project_id", project_id)];
      issue_now ← now;
      let issue_date := strftime_ymd (dt_date issue_now) in
      due_now ← now;
      due ← lift (add_days 30 (dt_date due_now));
      let due_date := strftime_ymd due in
      created_at ← now;
      updated_at ← now;
      let invoice : Doc :=
        list_to_map
          [("invoice_number", VStr invoice_number);
           ("project_id", project_id);
           ("talent_id", talent_id);
           ("timesheet_id", timesheet_id);
           ("status", VStr "draft");
           ("items", VList items);
           ("currency", currency);
           ("issue_date", VStr issue_date);
           ("due_date", VStr due_date);
           ("created_at", VStr (isoformat created_at));
           ("updated_at", VStr (isoformat updated_at))] in
      inserted_id ← insert_one INVOICES invoice;
      mret (<["_id" := VStr (py_str inserted_id)]> invoice)
    | None =>
      raise (ValueError ("Talent invoice settings not found for project "
                         ++ py_str project_id ++ " and talent " ++ py_str talent_id))
    end
  | None => raise (ValueError ("Timesheet " ++ py_str timesheet_id ++ " not found"))
  end.

(** [InvoiceHandler.create_expense_invoice]. *)
Definition create_expense_invoice (expense_id talent_id : PyVal) : M Doc :=
  expense ← get_expense expense_id;
  match expense with
  | Some expense_doc =>
    if dict_falsy expense then
      raise (ValueError ("Expense " ++ py_str expense_id ++ " not found"))
    else
    let project_id := py_get expense_doc "project_id" in
    let total_amount := doc_get expense_doc "total_amount" (VFloat 0%float) in
    let currency := doc_get expense_doc "currency" (VStr "USD") in
    now_ ← now;
    let invoice_number := make_id "INV" now_ in
    expense_items ← lift (py_iter (doc_get expense_doc "items" (VList [])));
    items ← lift (expense_items_loop expense_items []);
    let items :=
      match items with
      | [] => [VDict [("description", VStr ("Expense " ++ py_str expense_id));
                      ("quantity", VFloat 1%float);
                      ("rate", total_amount);
                      ("amount", total_amount)]]
      | _ => items
      end in
    issue_now ← now;
    let issue_date := strftime_ymd (dt_date issue_now) in
    due_now ← now;
    due ← lift (add_days 30 (dt_date due_now));
    let due_date := strftime_ymd due in
    created_at ← now;
    updated_at ← now;
    let invoice : Doc :=
      list_to_map
        [("invoice_number", VStr invoice_number);
         ("project_id", project_id);
         ("talent_id", talent_id);
         ("expense_id", expense_id);
         ("status", VStr "draft");
         ("items", VList items);
         ("currency", currency);
         ("issue_date", VStr issue_date);
         ("due_date", VStr due_date);
         ("created_at", VStr (isoformat created_at));
         ("updated_at", VStr (isoformat updated_at))] in
    inserted_id ← insert_one INVOICES invoice;
    mret (<["_id" := VStr (py_str inserted_id)]> invoice)
  | None => raise (ValueError ("Expense " ++ py_str expense_id ++ " not found"))
  end.

Definition invoice_statuses : list string := ["draft"; "sent"; "paid"; "cancelled"].

(** [InvoiceHandler.get_invoice]. *)
Definition get_invoice (invoice_number : PyVal) : M (option Doc) :=
  invoice ← find_one INVOICES [("invoice_number", invoice_number)];
  mret (stringify_id invoice).

(** [InvoiceHandler.update_invoice_status]. *)
Definition update_invoice_status (invoice_number status : PyVal) : M (option Doc) :=
  if negb (py_in_strs status invoice_statuses) then
    raise (ValueError ("Invalid status: " ++ py_str status))
  else
    updated_at ← now;
    modified_count ←
      update_one INVOICES [("invoice_number", invoice_number)]
                 [("status", status); ("updated_at", VStr (isoformat updated_at))];
    if N.eqb modified_count 0 then
      raise (ValueError ("Invoice " ++ py_str invoice_number ++ " not found"))
    else get_invoice invoice_number.

(** *** [src/bot/bot_orchestrator.py] *)

(** [BotOrchestrator._create_invoice]. *)
Definition _create_invoice (entities : Doc) : M OpResult :=
  let timesheet_id := py_get entities "timesheet_id" in
  let expense_id := py_get entities "expense_id" in
  let talent_id := py_or (py_get entities "talent_id") (py_get entities "user_id") in
  if truthy timesheet_id then
    invoice ← create_timesheet_invoice timesheet_id;
    mret (mkOpResult "create_timesheet_invoice" (Some invoice)
            ("Created invoice " ++ py_str (py_get invoice "invoice_number")
             ++ " from timesheet " ++ py_str timesheet_id))
  else if truthy expense_id then
    if negb (truthy talent_id) then
      raise (ValueError "talent_id required for expense invoice")
    else
      invoice ← create_expense_invoice expense_id talent_id;
      mret (mkOpResult "create_expense_invoice" (Some invoice)
              ("Created invoice " ++ py_str (py_get invoice "invoice_number")
               ++ " from expense " ++ py_str expense_id))
  else raise (ValueError "Either timesheet_id or expense_id required").

(** [BotOrchestrator._update_timesheet]. *)
Definition _update_timesheet (entities : Doc) : M OpResult :=
  let timesheet_id := py_get entities "timesheet_id" in
  if negb (truthy timesheet_id) then raise (ValueError "timesheet_id required")
  else
    let start_date := py_get entities "start_date" in
    let end_date := py_get entities "end_date" in
    let status := py_get entities "status" in
    let hours := py_get entities "hours" in
    if truthy status then
      timesheet ← update_timesheet_status timesheet_id status;
      mret (mkOpResult "update_timesheet_status" timesheet
              ("Updated timesheet " ++ py_str timesheet_id
               ++ " status to " ++ py_str status))
    else if truthy start_date && truthy end_date then
      let hours_per_day := if truthy hours then hours else VFloat 8.0%float in
      timesheet ← update_timesheet_dates timesheet_id start_date end_date hours_per_day;
      mret (mkOpResult "update_timesheet_dates" timesheet
              ("Updated timesheet " ++ py_str timesheet_id ++ " date range"))
    else raise (ValueError "Either status or start_date/end_date required for update").

End Handlers.

(** ** Definitions used to state the properties *)

(** The last date a [datetime] can hold. *)
Definition max_date : Date := mkDate 9999 12 31.

(** [n] successive calendar days from [d] on. *)
Fixpoint days_from (n : nat) (d : Date) : list Date :=
  match n with
  | O => []
  | S k => d :: match add_one_day d with
                | Ok d' => days_from k d'
                | Raise _ => []
                end
  end.

(** The calendar days from [start] to [end_], both included:
    [(end_ - start).days + 1] of them. *)
Definition days_between (start end_ : Date) : list Date :=
  days_from (Z.to_nat (toordinal end_ - toordinal start + 1)) start.

(** [total + h + h + ... + h], with [n] additions from left to right. *)
Fixpoint add_repeatedly (n : nat) (h total : float) : float :=
  match n with
  | O => total
  | S k => add_repeatedly k h (total + h)%float
  end.

(** [float(n)] for a count of days. *)
Definition float_of_nat (n : nat) : float :=
  PrimFloat.of_uint63 (Uint63.of_Z (Z.of_nat n)).

(** The dictionary [create_timesheet] builds. *)
Definition timesheet_doc (now_ created_at updated_at : DateTime)
    (project_id talent_id start_date end_date : PyVal)
    (entries : list PyVal) (total_hours : float) : Doc :=
  list_to_map
    [("timesheet_id", VStr (make_id "TS" now_));
     ("project_id", project_id);
     ("user_id", talent_id);
     ("start_date", start_date);
     ("end_date", end_date);
     ("status", VStr "draft");
     ("entries", VList entries);
     ("total_hours", VFloat total_hours);
     ("created_at", VStr (isoformat created_at));
     ("updated_at", VStr (isoformat updated_at))].

(** The fields [update_timesheet_dates] sets. *)
Definition dates_update (start_date end_date : PyVal) (entries : list PyVal)
    (total_hours : float) (updated_at : DateTime) : list (string * PyVal) :=
  [("start_date", start_date);
   ("end_date", end_date);
   ("entries", VList entries);
   ("total_hours", VFloat total_hours);
   ("updated_at", VStr (isoformat updated_at))].

(** The fields a status update sets. *)
Definition status_update (status : PyVal) (updated_at : DateTime)
  : list (string * PyVal) :=
  [("status", status); ("updated_at", VStr (isoformat updated_at))].

(** The four characters [%Y] prints are the digits of the year. *)
Definition year_text_ok (y : Z) : bool :=
  match fmt_04d y with
  | String a (String b (String c (String d EmptyString))) =>
      is_digit a && is_digit b && is_digit c && is_digit d
      && (1000 * digit_val a + 100 * digit_val b + 10 * digit_val c + digit_val d =? y)%Z
  | _ => false
  end.

(** The text [%d] prints reads back as the day. *)
Definition day_text_ok (d : Z) : bool :=
  match parse_day (fmt_02d d) with
  | Some (d', EmptyString) => (d' =? d)%Z
  | _ => false
  end.

(** *** Sample data *)

(** A clock that advances by one microsecond at each reading, from
    2025-10-15 09:30:00.123456 on. *)
Definition sample_clock (n : nat) : DateTime :=
  mkDateTime (mkDate 2025 10 15) 9 30 0 (123456 + Z.of_nat n).

(** An empty store. *)
Definition sample_world : World := mkWorld ∅ sample_clock 0 0 [].

(** A rendering of the values that are not strings. *)
Definition sample_repr (v : PyVal) : string :=
  match v with
  | VFloat _ => "<float>"
  | VOid _ => "<ObjectId>"
  | _ => "<object>"
  end.

(** The store after [create_timesheet("P1", "T1", "2025-01-01",
    "2025-01-10", 8.0)] on the empty store: one draft timesheet,
    TS-202510-456. *)
Definition sample_timesheet_world : World :=
  (create_timesheet sample_repr (VStr "P1") (VStr "T1") (VStr "2025-01-01")
                    (VStr "2025-01-10") (VFloat 8%float) sample_world).2.

(** A store with a 40-hour timesheet and its rate record, Daily at 100. *)
Definition sample_invoice_world : World :=
  mkWorld
    (<[TIMESHEETS :=
         [list_to_map
            [("timesheet_id", VStr "TS-202510-148");
             ("project_id", VStr "P1");
             ("user_id", VStr "T1");
             ("status", VStr "approved");
             ("total_hours", VFloat 40%float)]]]>
       (<[TALENT_INVOICE :=
            [list_to_map
               [("project_id", VStr "P1");
                ("talent_id", VStr "T1");
                ("talentInvoiceRateType", VStr "Daily");
                ("talentInvoiceRateValue", VFloat 100%float);
                ("talentInvoicingCurrency", VStr "EUR")]]]> ∅))
    sample_clock 0 0 [].

(** An update request with a status and a date range. *)
Definition sample_update_entities : Doc :=
  list_to_map [("timesheet_id", VStr "TS-202510-456");
               ("status", VStr "submitted");
               ("start_date", VStr "2025-02-01");
               ("end_date", VStr "2025-02-28")].

(** A store with one paid invoice, INV-202511-186. *)
Definition sample_paid_world : World :=
  mkWorld
    (<[INVOICES :=
         [list_to_map
            [("invoice_number", VStr "INV-202511-186");
             ("status", VStr "paid");
             ("updated_at", VStr "2025-09-30T18:00:00")]]]> ∅)
    sample_clock 0 0 [].

(** ** More of [src/bot/entity_extractor.py] *)

(** [re.search(pattern, text)] for a pattern whose match at the head of a
    string is [m]: the match at the leftmost position that has one. *)
Fixpoint re_search {A : Type} (m : string -> option A) (s : string) : option A :=
  match m s with
  | Some x => Some x
  | None =>
      match s with
      | EmptyString => None
      | String _ s' => re_search m s'
      end
  end.

(** [n] characters of the class [f] at the head of [s]: what follows them. *)
Fixpoint take_class (f : ascii -> bool) (n : nat) (s : string) : option string :=
  match n with
  | O => Some s
  | S k =>
      match s with
      | String c s' => if f c then take_class f k s' else None
      | EmptyString => None
      end
  end.

(** [TIMESHEET_ID_PATTERN = r'TS-\d{6}-\d+'] and [INVOICE_NUMBER_PATTERN =
    r'INV-\d{6}-\d+'] matched at the head of [s] under [re.IGNORECASE]:
    [match.group()].  [prefix] is the literal with its dash, in lower case;
    the final [\d+] is greedy and takes every digit there is. *)
Definition match_id (prefix : string) (s : string) : option string :=
  r ← strip_prefix_ci prefix s;
  r ← take_class is_digit 6 r;
  r ← strip_prefix "-" r;
  match span_class is_digit r with
  | (S n, _) => Some (str_take (String.length prefix + 7 + S n) s)
  | (O, _) => None
  end.

(** [EntityExtractor.extract_timesheet_id]. *)
Definition extract_timesheet_id (text : string) : option string :=
  re_search (match_id "ts-") text.

(** [EntityExtractor.extract_invoice_number]. *)
Definition extract_invoice_number (text : string) : option string :=
  re_search (match_id "inv-") text.

(** [[0-9a-f]] under [re.IGNORECASE]. *)
Definition is_hex (c : ascii) : bool :=
  let n := N_of_ascii (lower_ascii c) in
  is_digit c || ((97 <=? n)%N && (n <=? 102)%N).

(** [UUID_PATTERN] matched at the head of [s]: the 36 characters matched. *)
Definition match_uuid (s : string) : option string :=
  r ← take_class is_hex 8 s;
  r ← strip_prefix "-" r;
  r ← take_class is_hex 4 r;
  r ← strip_prefix "-" r;
  r ← take_class is_hex 4 r;
  r ← strip_prefix "-" r;
  r ← take_class is_hex 4 r;
  r ← strip_prefix "-" r;
  _ ← take_class is_hex 12 r;
  Some (str_take 36 s).

(** [EntityExtractor.extract_uuid]. *)
Definition extract_uuid (text : string) : option string :=
  re_search match_uuid text.

Definition statuses : list string :=
  ["draft"; "submitted"; "approved"; "rejected"; "sent"; "paid"; "cancelled"].

(** [EntityExtractor.extract_status]: the loop returns at the first status
    the text contains. *)
Definition extract_status (text : string) : option string :=
  let text_lower := str_lower text in
  List.find (fun status => str_contains status text_lower) statuses.

Definition currencies : list string := ["USD"; "EUR"; "GBP"; "AUD"; "CAD"; "JPY"].

(** [EntityExtractor.extract_currency]. *)
Definition extract_currency (text : string) : option string :=
  let text_upper := str_upper text in
  List.find (fun currency => str_contains currency text_upper) currencies.

(** [(\d+(?:\.\d+)?)] at the head of [s]: the length of the group and what
    follows it.  The digits are taken greedily, and the fraction when a digit
    follows the point; what comes next in each pattern, white space or a
    letter, cannot continue the number, so no shorter group matches. *)
Definition match_number (s : string) : option (nat * string) :=
  match span_class is_digit s with
  | (S n, String "." r) =>
      match span_class is_digit r with
      | (S k, r') => Some ((S n + 1 + S k)%nat, r')
      | (O, _) => Some (S n, String "." r)
      end
  | (S n, r) => Some (S n, r)
  | (O, _) => None
  end.

Definition starts_with_ci (p s : string) : bool :=
  match strip_prefix_ci p s with
  | Some _ => true
  | None => false
  end.

(** [(\d+(?:\.\d+)?)\s*(?:u1|u2|...)] at the head of [s], the units in lower
    case: [match.group(1)]. *)
Definition match_number_unit (units : list string) (s : string) : option string :=
  '(n, r) ← match_number s;
  let '(_, r) := span_class is_space r in
  if existsb (fun u => starts_with_ci u r) units then Some (str_take n s) else None.

(** [hours?\s*[:\s]+(\d+(?:\.\d+)?)] ([plural] set) and
    [amount[:\s]+(\d+(?:\.\d+)?)] at the head of [s]: [match.group(1)].
    What stands between the label and the number is one character or more
    of [[:\s]], as many as there are. *)
Definition match_label_number (label : string) (plural : bool) (s : string)
  : option string :=
  r ← strip_prefix_ci label s;
  let r := if plural
           then match strip_prefix_ci "s" r with Some r' => r' | None => r end
           else r in
  match span_class (fun c => Ascii.eqb c ":" || is_space c) r with
  | (S _, r') => '(n, _) ← match_number r'; Some (str_take n r')
  | (O, _) => None
  end.

(** [\$(\d+(?:\.\d+)?)] at the head of [s]. *)
Definition match_dollar (s : string) : option string :=
  r ← strip_prefix "$" s;
  '(n, _) ← match_number r;
  Some (str_take n r).

(** [for pattern in patterns: match = re.search(...); if match: ... break]:
    the group of the first pattern that matches somewhere. *)
Fixpoint first_match (patterns : list (string -> option string)) (text : string)
  : option string :=
  match patterns with
  | [] => None
  | m :: rest =>
      match re_search m text with
      | Some g => Some g
      | None => first_match rest text
      end
  end.

Definition hours_patterns : list (string -> option string) :=
  [match_number_unit ["hour"]; match_number_unit ["hr"]; match_label_number "hour" true].

Definition amount_patterns : list (string -> option string) :=
  [match_dollar; match_number_unit ["usd"; "eur"; "gbp"; "aud"];
   match_label_number "amount" false].

(** [.copy()] of the parser's [entities], [{}] when there is none: a value
    that is not a dictionary has no [copy], or no [get]. *)
Definition entities_copy (parsed_query : Doc) : Res Doc :=
  match default (VDict []) (parsed_query !! "entities") with
  | VDict d => Ok (list_to_map d)
  | VList _ => Raise (AttributeError "object has no attribute 'get'")
  | _ => Raise (AttributeError "object has no attribute 'copy'")
  end.

Definition opt_str (o : option string) : PyVal :=
  match o with
  | Some s => VStr s
  | None => VNone
  end.

(** [if not entities.get(k): entities[k] = found]. *)
Definition fill (k : string) (found : option string) (entities : Doc) : Doc :=
  if negb (truthy (py_get entities k)) then <[k := opt_str found]> entities
  else entities.

Definition is_not_None (v : PyVal) : bool :=
  match v with
  | VNone => false
  | _ => true
  end.

Section Extractor.

(** [float(s)] on the text of a number, Python's reading of a decimal, which
    the model does not fix. *)
Variable py_float : string -> float.

(** [datetime.now().year]. *)
Variable current_year : Z.

(** [EntityExtractor.extract_numbers]. *)
Definition extract_numbers (text : string) : gmap string float :=
  let numbers : gmap string float := ∅ in
  let numbers :=
    match first_match hours_patterns text with
    | Some g => <["hours" := py_float g]> numbers
    | None => numbers
    end in
  match first_match amount_patterns text with
  | Some g => <["amount" := py_float g]> numbers
  | None => numbers
  end.

(** [EntityExtractor.extract_all_entities]; [entities.update(d)] is the union
    that prefers [d]. *)
Definition extract_all_entities (parsed_query : Doc) (original_query : string)
  : Res Doc :=
  entities ← entities_copy parsed_query;
  let entities := fill "timesheet_id" (extract_timesheet_id original_query) entities in
  let entities := fill "invoice_number" (extract_invoice_number original_query) entities in
  let entities := fill "expense_id" (extract_uuid original_query) entities in
  let dates := extract_dates current_year original_query in
  let entities := (VStr <$> dates) ∪ entities in
  let entities := fill "status" (extract_status original_query) entities in
  let numbers := extract_numbers original_query in
  let entities := (VFloat <$> numbers) ∪ entities in
  let entities := fill "currency" (extract_currency original_query) entities in
  mret (filter (fun kv : string * PyVal => is_not_None kv.2 = true) entities).

End Extractor.

(** ** [src/bot/query_parser.py]: the response cleaned before [json.loads] *)

(** [s[n:]]. *)
Fixpoint str_drop (n : nat) (s : string) : string :=
  match n, s with
  | S k, String _ s' => str_drop k s'
  | _, _ => s
  end.

Fixpoint str_rev (s : string) : string :=
  match s with
  | EmptyString => EmptyString
  | String c s' => str_rev s' ++ String c EmptyString
  end.

(** [s.strip()]: the white space of both ends removed. *)
Definition lstrip (s : string) : string := (span_class is_space s).2.
Definition rstrip (s : string) : string := str_rev (lstrip (str_rev s)).
Definition strip (s : string) : string := rstrip (lstrip s).

Definition startswith (p s : string) : bool :=
  match strip_prefix p s with
  | Some _ => true
  | None => false
  end.

Definition endswith (p s : string) : bool := startswith (str_rev p) (str_rev s).

(** [s[:-n]] for a positive [n]. *)
Definition drop_last (n : nat) (s : string) : string :=
  str_rev (str_drop n (str_rev s)).

(** [QueryParser.parse], from [response = response.strip()] to the second
    [strip]: the text handed to [json.loads]. *)
Definition clean_response (response : string) : string :=
  let response := strip response in
  let response :=
    if startswith "```json" response then str_drop 7 response else response in
  let response :=
    if startswith "```" response then str_drop 3 response else response in
  let response :=
    if endswith "```" response then drop_last 3 response else response in
  strip response.

(** ** Listing, projects and talents; the orchestrator's dispatch *)

Definition PROJECTS : string := "projects".
Definition TALENTS : string := "talents".

(** The [query] dictionaries the other [list_*] methods build. *)
Definition list_invoices_query
    (status project_id talent_id start_date end_date : PyVal) : Doc :=
  let query : Doc := ∅ in
  let query := if truthy status then <["status" := status]> query else query in
  let query := if truthy project_id then <["project_id" := project_id]> query else query in
  let query := if truthy talent_id then <["talent_id" := talent_id]> query else query in
  let query :=
    if truthy start_date
    then <["issue_date" := VDict [("$gte", start_date)]]> query else query in
  if truthy end_date then
    match query !! "issue_date" with
    | Some (VDict range) =>
        <["issue_date" := VDict (range ++ [("$lte", end_date)])%list]> query
    | Some _ => query                   (* not reached: the value is the range *)
    | None => <["issue_date" := VDict [("$lte", end_date)]]> query
    end
  else query.

Definition list_expenses_query (project_id talent_id status : PyVal) : Doc :=
  let query : Doc := ∅ in
  let query := if truthy project_id then <["project_id" := project_id]> query else query in
  let query := if truthy talent_id then <["user_id" := talent_id]> query else query in
  if truthy status then <["status" := status]> query else query.

Definition list_projects_query (talent_id : PyVal) : Doc :=
  let query : Doc := ∅ in
  if truthy talent_id then <["talent_id" := talent_id]> query else query.

(** A query value that is a document of operators, [{"$gte": a, ...}]. *)
Definition is_operators (v : PyVal) : bool :=
  match v with
  | VDict ((String "$" _, _) :: _) => true
  | _ => false
  end.

(** The result dictionaries of [_execute_operation]: [data] is a document or
    a list of documents; [message] is there for a create or an update,
    [entity_type] for a read. *)
Inductive ResultData : Type :=
| DataDoc (d : option Doc)
| DataList (l : list Doc).

Record Result : Type := mkResult {
  res_operation : string;
  res_data : ResultData;
  res_message : option string;
  res_entity_type : option string }.

Definition of_OpResult (r : OpResult) : Result :=
  mkResult (operation r) (DataDoc (data r)) (Some (message r)) None.

(** [f"{intent}"] and [f"{entity_type}"]. *)
Definition Intent_str (i : Intent) : string :=
  match i with
  | CREATE => "Intent.CREATE"
  | READ => "Intent.READ"
  | UPDATE => "Intent.UPDATE"
  | DELETE => "Intent.DELETE"
  | QUERY => "Intent.QUERY"
  end.

Definition EntityType_str (t : option EntityType) : string :=
  match t with
  | Some TIMESHEET => "EntityType.TIMESHEET"
  | Some INVOICE => "EntityType.INVOICE"
  | Some EXPENSE => "EntityType.EXPENSE"
  | Some PROJECT => "EntityType.PROJECT"
  | Some TALENT => "EntityType.TALENT"
  | None => "None"
  end.

Section MoreHandlers.

Variable py_repr : PyVal -> string.

(** The store's comparison operators: whether a field (absent, or its value)
    satisfies a document of operators.  The model does not fix them. *)
Variable operators_match : list (string * PyVal) -> option PyVal -> bool.

Definition query_field_matches (doc : Doc) (kv : string * PyVal) : bool :=
  match kv.2 with
  | VDict ops => if is_operators kv.2 then operators_match ops (doc !! kv.1)
                 else field_matches doc kv
  | _ => field_matches doc kv
  end.

Definition query_matches (query : Doc) (doc : Doc) : bool :=
  forallb (query_field_matches doc) (map_to_list query).

(** [list(collection.find(query))], in the collection's order; the log
    records it as a read of the collection. *)
Definition find_many (coll : string) (query : Doc) : M (list Doc) := fun w =>
  (Ok (List.filter (query_matches query) (get_collection w coll)),
   log_op (OpFindOne coll) None w).

(** [if "_id" in doc: doc["_id"] = str(doc["_id"])]. *)
Definition stringify_doc (d : Doc) : Doc :=
  match d !! "_id" with
  | Some id => <["_id" := VStr (py_str py_repr id)]> d
  | None => d
  end.

(** [TimesheetHandler.list_timesheets]. *)
Definition list_timesheets
    (project_id talent_id status start_date end_date : PyVal) : M (list Doc) :=
  let query := list_timesheets_query project_id talent_id status start_date end_date in
  timesheets ← find_many TIMESHEETS query;
  mret (stringify_doc <$> timesheets).

(** [TimesheetHandler.get_timesheet_hours]. *)
Definition get_timesheet_hours (timesheet_id : PyVal) : M PyVal :=
  timesheet ← get_timesheet py_repr timesheet_id;
  match timesheet with
  | Some timesheet_doc =>
      if dict_falsy timesheet then
        raise (ValueError ("Timesheet " ++ py_str py_repr timesheet_id ++ " not found"))
      else mret (doc_get timesheet_doc "total_hours" (VFloat 0.0%float))
  | None =>
      raise (ValueError ("Timesheet " ++ py_str py_repr timesheet_id ++ " not found"))
  end.

(** [InvoiceHandler.list_invoices]. *)
Definition list_invoices
    (status project_id talent_id start_date end_date : PyVal) : M (list Doc) :=
  let query := list_invoices_query status project_id talent_id start_date end_date in
  invoices ← find_many INVOICES query;
  mret (stringify_doc <$> invoices).

(** [ExpenseHandler.list_expenses], [ExpenseHandler.get_expense_total]. *)
Definition list_expenses (project_id talent_id status : PyVal) : M (list Doc) :=
  let query := list_expenses_query project_id talent_id status in
  expenses ← find_many EXPENSES query;
  mret (stringify_doc <$> expenses).

Definition get_expense_total (expense_id : PyVal) : M PyVal :=
  expense ← get_expense py_repr expense_id;
  match expense with
  | Some expense_doc =>
      if dict_falsy expense then
        raise (ValueError ("Expense " ++ py_str py_repr expense_id ++ " not found"))
      else mret (doc_get expense_doc "total_amount" (VFloat 0.0%float))
  | None =>
      raise (ValueError ("Expense " ++ py_str py_repr expense_id ++ " not found"))
  end.

(** *** [src/handlers/project_handler.py] *)

Definition get_project (project_id : PyVal) : M (option Doc) :=
  project ← find_one PROJECTS [("project_id", project_id)];
  mret (stringify_id py_repr project).

Definition get_talent (talent_id : PyVal) : M (option Doc) :=
  talent ← find_one TALENTS [("user_id", talent_id)];
  mret (stringify_id py_repr talent).

Definition list_projects (talent_id : PyVal) : M (list Doc) :=
  let query := list_projects_query talent_id in
  projects ← find_many PROJECTS query;
  mret (stringify_doc <$> projects).

(** [for talent_id in talent_ids:] of [get_project_talents]. *)
Fixpoint talents_loop (talent_ids : list PyVal) (talents : list Doc) : M (list Doc) :=
  match talent_ids with
  | [] => mret talents
  | talent_id :: rest =>
      talent ← get_talent talent_id;
      match talent with
      | Some talent_doc =>
          if dict_falsy talent then talents_loop rest talents
          else talents_loop rest (talents ++ [talent_doc])%list
      | None => talents_loop rest talents
      end
  end.

Definition get_project_talents (project_id : PyVal) : M (list Doc) :=
  project ← get_project project_id;
  match project with
  | Some project_doc =>
      if dict_falsy project then mret []
      else
        let talent_ids : list PyVal := [] in
        let talent_ids :=
          if truthy (py_get project_doc "talent_id")
          then (talent_ids ++ [py_get project_doc "talent_id"])%list
          else talent_ids in
        talents_loop talent_ids []
  | None => mret []
  end.

(** *** More of [src/bot/bot_orchestrator.py] *)

(** [BotOrchestrator._create_timesheet]. *)
Definition _create_timesheet (entities : Doc) : M OpResult :=
  let project_id := py_get entities "project_id" in
  let talent_id := py_or (py_get entities "talent_id") (py_get entities "user_id") in
  let start_date := py_get entities "start_date" in
  let end_date := py_get entities "end_date" in
  let hours_per_day := doc_get entities "hours" (VFloat 8.0%float) in
  if negb (forallb truthy [project_id; talent_id; start_date; end_date]) then
    raise (ValueError
             "Missing required fields: project_id, talent_id, start_date, end_date")
  else
    timesheet ← create_timesheet py_repr project_id talent_id start_date end_date
                                 hours_per_day;
    mret (mkOpResult "create_timesheet" (Some timesheet)
            ("Created timesheet " ++ py_str py_repr (py_get timesheet "timesheet_id"))).

(** What the [_read_*] methods do with an identifier: the document read by
    the handler's [get], or [ValueError]; [label] is the word of the
    message. *)
Definition read_one (get : PyVal -> M (option Doc)) (id : PyVal)
    (label operation entity_type : string) : M Result :=
  found ← get id;
  if dict_falsy found then
    raise (ValueError (label ++ " " ++ py_str py_repr id ++ " not found"))
  else mret (mkResult operation (DataDoc found) None (Some entity_type)).

(** [BotOrchestrator._read_timesheet]. *)
Definition _read_timesheet (entities : Doc) : M Result :=
  let timesheet_id := py_get entities "timesheet_id" in
  if truthy timesheet_id then
    read_one (get_timesheet py_repr) timesheet_id "Timesheet" "get_timesheet" "TIMESHEET"
  else
    timesheets ←
      list_timesheets (py_get entities "project_id")
                      (py_or (py_get entities "talent_id") (py_get entities "user_id"))
                      (py_get entities "status")
                      (py_get entities "start_date")
                      (py_get entities "end_date");
    mret (mkResult "list_timesheets" (DataList timesheets) None (Some "TIMESHEET")).

(** [BotOrchestrator._read_invoice]. *)
Definition _read_invoice (entities : Doc) : M Result :=
  let invoice_number := py_get entities "invoice_number" in
  if truthy invoice_number then
    read_one (get_invoice py_repr) invoice_number "Invoice" "get_invoice" "INVOICE"
  else
    invoices ←
      list_invoices (py_get entities "status")
                    (py_get entities "project_id")
                    (py_or (py_get entities "talent_id") (py_get entities "user_id"))
                    VNone VNone;
    mret (mkResult "list_invoices" (DataList invoices) None (Some "INVOICE")).

(** [BotOrchestrator._read_expense]. *)
Definition _read_expense (entities : Doc) : M Result :=
  let expense_id := py_get entities "expense_id" in
  if truthy expense_id then
    read_one (get_expense py_repr) expense_id "Expense" "get_expense" "EXPENSE"
  else
    expenses ←
      list_expenses (py_get entities "project_id")
                    (py_or (py_get entities "talent_id") (py_get entities "user_id"))
                    (py_get entities "status");
    mret (mkResult "list_expenses" (DataList expenses) None (Some "EXPENSE")).

(** [BotOrchestrator._read_project]. *)
Definition _read_project (entities : Doc) : M Result :=
  let project_id := py_get entities "project_id" in
  if negb (truthy project_id) then raise (ValueError "project_id required")
  else read_one get_project project_id "Project" "get_project" "PROJECT".

(** [BotOrchestrator._read_talent]. *)
Definition _read_talent (entities : Doc) : M Result :=
  let talent_id := py_or (py_get entities "talent_id") (py_get entities "user_id") in
  if negb (truthy talent_id) then raise (ValueError "talent_id or user_id required")
  else read_one get_talent talent_id "Talent" "get_talent" "TALENT".

(** [BotOrchestrator._update_invoice]. *)
Definition _update_invoice (entities : Doc) : M OpResult :=
  let invoice_number := py_get entities "invoice_number" in
  if negb (truthy invoice_number) then raise (ValueError "invoice_number required")
  else
    let status := py_get entities "status" in
    if negb (truthy status) then raise (ValueError "status required for invoice update")
    else
      invoice ← update_invoice_status py_repr invoice_number status;
      mret (mkOpResult "update_invoice_status" invoice
              ("Updated invoice " ++ py_str py_repr invoice_number
               ++ " status to " ++ py_str py_repr status)).

(** [BotOrchestrator._generic_query] (it does not use [parsed_query]). *)
Definition _generic_query (entities : Doc) (parsed_query : Doc) : M Result :=
  if truthy (py_get entities "timesheet_id") then _read_timesheet entities
  else if truthy (py_get entities "invoice_number") then _read_invoice entities
  else if truthy (py_get entities "expense_id") then _read_expense entities
  else if truthy (py_get entities "project_id") then _read_project entities
  else
    timesheets ←
      list_timesheets (py_get entities "project_id")
                      (py_or (py_get entities "talent_id") (py_get entities "user_id"))
                      (py_get entities "status")
                      VNone VNone;
    mret (mkResult "list_timesheets" (DataList timesheets) None (Some "TIMESHEET")).

(** [BotOrchestrator._execute_operation]. *)
Definition _execute_operation (intent : Intent) (entity_type : option EntityType)
    (entities : Doc) (parsed_query : Doc) : M Result :=
  match intent with
  | CREATE =>
      match entity_type with
      | Some TIMESHEET => r ← _create_timesheet entities; mret (of_OpResult r)
      | Some INVOICE => r ← _create_invoice py_repr entities; mret (of_OpResult r)
      | _ => raise (ValueError ("Create operation not supported for "
                                ++ EntityType_str entity_type))
      end
  | READ =>
      match entity_type with
      | Some TIMESHEET => _read_timesheet entities
      | Some INVOICE => _read_invoice entities
      | Some EXPENSE => _read_expense entities
      | Some PROJECT => _read_project entities
      | Some TALENT => _read_talent entities
      | None => _generic_query entities parsed_query
      end
  | UPDATE =>
      match entity_type with
      | Some TIMESHEET => r ← _update_timesheet py_repr entities; mret (of_OpResult r)
      | Some INVOICE => r ← _update_invoice entities; mret (of_OpResult r)
      | _ => raise (ValueError ("Update operation not supported for "
                                ++ EntityType_str entity_type))
      end
  | QUERY => _generic_query entities parsed_query
  | DELETE => raise (ValueError ("Unsupported intent: " ++ Intent_str intent))
  end.

End MoreHandlers.

(** ** Definitions used to state the further properties *)

(** The [_id]s of a collection, in its order. *)
Definition ids_of (w : World) (coll : string) : list (option PyVal) :=
  (fun d : Doc => d !! "_id") <$> get_collection w coll.

(** From [w] to [w'] no document was removed or moved and none changed its
    [_id]; the clock is the same, and no reading of it, no ObjectId and no
    entry of the log was taken back. *)
Definition grows (w w' : World) : Prop :=
  (forall coll, ids_of w coll `prefix_of` ids_of w' coll)
  /\ clock w' = clock w
  /\ ticks w <= ticks w'
  /\ (next_oid w <= next_oid w')%N
  /\ store_log w `prefix_of` store_log w'.

Definition is_read (op : StoreOp) : bool :=
  match op with
  | OpFindOne _ => true
  | _ => false
  end.

(** From [w] to [w'] the store was only read: the documents, the clock, its
    readings and the ObjectId supply are the same, and the log has more
    reads. *)
Definition only_reads (w w' : World) : Prop :=
  collections w' = collections w
  /\ clock w' = clock w
  /\ ticks w' = ticks w
  /\ next_oid w' = next_oid w
  /\ exists ops, store_log w' = (store_log w ++ ops)%list
                 /\ forallb is_read ops = true.

(** The documents are the same in [w] and [w']. *)
Definition same_docs (w w' : World) : Prop := collections w' = collections w.

(** [m] keeps the relation [R] between the world before and the world after. *)
Definition keeps (R : World -> World -> Prop) {A : Type} (m : M A) : Prop :=
  forall w, R w (m w).2.

(** When [m] raises, the documents are as they were. *)
Definition atomic {A : Type} (m : M A) : Prop :=
  forall w e, (m w).1 = Raise e -> collections (m w).2 = collections w.

(** [m] never raises. *)
Definition never_raises {A : Type} (m : M A) : Prop :=
  forall w, exists a, (m w).1 = Ok a.

(** An invoice item whose [rate] is its [amount]. *)
Definition rate_is_amount (item : PyVal) : Prop :=
  exists d, item = VDict d
            /\ assoc_get d "rate" VNone = assoc_get d "amount" VNone.

(** Every character of [s] is in the class [f]. *)
Fixpoint str_forall (f : ascii -> bool) (s : string) : bool :=
  match s with
  | EmptyString => true
  | String c s' => f c && str_forall f s'
  end.

(** [s] does not start with a character of the class [f]. *)
Definition not_starting (f : ascii -> bool) (s : string) : bool :=
  match s with
  | EmptyString => true
  | String c _ => negb (f c)
  end.

(** An identifier: the letters of [prefix] in any case and its dash, six
    digits, a dash and one digit or more ([prefix] is in lower case). *)
Definition id_shape (prefix id : string) : Prop :=
  exists p d n : string,
    id = p ++ d ++ "-" ++ n
    /\ str_lower p = prefix
    /\ String.length d = 6
    /\ str_forall is_digit d = true
    /\ n <> ""
    /\ str_forall is_digit n = true.

(** A UUID: groups of 8, 4, 4, 4 and 12 hexadecimal digits, dashes between. *)
Definition uuid_shape (u : string) : Prop :=
  exists a b c d e : string,
    u = a ++ "-" ++ b ++ "-" ++ c ++ "-" ++ d ++ "-" ++ e
    /\ String.length a = 8 /\ String.length b = 4 /\ String.length c = 4
    /\ String.length d = 4 /\ String.length e = 12
    /\ str_forall is_hex (a ++ b ++ c ++ d ++ e) = true.

(** A number as the patterns of [extract_numbers] take it: digits, and
    possibly a point and digits. *)
Definition numeral (n : string) : Prop :=
  exists i : string,
    i <> "" /\ str_forall is_digit i = true
    /\ (n = i \/ exists f, n = i ++ "." ++ f /\ f <> "" /\ str_forall is_digit f = true).

(** Text of ASCII characters, the text [upper] and [lower] are the model's
    for. *)
Definition ascii_text (s : string) : bool :=
  str_forall (fun c => (N_of_ascii c <? 128)%N) s.

(** The text of a number below 1000 is digits, at least one. *)
Definition serial_text_ok (k : Z) : bool :=
  str_forall is_digit (str_of_Z k) && negb (String.eqb (str_of_Z k) "").

(** *** More sample data *)

(** Comparison operators on texts: [$gte] and [$lte] by the order of the
    characters; any other operator, and any other value, matches nothing. *)
Definition sample_operators (ops : list (string * PyVal)) (field : option PyVal)
  : bool :=
  match field with
  | Some (VStr s) =>
      forallb (fun kv : string * PyVal =>
                 match kv.2 with
                 | VStr bound =>
                     if String.eqb kv.1 "$gte" then String.leb bound s
                     else if String.eqb kv.1 "$lte" then String.leb s bound
                     else false
                 | _ => false
                 end) ops
  | _ => false
  end.

(** The digits of a number as an integer, and the power of ten its fraction
    divides it by. *)
Fixpoint numeral_parts (s : string) (value scale : Z) (fraction : bool) : Z * Z :=
  match s with
  | EmptyString => (value, scale)
  | String c s' =>
      if is_digit c then
        numeral_parts s' (10 * value + digit_val c)%Z
                      (if fraction then (10 * scale)%Z else scale) fraction
      else numeral_parts s' value scale true
  end.

(** A reading of numbers: the quotient of the two parts, which is Python's
    [float] for a number of at most fifteen digits. *)
Definition sample_float (s : string) : float :=
  let '(value, scale) := numeral_parts s 0 1 false in
  (PrimFloat.of_uint63 (Uint63.of_Z value)
   / PrimFloat.of_uint63 (Uint63.of_Z scale))%float.

(** A store with one draft timesheet, TS-202509-7. *)
Definition sample_draft_world : World :=
  mkWorld
    (<[TIMESHEETS :=
         [list_to_map
            [("timesheet_id", VStr "TS-202509-7");
             ("project_id", VStr "P1");
             ("user_id", VStr "T1");
             ("status", VStr "draft");
             ("total_hours", VFloat 16%float);
             ("updated_at", VStr "2025-09-30T18:00:00")]]]> ∅)
    sample_clock 0 0 [].

(** A store with one expense of two items. *)
Definition sample_expense_world : World :=
  mkWorld
    (<[EXPENSES :=
         [list_to_map
            [("expense_id", VStr "6479b09b-07f3-433c-aaae-ddc9b9b8f21d");
             ("project_id", VStr "P1");
             ("total_amount", VFloat 70%float);
             ("currency", VStr "GBP");
             ("items",
              VList [VDict [("description", VStr "Train"); ("amount", VFloat 50%float)];
                     VDict [("description", VStr "Lunch"); ("quantity", VFloat 2%float);
                            ("amount", VFloat 20%float)]])]]]> ∅)
    sample_clock 0 0 [].

(** A creation request without hours. *)
Definition sample_create_entities : Doc :=
  list_to_map [("project_id", VStr "P1");
               ("talent_id", VStr "T1");
               ("start_date", VStr "2025-01-01");
               ("end_date", VStr "2025-01-10")].

(** What the parser gave for "update TS-202510-456 to approved from
    2025-01-02": an empty identifier and a start date of its own. *)
Definition sample_parsed_query : Doc :=
  list_to_map
    [("intent", VStr "UPDATE");
     ("entities", VDict [("timesheet_id", VStr "");
                         ("invoice_number", VStr "INV-202510-1");
                         ("start_date", VStr "2025-01-01")])].

(** A line feed. *)
Definition sample_newline : string := String "010" EmptyString.

(** * Properties *)

(** ** The classifier *)

Lemma Intent_of_value_None (s : string) :
  s ∉ intent_values -> Intent_of_value s = None.
Proof.
  unfold intent_values, Intent_of_value. intros Hs.
  repeat match goal with
         | |- context [String.eqb s ?c] =>
             destruct (String.eqb_spec s c) as [->|_];
               [exfalso; apply Hs, list_elem_of_In; simpl; tauto|]
         end.
  reflexivity.
Qed.

Lemma EntityType_of_value_None (s : string) :
  s ∉ entity_type_values -> EntityType_of_value s = None.
Proof.
  unfold entity_type_values, EntityType_of_value. intros Hs.
  repeat match goal with
         | |- context [String.eqb s ?c] =>
             destruct (String.eqb_spec s c) as [->|_];
               [exfalso; apply Hs, list_elem_of_In; simpl; tauto|]
         end.
  reflexivity.
Qed.

(** C5, as the code has it: an [intent] string whose upper-case form is not
    one of CREATE, READ, UPDATE, DELETE, QUERY classifies to [QUERY], and an
    [entity_type] string whose upper-case form is not one of TIMESHEET,
    INVOICE, EXPENSE, PROJECT, TALENT yields no entity type; neither call
    raises. *)
Theorem unknown_labels_default (parsed_query : gmap string PyVal) (s : string) :
  (parsed_query !! "intent" = Some (VStr s) ->
   str_upper s ∉ intent_values ->
   classify parsed_query = Ok QUERY)
  /\
  (parsed_query !! "entity_type" = Some (VStr s) ->
   str_upper s ∉ entity_type_values ->
   get_entity_type parsed_query = Ok None).
Proof.
  split; intros Hget Hout.
  - unfold classify. rewrite Hget. simpl.
    rewrite (Intent_of_value_None _ Hout). reflexivity.
  - unfold get_entity_type, py_get. rewrite Hget. simpl.
    destruct (negb (s =? ""))%string; simpl; [|reflexivity].
    rewrite (EntityType_of_value_None _ Hout). reflexivity.
Qed.

(** Two labels the enumerations do not have. *)
Lemma unknown_labels_default_witness :
  classify {[ "intent" := VStr "summarise" ]} = Ok QUERY
  /\ get_entity_type {[ "entity_type" := VStr "Contract" ]} = Ok None.
Proof.
  split.
  - apply (proj1 (unknown_labels_default {[ "intent" := VStr "summarise" ]} "summarise")).
    + reflexivity.
    + compute_done.
  - apply (proj2 (unknown_labels_default {[ "entity_type" := VStr "Contract" ]} "Contract")).
    + reflexivity.
    + compute_done.
Defined.

(** C5, as stated, fails: "timesheet" is a string outside the set of
    entity-type names and [get_entity_type] returns [TIMESHEET] for it. *)
Lemma lower_case_entity_type_is_recognised :
  ("timesheet" ∉ entity_type_values)
  /\ get_entity_type {[ "entity_type" := VStr "timesheet" ]} = Ok (Some TIMESHEET).
Proof.
  split; [compute_done | reflexivity].
Qed.

(** ** [extract_dates] *)

(** Each match of [re.findall(DATE_PATTERN, text)] is a token of the shape
    [\d{4}-\d{2}-\d{2}]. *)
Lemma match_date_shape (s d : string) :
  match_date s = Some d -> match_date d = Some d.
Proof.
  unfold match_date at 1.
  destruct s as [|y1 [|y2 [|y3 [|y4 [|h1 [|m1 [|m2 [|h2 [|d1 [|d2 r]]]]]]]]]];
    try discriminate.
  destruct (is_digit y1 && is_digit y2 && is_digit y3 && is_digit y4
            && Ascii.eqb h1 "-" && is_digit m1 && is_digit m2
            && Ascii.eqb h2 "-" && is_digit d1 && is_digit d2) eqn:E;
    [|discriminate].
  intros [= <-]. cbn [str_take]. unfold match_date. rewrite E. reflexivity.
Qed.

Lemma findall_dates_shape (text d : string) :
  d ∈ findall_dates text -> match_date d = Some d.
Proof.
  unfold findall_dates. generalize 0%nat as skip.
  induction text as [|c text IH]; intros skip Hin; [inversion Hin|].
  cbn [findall_dates_from] in Hin. destruct skip as [|k]; [|eauto].
  destruct (match_date (String c text)) as [d'|] eqn:E; [|eauto].
  apply elem_of_cons in Hin as [->|Hin]; [|eauto].
  eapply match_date_shape, E.
Qed.

(** C6: when the text holds at least two explicit [YYYY-MM-DD] tokens, the
    first is [start_date] and the second is [end_date], whatever the
    month-name tokens assigned. *)
Theorem explicit_dates_take_precedence
    (current_year : Z) (text d0 d1 : string) (more : list string) :
  findall_dates text = d0 :: d1 :: more ->
  extract_dates current_year text !! "start_date" = Some d0
  /\ extract_dates current_year text !! "end_date" = Some d1.
Proof.
  intros Hfind. unfold extract_dates. rewrite Hfind. simpl.
  split.
  - rewrite lookup_insert_ne by discriminate. apply lookup_insert_eq.
  - apply lookup_insert_eq.
Qed.

(** "Oct 1" is matched and assigned first; the two explicit dates replace it. *)
Lemma explicit_dates_take_precedence_witness :
  month_matches "from Oct 1 2025-10-15 until 2025-11-07" = [(10%Z, 5, 1%Z)]
  /\ extract_dates 2025 "from Oct 1 2025-10-15 until 2025-11-07" !! "start_date"
     = Some "2025-10-15"
  /\ extract_dates 2025 "from Oct 1 2025-10-15 until 2025-11-07" !! "end_date"
     = Some "2025-11-07".
Proof.
  split; [reflexivity|].
  apply (explicit_dates_take_precedence 2025 _ _ _ []). reflexivity.
Defined.

(** C7, evaluated on the code: for "Create timesheet from Oct 15 to Nov 7"
    the text before "Nov 7" contains "from", so that match overwrites
    [start_date]; the result holds [start_date] = November 7 and no
    [end_date]. *)
Theorem extract_dates_from_oct_to_nov (current_year : Z) :
  extract_dates current_year "Create timesheet from Oct 15 to Nov 7"
  = {[ "start_date" := str_of_Z current_year ++ "-11-07" ]}
  /\ extract_dates current_year "Create timesheet from Oct 15 to Nov 7" !! "end_date"
     = None.
Proof.
  assert (E : extract_dates current_year "Create timesheet from Oct 15 to Nov 7"
              = {[ "start_date" := str_of_Z current_year ++ "-11-07" ]}).
  { unfold extract_dates.
    replace (findall_dates "Create timesheet from Oct 15 to Nov 7")
      with (@nil string) by reflexivity.
    replace (month_matches "Create timesheet from Oct 15 to Nov 7")
      with [(10%Z, 22%nat, 15%Z); (11%Z, 32%nat, 7%Z)] by reflexivity.
    cbn [fold_left add_explicit_dates]. unfold assign_month_match.
    replace (str_take 22 (str_lower "Create timesheet from Oct 15 to Nov 7"))
      with "create timesheet from " by reflexivity.
    replace (str_take 32 (str_lower "Create timesheet from Oct 15 to Nov 7"))
      with "create timesheet from oct 15 to " by reflexivity.
    replace (str_contains "start" "create timesheet from ") with false by reflexivity.
    replace (str_contains "from" "create timesheet from ") with true by reflexivity.
    replace (str_contains "start" "create timesheet from oct 15 to ")
      with false by reflexivity.
    replace (str_contains "from" "create timesheet from oct 15 to ")
      with true by reflexivity.
    cbn [orb]. rewrite insert_insert_eq. reflexivity. }
  split; [exact E|]. rewrite E. apply lookup_singleton_ne. discriminate.
Qed.

(** ** The calendar *)

Section Calendar.
Local Open Scope Z_scope.

Ltac div_lia := Z.to_euclidean_division_equations; lia.

Lemma is_leap_true (y : Z) :
  is_leap y = true <-> y mod 4 = 0 /\ (y mod 100 <> 0 \/ y mod 400 = 0).
Proof.
  unfold is_leap.
  rewrite andb_true_iff, orb_true_iff, negb_true_iff, !Z.eqb_eq, Z.eqb_neq.
  reflexivity.
Qed.

Lemma is_leap_false (y : Z) :
  is_leap y = false <-> ~ (y mod 4 = 0 /\ (y mod 100 <> 0 \/ y mod 400 = 0)).
Proof. rewrite <- is_leap_true. destruct (is_leap y); intuition congruence. Qed.

Lemma days_before_year_succ (y : Z) :
  days_before_year (y + 1)
  = days_before_year y + (if is_leap y then 366 else 365).
Proof.
  unfold days_before_year. replace (y + 1 - 1) with y by lia.
  destruct (is_leap y) eqn:E.
  - apply is_leap_true in E. div_lia.
  - apply is_leap_false in E. div_lia.
Qed.

Lemma days_before_year_mono (a b : Z) :
  a <= b -> days_before_year a <= days_before_year b.
Proof. unfold days_before_year. intros H. div_lia. Qed.

Lemma valid_date_bounds (d : Date) :
  valid_date d = true <->
  1 <= year d <= 9999 /\ 1 <= month d <= 12
  /\ 1 <= day d <= days_in_month (year d) (month d).
Proof. unfold valid_date. rewrite !andb_true_iff, !Z.leb_le. lia. Qed.

Ltac month_cases m :=
  let H := fresh in
  assert (H : m = 1 \/ m = 2 \/ m = 3 \/ m = 4 \/ m = 5 \/ m = 6 \/ m = 7
              \/ m = 8 \/ m = 9 \/ m = 10 \/ m = 11 \/ m = 12) by lia;
  repeat (destruct H as [H|H]); subst m.

Lemma day_of_year_bounds (y m d : Z) :
  1 <= m <= 12 -> 1 <= d <= days_in_month y m ->
  1 <= days_before_month y m + d <= (if is_leap y then 366 else 365).
Proof.
  intros Hm Hd. unfold days_before_month, days_in_month in *.
  month_cases m; cbn in *; destruct (is_leap y); cbn in *; lia.
Qed.

Lemma toordinal_lt (a b : Date) :
  valid_date a = true -> valid_date b = true ->
  date_ltb a b = true -> toordinal a < toordinal b.
Proof.
  rewrite !valid_date_bounds. intros (Hya & Hma & Hda) (Hyb & Hmb & Hdb).
  unfold date_ltb, toordinal.
  rewrite orb_true_iff, andb_true_iff, orb_true_iff, andb_true_iff,
    !Z.ltb_lt, !Z.eqb_eq.
  intros [Hy | [Hy [Hm | [Hm Hd]]]].
  - pose proof (day_of_year_bounds _ _ _ Hma Hda).
    pose proof (day_of_year_bounds _ _ _ Hmb Hdb).
    pose proof (days_before_year_succ (year a)).
    pose proof (days_before_year_mono (year a + 1) (year b) ltac:(lia)).
    destruct (is_leap (year a)); lia.
  - rewrite Hy in *. clear Hy Hya.
    enough (days_before_month (year b) (month a) + day a
            < days_before_month (year b) (month b) + 1) by lia.
    revert Hda. unfold days_before_month, days_in_month.
    generalize (month a) (month b) Hma Hmb Hm. intros ma mb Hma' Hmb' Hlt.
    month_cases ma; month_cases mb; try lia; cbn;
      destruct (is_leap (year b)); cbn; lia.
  - rewrite Hy, Hm. lia.
Qed.

Lemma date_eqb_eq (a b : Date) : date_eqb a b = true <-> a = b.
Proof.
  unfold date_eqb. rewrite !andb_true_iff, !Z.eqb_eq.
  destruct a, b; simpl. split; [intros [[-> ->] ->]; reflexivity|].
  intros [= -> -> ->]. auto.
Qed.

Lemma date_trichotomy (a b : Date) :
  date_ltb a b = true \/ a = b \/ date_ltb b a = true.
Proof.
  rewrite <- date_eqb_eq. unfold date_ltb, date_eqb.
  rewrite !orb_true_iff, !andb_true_iff, !orb_true_iff, !andb_true_iff,
    !Z.ltb_lt, !Z.eqb_eq. lia.
Qed.

Lemma date_leb_toordinal (a b : Date) :
  valid_date a = true -> valid_date b = true ->
  date_leb a b = true <-> toordinal a <= toordinal b.
Proof.
  intros Ha Hb. unfold date_leb. rewrite orb_true_iff, date_eqb_eq.
  destruct (date_trichotomy a b) as [H | [H | H]].
  - pose proof (toordinal_lt a b Ha Hb H). intuition lia.
  - subst. intuition lia.
  - pose proof (toordinal_lt b a Hb Ha H). split; [|lia].
    intros [H' | ->]; [|lia].
    pose proof (toordinal_lt a b Ha Hb H'). lia.
Qed.

Lemma toordinal_inj (a b : Date) :
  valid_date a = true -> valid_date b = true ->
  toordinal a = toordinal b -> a = b.
Proof.
  intros Ha Hb E. destruct (date_trichotomy a b) as [H | [H | H]]; [|exact H|].
  - pose proof (toordinal_lt a b Ha Hb H). lia.
  - pose proof (toordinal_lt b a Hb Ha H). lia.
Qed.

Lemma days_before_month_succ (y m : Z) :
  1 <= m < 12 ->
  days_before_month y (m + 1) = days_before_month y m + days_in_month y m.
Proof.
  intros Hm. unfold days_before_month, days_in_month.
  month_cases m; try lia; destruct (is_leap y); reflexivity.
Qed.

Lemma add_one_day_spec (d : Date) :
  valid_date d = true ->
  match add_one_day d with
  | Ok d' => valid_date d' = true /\ toordinal d' = toordinal d + 1
  | Raise e => d = max_date
  end.
Proof.
  intros Hv. pose proof Hv as Hb. apply valid_date_bounds in Hb.
  destruct Hb as (Hy & Hm & Hd). unfold add_one_day.
  destruct (Z.ltb_spec (day d) (days_in_month (year d) (month d))) as [Hlt|Hge].
  - split.
    + apply valid_date_bounds. simpl. lia.
    + unfold toordinal. simpl. lia.
  - assert (Hday : day d = days_in_month (year d) (month d)) by lia.
    destruct (Z.ltb_spec (month d) 12) as [Hm12|Hm12].
    + split.
      * apply valid_date_bounds. simpl. unfold days_in_month.
        repeat match goal with |- context [if ?c then _ else _] => destruct c end; lia.
      * unfold toordinal. simpl.
        rewrite Hday, days_before_month_succ by lia. lia.
    + assert (Hmd : month d = 12) by lia.
      destruct (Z.ltb_spec (year d) 9999) as [Hy9|Hy9].
      * split.
        -- apply valid_date_bounds. simpl. unfold days_in_month. simpl. lia.
        -- unfold toordinal. simpl. rewrite days_before_year_succ, Hday, Hmd.
           unfold days_before_month, days_in_month. cbn.
           destruct (is_leap (year d)); cbn; lia.
      * destruct d as [y m dd]. simpl in *. unfold max_date.
        subst m. unfold days_in_month in Hday. simpl in Hday. f_equal; lia.
Qed.

End Calendar.

(** ** Dates as text *)

Lemma year_text_ok_all : forallb year_text_ok (seqZ 1 9999) = true.
Proof. vm_compute. reflexivity. Qed.

Lemma parse_year_fmt (y : Z) (r : string) :
  (1 <= y <= 9999)%Z -> parse_year (fmt_04d y ++ r) = Some (y, r).
Proof.
  intros Hy.
  assert (Hok : year_text_ok y = true).
  { pose proof year_text_ok_all as Hall. rewrite forallb_forall in Hall.
    apply Hall, list_elem_of_In, elem_of_seqZ. lia. }
  unfold year_text_ok in Hok.
  destruct (fmt_04d y) as [|a [|b [|c [|d [|? ?]]]]]; try discriminate.
  apply andb_prop in Hok as [Hdig Hval]. apply Z.eqb_eq in Hval.
  change (parse_year (String a (String b (String c (String d r)))) = Some (y, r)).
  unfold parse_year. rewrite Hdig, Hval. reflexivity.
Qed.

Lemma parse_month_fmt (m : Z) (r : string) :
  (1 <= m <= 12)%Z -> parse_month (fmt_02d m ++ r) = Some (m, r).
Proof.
  intros Hm.
  assert (H : (m = 1 \/ m = 2 \/ m = 3 \/ m = 4 \/ m = 5 \/ m = 6 \/ m = 7
               \/ m = 8 \/ m = 9 \/ m = 10 \/ m = 11 \/ m = 12)%Z) by lia.
  repeat (destruct H as [H|H]); subst m; reflexivity.
Qed.

Lemma day_text_ok_all : forallb day_text_ok (seqZ 1 31) = true.
Proof. vm_compute. reflexivity. Qed.

Lemma parse_day_fmt (d : Z) :
  (1 <= d <= 31)%Z -> parse_day (fmt_02d d) = Some (d, "").
Proof.
  intros Hd.
  assert (Hok : day_text_ok d = true).
  { pose proof day_text_ok_all as Hall. rewrite forallb_forall in Hall.
    apply Hall, list_elem_of_In, elem_of_seqZ. lia. }
  unfold day_text_ok in Hok.
  destruct (parse_day (fmt_02d d)) as [[d' [|? ?]]|]; try discriminate.
  apply Z.eqb_eq in Hok. subst. reflexivity.
Qed.

Lemma expect_dash_app (r : string) : expect_dash ("-" ++ r) = Some r.
Proof. reflexivity. Qed.

(** What [strftime("%Y-%m-%d")] prints, [strptime] reads back. *)
Lemma strptime_strftime (d : Date) :
  valid_date d = true -> strptime_ymd (strftime_ymd d) = Ok d.
Proof.
  intros Hv. pose proof Hv as Hb. apply valid_date_bounds in Hb.
  destruct Hb as (Hy & Hm & Hd).
  assert (Hd31 : (1 <= day d <= 31)%Z).
  { unfold days_in_month in Hd.
    repeat match type of Hd with context [if ?c then _ else _] => destruct c end;
      lia. }
  unfold strptime_ymd, strftime_ymd.
  rewrite parse_year_fmt by exact Hy. cbv beta iota.
  rewrite expect_dash_app, parse_month_fmt by exact Hm. cbv beta iota.
  rewrite expect_dash_app, parse_day_fmt by exact Hd31. cbv beta iota.
  cbn [String.eqb negb]. destruct d as [y m dd]. cbn [year month day] in *.
  rewrite Hv. reflexivity.
Qed.


(** ** Entry generation *)

Section Entries.
Local Open Scope Z_scope.

Lemma toordinal_le_max (d : Date) :
  valid_date d = true -> toordinal d <= toordinal max_date.
Proof.
  intros Hv. apply date_leb_toordinal; [exact Hv | reflexivity |].
  apply valid_date_bounds in Hv. destruct Hv as (Hy & Hm & Hd).
  assert (days_in_month (year d) (month d) <= 31).
  { unfold days_in_month.
    repeat match goal with |- context [if ?c then _ else _] => destruct c end; lia. }
  unfold date_leb, date_ltb, date_eqb, max_date. simpl.
  rewrite !orb_true_iff, !andb_true_iff, !orb_true_iff, !andb_true_iff,
    !Z.ltb_lt, !Z.eqb_eq. lia.
Qed.

Lemma days_from_ordinals (n : nat) (d : Date) :
  valid_date d = true ->
  toordinal d + Z.of_nat n <= toordinal max_date + 1 ->
  Forall (fun x => valid_date x = true) (days_from n d)
  /\ toordinal <$> days_from n d = seqZ (toordinal d) (Z.of_nat n).
Proof.
  revert d. induction n as [|n IH]; intros d Hv Hmax; [split; constructor|].
  cbn [days_from]. rewrite seqZ_cons by lia.
  replace (Z.pred (Z.of_nat (S n))) with (Z.of_nat n) by lia.
  pose proof (add_one_day_spec d Hv) as Hnext.
  destruct (add_one_day d) as [d'|e].
  - destruct Hnext as [Hv' Hord].
    destruct (IH d' Hv' ltac:(lia)) as [IHv IHo].
    split; [constructor; assumption|].
    cbn [fmap list_fmap]. f_equal. rewrite IHo. f_equal. lia.
  - subst d. assert (n = O) by lia. subst n.
    split; [repeat constructor; exact Hv | reflexivity].
Qed.

Lemma days_between_step (cur end_ next : Date) :
  toordinal cur <= toordinal end_ ->
  add_one_day cur = Ok next ->
  toordinal next = toordinal cur + 1 ->
  days_between cur end_ = cur :: days_between next end_.
Proof.
  intros Hle Hnext Hord. unfold days_between.
  replace (Z.to_nat (toordinal end_ - toordinal cur + 1))
    with (S (Z.to_nat (toordinal end_ - toordinal next + 1))) by lia.
  cbn [days_from]. rewrite Hnext. reflexivity.
Qed.

(** The loop of [create_timesheet] and [update_timesheet_dates] adds one
    entry for each day from [current_date] to [end_] and does not run out of
    fuel. *)
Lemma entries_loop_fuel (fuel : nat) (h : float) (end_ current_date : Date)
    (entries : list PyVal) (total_hours : float) :
  valid_date current_date = true ->
  valid_date end_ = true ->
  end_ <> max_date ->
  (0 < fuel)%nat ->
  toordinal end_ - toordinal current_date + 1 < Z.of_nat fuel ->
  entries_loop fuel (VFloat h) end_ current_date entries total_hours
  = Ok ((entries
         ++ ((fun d => make_entry d (VFloat h)) <$> days_between current_date end_))%list,
        add_repeatedly (length (days_between current_date end_)) h total_hours).
Proof.
  intros Hcur Hend Hmax. revert current_date entries total_hours Hcur.
  induction fuel as [|fuel IH]; intros cur entries total Hcur Hpos Hfuel; [lia|].
  - cbn [entries_loop].
    destruct (date_leb cur end_) eqn:Hle.
    + apply date_leb_toordinal in Hle; [|assumption..].
      unfold mbind, Res_bind, py_iadd_float.
      pose proof (add_one_day_spec cur Hcur) as Hnext.
      destruct (add_one_day cur) as [next|e] eqn:Hadd.
      * destruct Hnext as [Hv' Hord].
        rewrite (days_between_step cur end_ next Hle Hadd Hord).
        rewrite IH by (assumption || lia).
        cbn [fmap list_fmap length add_repeatedly].
        rewrite <- app_assoc. reflexivity.
      * exfalso. subst cur. apply Hmax.
        apply toordinal_inj; [assumption | reflexivity |].
        pose proof (toordinal_le_max end_ Hend). lia.
    + assert (Hgt : toordinal end_ < toordinal cur).
      { destruct (Z.lt_ge_cases (toordinal end_) (toordinal cur)) as [H|H];
          [exact H|].
        apply date_leb_toordinal in H; [congruence | assumption..]. }
      unfold days_between.
      replace (Z.to_nat (toordinal end_ - toordinal cur + 1)) with O by lia.
      cbn. rewrite app_nil_r. reflexivity.
Qed.

Lemma strptime_ymd_valid (s : string) (d : Date) :
  strptime_ymd s = Ok d -> valid_date d = true.
Proof.
  unfold strptime_ymd. intros H.
  repeat match type of H with
         | match ?x with _ => _ end = _ => destruct x eqn:?; try discriminate
         | (let '(_, _) := ?p in _) = _ => destruct p
         | (if ?c then _ else _) = _ => destruct c eqn:?; try discriminate
         end.
  injection H as <-. assumption.
Qed.

(** The entries generated for a range: one per day of [days_between], in
    that order, each with the given hours, and the running sum of the hours. *)
Lemma generate_entries_days (start_date end_date : string) (start end_ : Date)
    (h : float) :
  strptime_ymd start_date = Ok start ->
  strptime_ymd end_date = Ok end_ ->
  end_ <> max_date ->
  generate_entries (VStr start_date) (VStr end_date) (VFloat h)
  = Ok ((fun d => make_entry d (VFloat h)) <$> days_between start end_,
        add_repeatedly (length (days_between start end_)) h 0%float).
Proof.
  intros Hs He Hmax. unfold generate_entries, strptime.
  rewrite Hs, He. cbn [mbind Res_bind].
  rewrite entries_loop_fuel.
  - reflexivity.
  - eapply strptime_ymd_valid, Hs.
  - eapply strptime_ymd_valid, He.
  - exact Hmax.
  - unfold loop_fuel. lia.
  - unfold loop_fuel. lia.
Qed.

(** Whatever the hours and the range, the loop is given enough fuel. *)
Lemma entries_loop_no_timeout (fuel : nat) (h : PyVal) (end_ current_date : Date)
    (entries : list PyVal) (total_hours : float) :
  valid_date current_date = true ->
  valid_date end_ = true ->
  (0 < fuel)%nat ->
  toordinal end_ - toordinal current_date + 1 < Z.of_nat fuel ->
  entries_loop fuel h end_ current_date entries total_hours <> Raise OutOfFuel.
Proof.
  intros Hcur Hend. revert current_date entries total_hours Hcur.
  induction fuel as [|fuel IH]; intros cur entries total Hcur Hpos Hfuel; [lia|].
  cbn [entries_loop]. destruct (date_leb cur end_) eqn:Hle; [|discriminate].
  apply date_leb_toordinal in Hle; [|assumption..].
  unfold mbind, Res_bind.
  destruct (py_iadd_float total h) as [total'|e] eqn:Hadd.
  - pose proof (add_one_day_spec cur Hcur) as Hnext.
    destruct (add_one_day cur) as [next|e'] eqn:Hstep.
    + destruct Hnext as [Hv' Hord]. apply IH; [assumption | lia | lia].
    + unfold add_one_day in Hstep.
      repeat match type of Hstep with
             | (if ?c then _ else _) = _ => destruct c
             end; try discriminate.
      injection Hstep as <-. discriminate.
  - destruct h; try discriminate; simpl in Hadd; injection Hadd as <-; discriminate.
Qed.

Lemma strptime_error (v : PyVal) (e : exn) :
  strptime v = Raise e -> e <> OutOfFuel.
Proof.
  destruct v; simpl; try (intros [= <-]; discriminate).
  unfold strptime_ymd. intros H.
  repeat match type of H with
         | match ?x with _ => _ end = _ => destruct x eqn:?
         | (let '(_, _) := ?p in _) = _ => destruct p
         | (if ?c then _ else _) = _ => destruct c eqn:?
         end; try discriminate; injection H as <-; discriminate.
Qed.

Lemma generate_entries_no_timeout (start_date end_date hours_per_day : PyVal) :
  generate_entries start_date end_date hours_per_day <> Raise OutOfFuel.
Proof.
  unfold generate_entries, mbind, Res_bind.
  destruct (strptime start_date) as [start|e] eqn:Hs.
  - destruct (strptime end_date) as [end_|e] eqn:He.
    + destruct start_date, end_date; try discriminate. simpl in Hs, He.
      apply entries_loop_no_timeout; unfold loop_fuel;
        eauto using strptime_ymd_valid; lia.
    + intros [= ->]. exact (strptime_error _ _ He eq_refl).
  - intros [= ->]. exact (strptime_error _ _ Hs eq_refl).
Qed.

(** The days of a range: valid dates with consecutive day numbers. *)
Lemma days_between_ordinals (start end_ : Date) :
  valid_date start = true -> valid_date end_ = true ->
  Forall (fun x => valid_date x = true) (days_between start end_)
  /\ toordinal <$> days_between start end_
     = seqZ (toordinal start) (toordinal end_ - toordinal start + 1).
Proof.
  intros Hs He. unfold days_between.
  destruct (Z.le_gt_cases (toordinal start) (toordinal end_ + 1)) as [Hle|Hgt].
  - pose proof (toordinal_le_max end_ He).
    destruct (days_from_ordinals
                (Z.to_nat (toordinal end_ - toordinal start + 1)) start Hs
                ltac:(lia)) as [Hv Ho].
    split; [exact Hv|]. rewrite Ho. f_equal. lia.
  - replace (Z.to_nat (toordinal end_ - toordinal start + 1)) with O by lia.
    split; [constructor|]. cbn. symmetry. apply seqZ_nil. lia.
Qed.

Lemma days_between_length (start end_ : Date) :
  valid_date start = true -> valid_date end_ = true ->
  toordinal start <= toordinal end_ ->
  Z.of_nat (length (days_between start end_))
  = toordinal end_ - toordinal start + 1.
Proof.
  intros Hs He Hle.
  destruct (days_between_ordinals start end_ Hs He) as [_ Ho].
  apply (f_equal length) in Ho. rewrite length_fmap, length_seqZ in Ho. lia.
Qed.

(** Exactly the calendar days of the closed range. *)
Lemma days_between_elem (start end_ x : Date) :
  valid_date start = true -> valid_date end_ = true -> valid_date x = true ->
  x ∈ days_between start end_
  <-> date_leb start x = true /\ date_leb x end_ = true.
Proof.
  intros Hs He Hx.
  destruct (days_between_ordinals start end_ Hs He) as [Hv Ho].
  rewrite !date_leb_toordinal by assumption. split.
  - intros Hin.
    assert (Hox : toordinal x ∈ toordinal <$> days_between start end_)
      by (apply list_elem_of_fmap; eauto).
    rewrite Ho in Hox. apply elem_of_seqZ in Hox. lia.
  - intros Hrange.
    assert (Hox : toordinal x ∈ toordinal <$> days_between start end_)
      by (rewrite Ho; apply elem_of_seqZ; lia).
    apply list_elem_of_fmap in Hox as (y & Hy & Hin).
    rewrite Forall_forall in Hv.
    rewrite (toordinal_inj x y Hx (Hv y Hin) Hy). exact Hin.
Qed.

(** In ascending order, no day twice. *)
Lemma days_between_ascending (start end_ a b : Date) (i j : nat) :
  valid_date start = true -> valid_date end_ = true ->
  days_between start end_ !! i = Some a ->
  days_between start end_ !! j = Some b ->
  (i < j)%nat -> date_ltb a b = true.
Proof.
  intros Hs He Ha Hb Hij.
  destruct (days_between_ordinals start end_ Hs He) as [Hv Ho].
  rewrite Forall_forall in Hv.
  assert (Hva : valid_date a = true) by (eapply Hv, list_elem_of_lookup_2, Ha).
  assert (Hvb : valid_date b = true) by (eapply Hv, list_elem_of_lookup_2, Hb).
  assert (Hoa : (toordinal <$> days_between start end_) !! i = Some (toordinal a))
    by (rewrite list_lookup_fmap, Ha; reflexivity).
  assert (Hob : (toordinal <$> days_between start end_) !! j = Some (toordinal b))
    by (rewrite list_lookup_fmap, Hb; reflexivity).
  rewrite Ho in Hoa, Hob.
  apply lookup_seqZ in Hoa, Hob.
  destruct (date_trichotomy a b) as [H | [H | H]]; [exact H | |].
  - subst. lia.
  - pose proof (toordinal_lt b a Hvb Hva H). lia.
Qed.
End Entries.

(** With the default 8.0 hours a day the running sum is exact: over a range
    of up to 366 days it is 8.0 times the number of days. *)
Lemma eight_hours_total (n : nat) :
  n <= 366 ->
  add_repeatedly n 8%float 0%float = (8 * float_of_nat n)%float.
Proof.
  intros Hn.
  do 367 (destruct n as [|n]; [vm_compute; reflexivity|]).
  lia.
Qed.

(** ** The store *)

Ltac unfold_M :=
  unfold mbind, M_bind, mret, M_ret, raise, lift, now, find_one, update_one,
    insert_one, log_op in *.

Ltac not_in_keys :=
  let Hin := fresh "Hin" in
  cbn; intros Hin;
  repeat (apply elem_of_cons in Hin as [Hin|Hin]; [discriminate|]);
  apply elem_of_nil in Hin; exact Hin.

Lemma apply_set_lookup_other (fields : list (string * PyVal)) (d : Doc) (k : string) :
  k ∉ fields.*1 -> apply_set fields d !! k = d !! k.
Proof.
  unfold apply_set. revert d.
  induction fields as [|[k' v] fields IH]; intros d Hk; [reflexivity|].
  cbn [fold_left fst snd]. rewrite IH.
  - apply lookup_insert_ne. intros ->. apply Hk. left.
  - intros Hin. apply Hk. right. exact Hin.
Qed.

Lemma update_first_lookup_other (filter fields : list (string * PyVal))
    (docs docs' : list Doc) (n : N) (k : string) :
  update_first filter fields docs = Some (docs', n) ->
  k ∉ fields.*1 ->
  (fun d : Doc => d !! k) <$> docs' = (fun d : Doc => d !! k) <$> docs.
Proof.
  revert docs'. induction docs as [|d ds IH]; intros docs' Hup Hk; [discriminate|].
  simpl in Hup. destruct (doc_matches filter d).
  - injection Hup as <- _. cbn. f_equal. apply apply_set_lookup_other, Hk.
  - destruct (update_first filter fields ds) as [[ds' m]|]; [|discriminate].
    injection Hup as <- <-. cbn. f_equal. apply IH; [reflexivity | exact Hk].
Qed.

Lemma field_matches_apply_set (fields : list (string * PyVal)) (d : Doc)
    (kv : string * PyVal) :
  kv.1 ∉ fields.*1 ->
  field_matches (apply_set fields d) kv = field_matches d kv.
Proof.
  destruct kv as [k v]. simpl. intros Hk. unfold field_matches.
  rewrite apply_set_lookup_other by exact Hk. reflexivity.
Qed.

Lemma doc_matches_apply_set (filter fields : list (string * PyVal)) (d : Doc) :
  Forall (fun kv => kv.1 ∉ fields.*1) filter ->
  doc_matches filter (apply_set fields d) = doc_matches filter d.
Proof.
  unfold doc_matches. induction 1 as [|kv filter Hk _ IH]; [reflexivity|].
  simpl. rewrite field_matches_apply_set by exact Hk. rewrite IH. reflexivity.
Qed.

(** [update_one] on a collection where [find_one] finds [d0]: [d0] is the
    document updated, and [find_one] then finds the updated document. *)
Lemma update_first_found (filter fields : list (string * PyVal))
    (docs : list Doc) (d0 : Doc) :
  Forall (fun kv => kv.1 ∉ fields.*1) filter ->
  List.find (doc_matches filter) docs = Some d0 ->
  exists docs',
    update_first filter fields docs
    = Some (docs', if set_changes fields d0 then 1%N else 0%N)
    /\ List.find (doc_matches filter) docs' = Some (apply_set fields d0).
Proof.
  intros Hdisj. induction docs as [|d ds IH]; [discriminate|].
  simpl. destruct (doc_matches filter d) eqn:Hm.
  - intros [= ->]. eexists. split; [reflexivity|].
    simpl. rewrite doc_matches_apply_set by exact Hdisj. rewrite Hm. reflexivity.
  - intros Hfind. destruct (IH Hfind) as (docs' & -> & Hfind').
    eexists. split; [reflexivity|]. simpl. rewrite Hm. exact Hfind'.
Qed.

Lemma update_first_not_found (filter fields : list (string * PyVal))
    (docs : list Doc) :
  List.find (doc_matches filter) docs = None ->
  update_first filter fields docs = None.
Proof.
  induction docs as [|d ds IH]; [reflexivity|].
  simpl. destruct (doc_matches filter d); [discriminate|].
  intros H. rewrite (IH H). reflexivity.
Qed.

Lemma val_same_str (x : PyVal) (s : string) :
  val_same x (VStr s) = true <-> x = VStr s.
Proof.
  destruct x; simpl; try (split; [discriminate|intros [=]]).
  rewrite String.eqb_eq. split; [intros ->; reflexivity | intros [= ->]; reflexivity].
Qed.

(** A document found under a key that is not [None] is not empty. *)
Lemma found_not_empty (k : string) (v : PyVal) (docs : list Doc) (d : Doc) :
  v <> VNone ->
  List.find (doc_matches [(k, v)]) docs = Some d ->
  dict_falsy (Some d) = false.
Proof.
  intros Hv Hfind. apply find_some in Hfind as [_ Hm].
  unfold doc_matches in Hm. simpl in Hm. rewrite andb_true_r in Hm.
  simpl. apply Nat.eqb_neq. intros Hsize. apply map_size_empty_iff in Hsize.
  subst d. rewrite lookup_empty in Hm. destruct v; congruence.
Qed.

Lemma stringify_id_falsy (py_repr : PyVal -> string) (d : Doc) :
  dict_falsy (Some d) = false ->
  dict_falsy (stringify_id py_repr (Some d)) = false.
Proof.
  simpl. destruct (d !! "_id"); [|auto]. intros _. simpl.
  apply Nat.eqb_neq. intros Hsize. apply map_size_empty_iff in Hsize.
  apply (f_equal (fun m : Doc => m !! "_id")) in Hsize.
  rewrite lookup_insert_eq, lookup_empty in Hsize. discriminate.
Qed.

Lemma stringify_id_lookup (py_repr : PyVal -> string) (d : Doc) (k : string) :
  k <> "_id" ->
  match stringify_id py_repr (Some d) with
  | Some d' => d' !! k = d !! k
  | None => False
  end.
Proof.
  intros Hk. simpl. destruct (d !! "_id"); [|reflexivity].
  apply lookup_insert_ne. congruence.
Qed.

Lemma update_first_some (filter fields : list (string * PyVal)) (docs : list Doc)
    (r : list Doc * N) :
  update_first filter fields docs = Some r ->
  exists d0, List.find (doc_matches filter) docs = Some d0.
Proof.
  revert r. induction docs as [|d docs IH]; intros r; cbn; [discriminate|].
  destruct (doc_matches filter d); [by eexists|].
  destruct (update_first filter fields docs) as [r'|]; [|discriminate].
  intros _. by eapply IH.
Qed.

Lemma get_collection_insert (m : gmap string (list Doc)) (c : string)
    (ds : list Doc) (ck : nat -> DateTime) (t : nat) (o : N) (l : list StoreOp) :
  get_collection (mkWorld (<[c := ds]> m) ck t o l) c = ds.
Proof. unfold get_collection. cbn. by rewrite lookup_insert_eq. Qed.

Lemma update_one_found (coll : string) (filter fields : list (string * PyVal))
    (w w1 : World) (n : N) :
  Forall (fun kv => kv.1 ∉ fields.*1) filter ->
  update_one coll filter fields w = (Ok n, w1) ->
  n <> 0%N ->
  exists d0,
    List.find (doc_matches filter) (get_collection w coll) = Some d0
    /\ List.find (doc_matches filter) (get_collection w1 coll)
       = Some (apply_set fields d0)
    /\ clock w1 = clock w /\ ticks w1 = ticks w.
Proof.
  intros Hd. unfold update_one.
  destruct (update_first filter fields (get_collection w coll)) as [[ds n']|] eqn:Hup.
  - intros [= -> <-] _.
    destruct (update_first_some _ _ _ _ Hup) as [d0 Hfind].
    destruct (update_first_found filter fields _ d0 Hd Hfind) as (docs' & Hup' & Hf').
    rewrite Hup in Hup'. injection Hup' as -> _.
    exists d0. unfold log_op. rewrite get_collection_insert. auto.
  - intros [= <- _] Hn. by destruct Hn.
Qed.

Ltac status_read_back Hd0 Hf Hf' :=
  cbn [negb]; unfold mbind, M_bind, now;
  cbn [fst snd ticks clock collections next_oid store_log];
  lazymatch goal with
  | |- context [update_one ?c ?f ?s ?w0] =>
      let n := fresh "n" in
      let w1 := fresh "w1" in
      let Hup := fresh "Hup" in
      destruct (update_one c f s w0) as [[n|?] w1] eqn:Hup; [|discriminate];
      destruct (N.eqb_spec n 0) as [->|Hn]; [discriminate|];
      let Hd := fresh "Hd" in
      assert (Hd : Forall (fun kv : string * PyVal => kv.1 ∉ s.*1) f)
        by (constructor; [not_in_keys | constructor]);
      destruct (update_one_found c f s w0 w1 n Hd Hup Hn)
        as (Hd0 & Hf & Hf' & _ & _)
  end.

Section HandlerProperties.
Variable py_repr : PyVal -> string.

(** C4: a create-invoice request with [expense_id] set and none of
    [timesheet_id], [talent_id], [user_id] raises the validation failure
    "talent_id required for expense invoice"; the store, its log of calls,
    the clock and the ObjectId supply are as before (nothing was read or
    written). *)
Theorem expense_invoice_requires_talent (entities : Doc) (w : World) :
  truthy (py_get entities "expense_id") = true ->
  truthy (py_get entities "timesheet_id") = false ->
  truthy (py_get entities "talent_id") = false ->
  truthy (py_get entities "user_id") = false ->
  _create_invoice py_repr entities w
  = (Raise (ValueError "talent_id required for expense invoice"), w).
Proof.
  intros He Ht Hta Hu. unfold _create_invoice, py_or.
  rewrite Ht, He, Hta, Hu. reflexivity.
Qed.

Lemma update_timesheet_status_keeps (timesheet_id status : PyVal) (w : World)
    (coll k : string) :
  k ∉ ["status"; "updated_at"] ->
  (fun d : Doc => d !! k)
    <$> get_collection (update_timesheet_status py_repr timesheet_id status w).2 coll
  = (fun d : Doc => d !! k) <$> get_collection w coll.
Proof.
  intros Hk. unfold update_timesheet_status.
  destruct (negb (py_in_strs status timesheet_statuses)); [reflexivity|].
  unfold get_timesheet. unfold_M. cbn [fst snd].
  match goal with |- context [update_first ?f ?s ?c] =>
    destruct (update_first f s c) as [[docs' n]|] eqn:Hup end.
  - assert (Hsame : forall w' : World,
      collections w' = <[TIMESHEETS := docs']> (collections w) ->
      (fun d : Doc => d !! k) <$> get_collection w' coll
      = (fun d : Doc => d !! k) <$> get_collection w coll).
    { intros w' Hc. unfold get_collection at 1. rewrite Hc, lookup_insert.
      destruct (decide (TIMESHEETS = coll)) as [<-|]; [|reflexivity].
      simpl. eapply update_first_lookup_other; [exact Hup|exact Hk]. }
    destruct (N.eqb n 0); apply Hsame; reflexivity.
  - reflexivity.
Qed.

(** What [create_timesheet] returns and stores. *)
Lemma create_timesheet_run
    (project_id talent_id start_date end_date hours_per_day : PyVal) (w : World) :
  match generate_entries start_date end_date hours_per_day with
  | Raise e =>
      (create_timesheet py_repr project_id talent_id start_date end_date
                        hours_per_day w).1 = Raise e
  | Ok (entries, total_hours) =>
      let doc := timesheet_doc (clock w (ticks w)) (clock w (S (ticks w)))
                   (clock w (S (S (ticks w))))
                   project_id talent_id start_date end_date entries total_hours in
      create_timesheet py_repr project_id talent_id start_date end_date hours_per_day w
      = (Ok (<["_id" := VStr (py_str py_repr (VOid (next_oid w)))]> doc),
         mkWorld (<[TIMESHEETS := (get_collection w TIMESHEETS
                                  ++ [<["_id" := VOid (next_oid w)]> doc])%list]>
                    (collections w))
                 (clock w) (S (S (S (ticks w)))) (N.succ (next_oid w))
                 (store_log w ++ [OpInsertOne TIMESHEETS])%list)
  end.
Proof.
  unfold create_timesheet. unfold_M. cbn [fst snd].
  destruct (generate_entries start_date end_date hours_per_day) as [[entries total]|e];
    [|reflexivity].
  cbn [ticks clock collections next_oid store_log].
  fold (timesheet_doc (clock w (ticks w)) (clock w (S (ticks w)))
          (clock w (S (S (ticks w))))
          project_id talent_id start_date end_date entries total).
  replace (timesheet_doc (clock w (ticks w)) (clock w (S (ticks w)))
          (clock w (S (S (ticks w))))
          project_id talent_id start_date end_date entries total !! "_id")
    with (@None PyVal) by reflexivity.
  reflexivity.
Qed.

Ltac status_run d0 Hvalid Hfind :=
  rewrite Hvalid; cbn [negb];
  unfold get_timesheet, get_invoice; unfold_M;
  cbn [fst snd ticks clock collections next_oid store_log];
  unfold status_update;
  lazymatch goal with
  | |- context [update_first ?f ?s ?c] =>
      let docs' := fresh "docs'" in
      let Hup := fresh "Hup" in
      let Hfind' := fresh "Hfind'" in
      let Hd := fresh "Hd" in
      assert (Hd : Forall (fun kv : string * PyVal => kv.1 ∉ s.*1) f)
        by (constructor; [not_in_keys | constructor]);
      destruct (update_first_found f s c d0 Hd Hfind) as (docs' & Hup & Hfind');
      rewrite Hup;
      destruct (set_changes s d0); cbn [N.eqb fst];
      [unfold get_collection; cbn [collections];
       rewrite lookup_insert_eq; cbn [default from_option id];
       rewrite Hfind'; reflexivity
      | reflexivity]
  end.

Lemma update_timesheet_status_run (timesheet_id status : PyVal) (w : World)
    (d0 : Doc) :
  py_in_strs status timesheet_statuses = true ->
  List.find (doc_matches [("timesheet_id", timesheet_id)])
            (get_collection w TIMESHEETS) = Some d0 ->
  (update_timesheet_status py_repr timesheet_id status w).1
  = if set_changes (status_update status (clock w (ticks w))) d0
    then Ok (stringify_id py_repr
               (Some (apply_set (status_update status (clock w (ticks w))) d0)))
    else Raise (ValueError ("Timesheet " ++ py_str py_repr timesheet_id
                            ++ " not found")).
Proof.
  intros Hvalid Hfind. unfold update_timesheet_status.
  status_run d0 Hvalid Hfind.
Qed.

Lemma update_invoice_status_run (invoice_number status : PyVal) (w : World)
    (d0 : Doc) :
  py_in_strs status invoice_statuses = true ->
  List.find (doc_matches [("invoice_number", invoice_number)])
            (get_collection w INVOICES) = Some d0 ->
  (update_invoice_status py_repr invoice_number status w).1
  = if set_changes (status_update status (clock w (ticks w))) d0
    then Ok (stringify_id py_repr
               (Some (apply_set (status_update status (clock w (ticks w))) d0)))
    else Raise (ValueError ("Invoice " ++ py_str py_repr invoice_number
                            ++ " not found")).
Proof.
  intros Hvalid Hfind. unfold update_invoice_status.
  status_run d0 Hvalid Hfind.
Qed.

(** The real not-found case: no document matches, nothing is modified. *)
Lemma update_timesheet_status_missing (timesheet_id status : PyVal) (w : World) :
  py_in_strs status timesheet_statuses = true ->
  List.find (doc_matches [("timesheet_id", timesheet_id)])
            (get_collection w TIMESHEETS) = None ->
  (update_timesheet_status py_repr timesheet_id status w).1
  = Raise (ValueError ("Timesheet " ++ py_str py_repr timesheet_id ++ " not found")).
Proof.
  intros Hvalid Hfind. unfold update_timesheet_status.
  rewrite Hvalid. cbn [negb]. unfold_M.
  cbn [fst snd ticks clock collections next_oid store_log].
  change (get_collection _ TIMESHEETS) with (get_collection w TIMESHEETS).
  rewrite (update_first_not_found _ _ _ Hfind). reflexivity.
Qed.

Lemma py_in_strs_str (v : PyVal) (l : list string) :
  py_in_strs v l = true -> exists s, v = VStr s.
Proof.
  destruct v; eauto; unfold py_in_strs; intros H;
    apply existsb_exists in H as (? & _ & H); discriminate.
Qed.

(** Whether a status update to the status the record holds changes it. *)
Lemma same_status_changes (status : PyVal) (statuses : list string)
    (t : DateTime) (d0 : Doc) :
  py_in_strs status statuses = true ->
  d0 !! "status" = Some status ->
  set_changes (status_update status t) d0 = true
  <-> d0 !! "updated_at" <> Some (VStr (isoformat t)).
Proof.
  intros Hvalid Hst. apply py_in_strs_str in Hvalid as [s ->].
  unfold set_changes, status_update. cbn [existsb fst snd].
  rewrite Hst. cbn [val_same]. rewrite String.eqb_refl. cbn [negb orb].
  rewrite orb_false_r.
  destruct (d0 !! "updated_at") as [x|] eqn:Hx.
  - rewrite negb_true_iff. split.
    + intros Hne [= ->]. simpl in Hne. rewrite String.eqb_refl in Hne. discriminate.
    + intros Hne. destruct (val_same x (VStr (isoformat t))) eqn:E; [|reflexivity].
      apply val_same_str in E. congruence.
  - split; [discriminate | reflexivity].
Qed.

Lemma same_status_apply (status : PyVal) (t : DateTime) (d0 : Doc) :
  d0 !! "status" = Some status ->
  apply_set (status_update status t) d0
  = <["updated_at" := VStr (isoformat t)]> d0.
Proof.
  intros Hst. unfold apply_set, status_update. cbn [fold_left fst snd].
  rewrite (insert_id d0 "status" status Hst). reflexivity.
Qed.

(** C10, as the code has it: a status update to the status the record
    already holds also sets [updated_at] to the current time.  It raises the
    not-found error only when the stored [updated_at] is that same time stamp
    (nothing changes and [modified_count] is 0); otherwise it succeeds and
    returns the record with the new [updated_at].  The same for timesheets
    and invoices. *)
Theorem same_status_update :
  (forall (w : World) (timesheet_id status : PyVal) (d0 : Doc),
      py_in_strs status timesheet_statuses = true ->
      List.find (doc_matches [("timesheet_id", timesheet_id)])
                (get_collection w TIMESHEETS) = Some d0 ->
      d0 !! "status" = Some status ->
      (d0 !! "updated_at" = Some (VStr (isoformat (clock w (ticks w)))) ->
       (update_timesheet_status py_repr timesheet_id status w).1
       = Raise (ValueError ("Timesheet " ++ py_str py_repr timesheet_id
                            ++ " not found")))
      /\ (d0 !! "updated_at" <> Some (VStr (isoformat (clock w (ticks w)))) ->
          (update_timesheet_status py_repr timesheet_id status w).1
          = Ok (stringify_id py_repr
                  (Some (<["updated_at" := VStr (isoformat (clock w (ticks w)))]> d0)))))
  /\
  (forall (w : World) (invoice_number status : PyVal) (d0 : Doc),
      py_in_strs status invoice_statuses = true ->
      List.find (doc_matches [("invoice_number", invoice_number)])
                (get_collection w INVOICES) = Some d0 ->
      d0 !! "status" = Some status ->
      (d0 !! "updated_at" = Some (VStr (isoformat (clock w (ticks w)))) ->
       (update_invoice_status py_repr invoice_number status w).1
       = Raise (ValueError ("Invoice " ++ py_str py_repr invoice_number
                            ++ " not found")))
      /\ (d0 !! "updated_at" <> Some (VStr (isoformat (clock w (ticks w)))) ->
          (update_invoice_status py_repr invoice_number status w).1
          = Ok (stringify_id py_repr
                  (Some (<["updated_at" := VStr (isoformat (clock w (ticks w)))]> d0))))).
Proof.
  split; intros w id status d0 Hvalid Hfind Hst;
    pose proof (same_status_changes status _ (clock w (ticks w)) d0 Hvalid Hst)
      as Hchg.
  - rewrite (update_timesheet_status_run id status w d0 Hvalid Hfind).
    rewrite (same_status_apply status _ d0 Hst).
    destruct (set_changes (status_update status (clock w (ticks w))) d0); split.
    + intros Hsame. exfalso. apply (proj1 Hchg eq_refl), Hsame.
    + reflexivity.
    + reflexivity.
    + intros Hne. apply Hchg in Hne. discriminate.
  - rewrite (update_invoice_status_run id status w d0 Hvalid Hfind).
    rewrite (same_status_apply status _ d0 Hst).
    destruct (set_changes (status_update status (clock w (ticks w))) d0); split.
    + intros Hsame. exfalso. apply (proj1 Hchg eq_refl), Hsame.
    + reflexivity.
    + reflexivity.
    + intros Hne. apply Hchg in Hne. discriminate.
Qed.

Lemma status_update_lookup (status : PyVal) (t : DateTime) (d0 : Doc) :
  exists d,
    stringify_id py_repr (Some (apply_set (status_update status t) d0)) = Some d
    /\ d !! "status" = Some status
    /\ d !! "updated_at" = Some (VStr (isoformat t))
    /\ (forall k, k ∉ ["status"; "updated_at"; "_id"] -> d !! k = d0 !! k).
Proof.
  cbn [stringify_id].
  assert (Hs : apply_set (status_update status t) d0 !! "status" = Some status).
  { unfold apply_set, status_update. cbn.
    rewrite lookup_insert_ne by discriminate. by rewrite lookup_insert_eq. }
  assert (Hu : apply_set (status_update status t) d0 !! "updated_at"
               = Some (VStr (isoformat t))).
  { unfold apply_set, status_update. cbn. by rewrite lookup_insert_eq. }
  assert (Hk : forall k, k ∉ ["status"; "updated_at"; "_id"] ->
               apply_set (status_update status t) d0 !! k = d0 !! k).
  { intros k Hk. apply apply_set_lookup_other. cbn. intros Hin. apply Hk.
    apply elem_of_cons in Hin as [->|Hin]; [left|].
    apply elem_of_cons in Hin as [->|Hin]; [right; left|].
    by apply elem_of_nil in Hin. }
  destruct (apply_set (status_update status t) d0 !! "_id") as [id|];
    eexists; (split; [reflexivity|]).
  - rewrite !lookup_insert_ne by discriminate. repeat split; try assumption.
    intros k Hk'. rewrite lookup_insert_ne.
    + by apply Hk.
    + intros <-. apply Hk'. right; right; left.
  - repeat split; assumption.
Qed.

(** What a status update that succeeds finds, stores and returns. *)
Lemma update_timesheet_status_stored (timesheet_id status : PyVal) (w w' : World)
    (r : option Doc) :
  update_timesheet_status py_repr timesheet_id status w = (Ok r, w') ->
  exists d0 : Doc,
    List.find (doc_matches [("timesheet_id", timesheet_id)])
              (get_collection w TIMESHEETS) = Some d0
    /\ List.find (doc_matches [("timesheet_id", timesheet_id)])
                 (get_collection w' TIMESHEETS)
       = Some (apply_set (status_update status (clock w (ticks w))) d0)
    /\ r = stringify_id py_repr
             (Some (apply_set (status_update status (clock w (ticks w))) d0)).
Proof.
  unfold update_timesheet_status.
  destruct (py_in_strs status timesheet_statuses); [|discriminate].
  status_read_back d0 Hf Hf'.
  unfold get_timesheet, find_one, mbind, M_bind, mret, M_ret. cbn [fst snd].
  intros [= <- <-]. exists d0.
  unfold log_op, get_collection in *. cbn [collections].
  fold (status_update status (clock w (ticks w))) in *.
  rewrite Hf'. repeat split; assumption.
Qed.

(** A status that differs from the stored one, or a new time stamp, is a
    change. *)
Lemma status_update_changes (status : PyVal) (statuses : list string)
    (t : DateTime) (d0 : Doc) :
  py_in_strs status statuses = true ->
  d0 !! "status" <> Some status \/ d0 !! "updated_at" <> Some (VStr (isoformat t)) ->
  set_changes (status_update status t) d0 = true.
Proof.
  intros Hvalid Hne. apply py_in_strs_str in Hvalid as [s ->].
  unfold set_changes, status_update. cbn [existsb fst snd].
  rewrite orb_false_r. apply orb_true_iff.
  destruct Hne as [Hne|Hne]; [left|right].
  - destruct (d0 !! "status") as [x|]; [|reflexivity].
    destruct (val_same x (VStr s)) eqn:E; [|reflexivity].
    apply val_same_str in E. congruence.
  - destruct (d0 !! "updated_at") as [x|]; [|reflexivity].
    destruct (val_same x (VStr (isoformat t))) eqn:E; [|reflexivity].
    apply val_same_str in E. congruence.
Qed.

(** C3: an update-timesheet request with [timesheet_id] and a [status]
    runs the status transition only, whether or not [start_date] and
    [end_date] are present: the result is that of [update_timesheet_status],
    it is the same as for the request without the dates, and every field of
    every stored document other than [status] and [updated_at] (so
    [start_date], [end_date], [entries], [total_hours]) is unchanged.  The
    transition is applied: for a status a timesheet can have and a timesheet
    the identifier finds, when the status differs from the stored one or the
    time stamp is new, the request succeeds, the timesheet it returns and
    the one stored under the identifier have the requested status, and
    their other fields are those stored before. *)
Theorem status_takes_priority (entities : Doc) (w : World) :
  truthy (py_get entities "timesheet_id") = true ->
  truthy (py_get entities "status") = true ->
  _update_timesheet py_repr entities w
  = (timesheet ← update_timesheet_status py_repr (py_get entities "timesheet_id")
                                          (py_get entities "status");
     mret (mkOpResult "update_timesheet_status" timesheet
             ("Updated timesheet " ++ py_str py_repr (py_get entities "timesheet_id")
              ++ " status to " ++ py_str py_repr (py_get entities "status")))) w
  /\ _update_timesheet py_repr entities w
     = _update_timesheet py_repr (delete "start_date" (delete "end_date" entities)) w
  /\ (forall coll k : string,
        k ∉ ["status"; "updated_at"] ->
        (fun d : Doc => d !! k)
          <$> get_collection (_update_timesheet py_repr entities w).2 coll
        = (fun d : Doc => d !! k) <$> get_collection w coll)
  /\ (forall d0 : Doc,
        py_in_strs (py_get entities "status") timesheet_statuses = true ->
        List.find (doc_matches [("timesheet_id", py_get entities "timesheet_id")])
                  (get_collection w TIMESHEETS) = Some d0 ->
        d0 !! "status" <> Some (py_get entities "status")
        \/ d0 !! "updated_at" <> Some (VStr (isoformat (clock w (ticks w)))) ->
        exists (doc stored : Doc) (w' : World),
          _update_timesheet py_repr entities w
          = (Ok (mkOpResult "update_timesheet_status" (Some doc)
                   ("Updated timesheet "
                    ++ py_str py_repr (py_get entities "timesheet_id")
                    ++ " status to " ++ py_str py_repr (py_get entities "status"))),
             w')
          /\ doc !! "status" = Some (py_get entities "status")
          /\ List.find (doc_matches [("timesheet_id", py_get entities "timesheet_id")])
                       (get_collection w' TIMESHEETS) = Some stored
          /\ stored !! "status" = Some (py_get entities "status")
          /\ (forall k, k ∉ ["status"; "updated_at"] -> stored !! k = d0 !! k)
          /\ (forall k, k ∉ ["status"; "updated_at"; "_id"] -> doc !! k = d0 !! k)).
Proof.
  intros Hid Hst.
  assert (Hrun : _update_timesheet py_repr entities w
    = (timesheet ← update_timesheet_status py_repr (py_get entities "timesheet_id")
                                            (py_get entities "status");
       mret (mkOpResult "update_timesheet_status" timesheet
               ("Updated timesheet " ++ py_str py_repr (py_get entities "timesheet_id")
                ++ " status to " ++ py_str py_repr (py_get entities "status")))) w).
  { unfold _update_timesheet. rewrite Hid, Hst. reflexivity. }
  split; [exact Hrun|]. split; [|split].
  - rewrite Hrun. unfold _update_timesheet, py_get.
    rewrite !lookup_delete_ne by discriminate.
    fold (py_get entities "timesheet_id") (py_get entities "status").
    rewrite Hid, Hst. reflexivity.
  - intros coll k Hk. rewrite Hrun. unfold mbind at 1, M_bind at 1.
    rewrite <- (update_timesheet_status_keeps
                  (py_get entities "timesheet_id") (py_get entities "status") w coll k Hk).
    destruct (update_timesheet_status py_repr (py_get entities "timesheet_id")
                (py_get entities "status") w) as [[a|e] w']; reflexivity.
  - intros d0 Hvalid Hfind Hne. rewrite Hrun. clear Hrun.
    set (id := py_get entities "timesheet_id") in *.
    set (status := py_get entities "status") in *.
    pose proof (update_timesheet_status_run id status w d0 Hvalid Hfind) as Hres.
    rewrite (status_update_changes status _ _ d0 Hvalid Hne) in Hres.
    destruct (update_timesheet_status py_repr id status w) as [res w'] eqn:Hup.
    cbn [fst] in Hres. subst res.
    destruct (update_timesheet_status_stored _ _ _ _ _ Hup) as (d0' & Hf0 & Hf' & _).
    rewrite Hfind in Hf0. injection Hf0 as <-.
    destruct (status_update_lookup status (clock w (ticks w)) d0)
      as (doc & Hdoc & Hs & _ & Hk).
    exists doc, (apply_set (status_update status (clock w (ticks w))) d0), w'.
    unfold mbind, M_bind, mret, M_ret. rewrite Hup, Hdoc.
    split; [reflexivity|]. split; [exact Hs|]. split; [exact Hf'|].
    split; [|split; [|exact Hk]].
    + unfold apply_set, status_update. cbn [fold_left fst snd].
      rewrite lookup_insert_ne by discriminate. apply lookup_insert_eq.
    + intros k Hk'. apply apply_set_lookup_other. exact Hk'.
Qed.

End HandlerProperties.

(** ** Creating and updating documents *)

Lemma add_days_ok (n : nat) (d : Date) :
  (Z.of_nat n <= 30)%Z ->
  (year d < 9999 \/ (year d = 9999 /\ month d = 1 /\ day d + Z.of_nat n <= 31))%Z ->
  exists d', add_days n d = Ok d'.
Proof.
  revert d. induction n as [|n IH]; intros d Hn Hd; [eexists; reflexivity|].
  cbn [add_days]. unfold add_one_day.
  destruct (Z.ltb_spec (day d) (days_in_month (year d) (month d))) as [Hlt|Hge].
  - apply IH; [lia|]. simpl. lia.
  - destruct (Z.ltb_spec (month d) 12) as [Hm|Hm].
    + apply IH; [lia|]. simpl.
      destruct Hd as [Hd | (Hy & Hmo & Hday)]; [lia|].
      rewrite Hmo in Hge. unfold days_in_month in Hge. simpl in Hge. lia.
    + destruct (Z.ltb_spec (year d) 9999) as [Hy|Hy].
      * apply IH; [lia|]. simpl. lia.
      * lia.
Qed.

Lemma str_app_assoc (a b c : string) : (a ++ b) ++ c = a ++ b ++ c.
Proof.
  induction a as [|x a IH]; [reflexivity|].
  change (String x ((a ++ b) ++ c) = String x (a ++ b ++ c)).
  f_equal. exact IH.
Qed.

Lemma make_id_form (prefix : string) (t : DateTime) :
  make_id prefix t
  = prefix ++ "-" ++ fmt_04d (year (dt_date t)) ++ fmt_02d (month (dt_date t))
           ++ "-" ++ str_of_Z (microsecond t mod 1000).
Proof. unfold make_id, strftime_Ym. rewrite str_app_assoc. reflexivity. Qed.

Lemma py_eq_str_true (v : PyVal) (s : string) : py_eq_str v s = true <-> v = VStr s.
Proof.
  destruct v; simpl; try (split; [discriminate | intros [=]]).
  rewrite String.eqb_eq. split; [intros -> | intros [= ->]]; reflexivity.
Qed.

Lemma py_eq_str_false (v : PyVal) (s : string) : py_eq_str v s = false <-> v <> VStr s.
Proof.
  rewrite <- py_eq_str_true. destruct (py_eq_str v s); intuition congruence.
Qed.

(** The amount computed from float hours and a float rate. *)
Lemma invoice_amount_floats (rate_type : PyVal) (H R : float) :
  exists amount : float,
    invoice_amount rate_type (VFloat H) (VFloat R) = Ok (VFloat amount)
    /\ (rate_type = VStr "Hourly" -> amount = (H * R)%float)
    /\ (rate_type = VStr "Daily" -> amount = (H / 8 * R)%float)
    /\ (rate_type = VStr "Weekly" -> amount = (H / 40 * R)%float)
    /\ (rate_type = VStr "Monthly" -> amount = (H / 160 * R)%float)
    /\ (rate_type <> VStr "Hourly" -> rate_type <> VStr "Daily" ->
        rate_type <> VStr "Weekly" -> rate_type <> VStr "Monthly" ->
        amount = 0%float).
Proof.
  unfold invoice_amount.
  destruct (py_eq_str rate_type "Hourly") eqn:E1;
    [apply py_eq_str_true in E1 | apply py_eq_str_false in E1].
  { subst. eexists. split; [reflexivity|].
    repeat split; intros; try discriminate; try reflexivity; congruence. }
  destruct (py_eq_str rate_type "Daily") eqn:E2;
    [apply py_eq_str_true in E2 | apply py_eq_str_false in E2].
  { subst. eexists. split; [reflexivity|].
    repeat split; intros; try discriminate; try reflexivity; congruence. }
  destruct (py_eq_str rate_type "Weekly") eqn:E3;
    [apply py_eq_str_true in E3 | apply py_eq_str_false in E3].
  { subst. eexists. split; [reflexivity|].
    repeat split; intros; try discriminate; try reflexivity; congruence. }
  destruct (py_eq_str rate_type "Monthly") eqn:E4;
    [apply py_eq_str_true in E4 | apply py_eq_str_false in E4].
  { subst. eexists. split; [reflexivity|].
    repeat split; intros; try discriminate; try reflexivity; congruence. }
  eexists. split; [reflexivity|].
  repeat split; intros; try reflexivity; congruence.
Qed.

Section CreateAndUpdate.
Variable py_repr : PyVal -> string.

Lemma dates_update_changes (start_date end_date : PyVal) (entries : list PyVal)
    (total_hours : float) (t : DateTime) (d0 : Doc) :
  d0 !! "updated_at" <> Some (VStr (isoformat t)) ->
  set_changes (dates_update start_date end_date entries total_hours t) d0 = true.
Proof.
  intros Hne. unfold set_changes, dates_update. cbn [existsb fst snd].
  rewrite !orb_true_iff. do 4 right. left.
  destruct (d0 !! "updated_at") as [x|]; [|reflexivity].
  destruct (val_same x (VStr (isoformat t))) eqn:E; [|reflexivity].
  apply val_same_str in E. congruence.
Qed.

Lemma update_timesheet_dates_run
    (timesheet_id start_date end_date hours_per_day : PyVal) (w : World)
    (d0 : Doc) (entries : list PyVal) (total_hours : float) :
  timesheet_id <> VNone ->
  List.find (doc_matches [("timesheet_id", timesheet_id)])
            (get_collection w TIMESHEETS) = Some d0 ->
  generate_entries start_date end_date hours_per_day = Ok (entries, total_hours) ->
  set_changes (dates_update start_date end_date entries total_hours
                            (clock w (ticks w))) d0 = true ->
  exists w',
    update_timesheet_dates py_repr timesheet_id start_date end_date hours_per_day w
    = (Ok (stringify_id py_repr
             (Some (apply_set (dates_update start_date end_date entries total_hours
                                            (clock w (ticks w))) d0))), w')
    /\ List.find (doc_matches [("timesheet_id", timesheet_id)])
                 (get_collection w' TIMESHEETS)
       = Some (apply_set (dates_update start_date end_date entries total_hours
                                       (clock w (ticks w))) d0)
    /\ clock w' = clock w /\ ticks w' = S (ticks w).
Proof.
  intros Hid Hfind Hgen Hchg. unfold update_timesheet_dates, get_timesheet.
  unfold_M. cbn [fst snd ticks clock collections next_oid store_log].
  rewrite Hfind.
  rewrite (stringify_id_falsy py_repr d0 (found_not_empty _ _ _ _ Hid Hfind)).
  rewrite Hgen. cbn [ticks clock collections next_oid store_log].
  fold (dates_update start_date end_date entries total_hours (clock w (ticks w))).
  lazymatch goal with
  | |- context [update_first ?f ?s ?c] =>
      assert (Hd : Forall (fun kv : string * PyVal => kv.1 ∉ s.*1) f)
        by (constructor; [not_in_keys | constructor]);
      destruct (update_first_found f s c d0 Hd Hfind) as (docs' & Hup & Hfind');
      rewrite Hup
  end.
  rewrite Hchg. cbn [N.eqb].
  unfold get_collection at 1. cbn [collections].
  rewrite lookup_insert_eq. cbn [default from_option id]. rewrite Hfind'.
  eexists. split; [reflexivity|]. split; [|split; reflexivity].
  unfold get_collection. cbn [collections].
  rewrite lookup_insert_eq. exact Hfind'.
Qed.

(** [list_timesheets] looks a talent's timesheets up under [user_id], the
    field [create_timesheet] writes. *)
Lemma list_timesheets_by_talent (talent_id : PyVal) :
  truthy talent_id = true ->
  list_timesheets_query VNone talent_id VNone VNone VNone
  = {[ "user_id" := talent_id ]}.
Proof. intros H. unfold list_timesheets_query. simpl. rewrite H. reflexivity. Qed.

(** C9, as the code has it: the timesheet [create_timesheet] returns and
    stores holds the owning person's identifier under the field [user_id],
    and has no field [talent_id]; it holds [project_id], [start_date],
    [end_date], [status] (draft), [entries] and [total_hours]. *)
Theorem timesheet_owner_field
    (project_id talent_id start_date end_date hours_per_day : PyVal)
    (w : World) (doc : Doc) :
  (create_timesheet py_repr project_id talent_id start_date end_date
                    hours_per_day w).1 = Ok doc ->
  doc !! "user_id" = Some talent_id
  /\ doc !! "talent_id" = None
  /\ doc !! "project_id" = Some project_id
  /\ doc !! "start_date" = Some start_date
  /\ doc !! "end_date" = Some end_date
  /\ doc !! "status" = Some (VStr "draft")
  /\ (exists (entries : list PyVal) (total_hours : float),
        doc !! "entries" = Some (VList entries)
        /\ doc !! "total_hours" = Some (VFloat total_hours))
  /\ (exists stored : Doc,
        last (get_collection
                (create_timesheet py_repr project_id talent_id start_date end_date
                                  hours_per_day w).2 TIMESHEETS) = Some stored
        /\ stored !! "user_id" = Some talent_id
        /\ stored !! "talent_id" = None).
Proof.
  pose proof (create_timesheet_run py_repr project_id talent_id start_date end_date
                hours_per_day w) as Hrun.
  destruct (generate_entries start_date end_date hours_per_day)
    as [[entries total]|e]; [|rewrite Hrun; discriminate].
  cbv zeta in Hrun. rewrite Hrun. cbn [fst snd]. intros [= <-].
  repeat split.
  - exists entries, total. split; reflexivity.
  - eexists. split.
    + unfold get_collection. cbn [collections]. rewrite lookup_insert_eq.
      cbn [default from_option id]. apply last_snoc.
    + split; reflexivity.
Qed.

Lemma create_timesheet_invoice_number (timesheet_id : PyVal) (w : World) (inv : Doc) :
  (create_timesheet_invoice py_repr timesheet_id w).1 = Ok inv ->
  inv !! "invoice_number" = Some (VStr (make_id "INV" (clock w (ticks w)))).
Proof.
  unfold create_timesheet_invoice, get_timesheet. unfold_M.
  cbn [fst snd ticks clock collections next_oid store_log].
  repeat match goal with
         | |- context [match ?x with _ => _ end] =>
             lazymatch x with
             | context [match _ with _ => _ end] => fail
             | _ => destruct x eqn:?
             end; cbn [fst snd ticks clock collections next_oid store_log];
             try discriminate
         end.
  all: try (intros [= <-]; reflexivity).
Qed.

Lemma create_expense_invoice_number (expense_id talent_id : PyVal) (w : World)
    (inv : Doc) :
  (create_expense_invoice py_repr expense_id talent_id w).1 = Ok inv ->
  inv !! "invoice_number" = Some (VStr (make_id "INV" (clock w (ticks w)))).
Proof.
  unfold create_expense_invoice, get_expense. unfold_M.
  cbn [fst snd ticks clock collections next_oid store_log].
  repeat match goal with
         | |- context [match ?x with _ => _ end] =>
             lazymatch x with
             | context [match _ with _ => _ end] => fail
             | _ => destruct x eqn:?
             end; cbn [fst snd ticks clock collections next_oid store_log];
             try discriminate
         end.
  all: try (intros [= <-]; reflexivity).
Qed.

(** C8: the identifier of a created timesheet is [TS-<YYYYMM>-<N>] and the
    number of a created invoice (from a timesheet or from an expense) is
    [INV-<YYYYMM>-<N>], where YYYYMM is the year and month of the clock
    reading taken for the identifier and N is its microsecond modulo 1000,
    in decimal; two readings 1000 microseconds apart give the same
    identifier, so the scheme is not collision-free. *)
Theorem generated_identifiers :
  (forall (project_id talent_id start_date end_date hours_per_day : PyVal)
          (w : World) (doc : Doc),
      (create_timesheet py_repr project_id talent_id start_date end_date
                        hours_per_day w).1 = Ok doc ->
      doc !! "timesheet_id"
      = Some (VStr ("TS-" ++ fmt_04d (year (dt_date (clock w (ticks w))))
                    ++ fmt_02d (month (dt_date (clock w (ticks w)))) ++ "-"
                    ++ str_of_Z (microsecond (clock w (ticks w)) mod 1000))))
  /\ (forall (timesheet_id : PyVal) (w : World) (inv : Doc),
         (create_timesheet_invoice py_repr timesheet_id w).1 = Ok inv ->
         inv !! "invoice_number"
         = Some (VStr ("INV-" ++ fmt_04d (year (dt_date (clock w (ticks w))))
                       ++ fmt_02d (month (dt_date (clock w (ticks w)))) ++ "-"
                       ++ str_of_Z (microsecond (clock w (ticks w)) mod 1000))))
  /\ (forall (expense_id talent_id : PyVal) (w : World) (inv : Doc),
         (create_expense_invoice py_repr expense_id talent_id w).1 = Ok inv ->
         inv !! "invoice_number"
         = Some (VStr ("INV-" ++ fmt_04d (year (dt_date (clock w (ticks w))))
                       ++ fmt_02d (month (dt_date (clock w (ticks w)))) ++ "-"
                       ++ str_of_Z (microsecond (clock w (ticks w)) mod 1000))))
  /\ (forall (prefix : string) (d : Date) (h m s us : Z),
         make_id prefix (mkDateTime d h m s us)
         = make_id prefix (mkDateTime d h m s (us + 1000))).
Proof.
  split; [|split; [|split]].
  - intros project_id talent_id start_date end_date hours_per_day w doc.
    pose proof (create_timesheet_run py_repr project_id talent_id start_date
                  end_date hours_per_day w) as Hrun.
    destruct (generate_entries start_date end_date hours_per_day)
      as [[entries total]|e]; [|rewrite Hrun; discriminate].
    cbv zeta in Hrun. rewrite Hrun. cbn [fst]. intros [= <-].
    transitivity (Some (VStr (make_id "TS" (clock w (ticks w)))));
      [reflexivity | rewrite make_id_form; reflexivity].
  - intros timesheet_id w inv H.
    rewrite (create_timesheet_invoice_number timesheet_id w inv H).
    rewrite (make_id_form "INV"). reflexivity.
  - intros expense_id talent_id w inv H.
    rewrite (create_expense_invoice_number expense_id talent_id w inv H).
    rewrite (make_id_form "INV"). reflexivity.
  - intros prefix d h m s us. unfold make_id. cbn [microsecond dt_date].
    replace (us + 1000)%Z with (us + 1 * 1000)%Z by lia.
    rewrite Z.mod_add by lia. reflexivity.
Qed.

Lemma create_timesheet_invoice_run (timesheet_id : PyVal) (w : World)
    (ts ti : Doc) (amount : PyVal) (due : Date) :
  timesheet_id <> VNone ->
  List.find (doc_matches [("timesheet_id", timesheet_id)])
            (get_collection w TIMESHEETS) = Some ts ->
  List.find (doc_matches [("project_id", py_get ts "project_id");
                          ("talent_id", py_get ts "user_id")])
            (get_collection w TALENT_INVOICE) = Some ti ->
  dict_falsy (Some ti) = false ->
  invoice_amount (doc_get ti "talentInvoiceRateType" (VStr "Hourly"))
                 (doc_get ts "total_hours" (VFloat 0%float))
                 (doc_get ti "talentInvoiceRateValue" (VFloat 0%float)) = Ok amount ->
  add_days 30 (dt_date (clock w (S (S (ticks w))))) = Ok due ->
  exists (inv : Doc) (w' : World),
    create_timesheet_invoice py_repr timesheet_id w = (Ok inv, w')
    /\ inv !! "timesheet_id" = Some timesheet_id
    /\ inv !! "items"
       = Some (VList
                 [VDict [("description",
                          VStr ("Timesheet " ++ py_str py_repr timesheet_id ++ " - "
                                ++ py_str py_repr
                                     (doc_get ts "total_hours" (VFloat 0%float))
                                ++ " hours"));
                         ("quantity", doc_get ts "total_hours" (VFloat 0%float));
                         ("rate", doc_get ti "talentInvoiceRateValue" (VFloat 0%float));
                         ("amount", amount);
                         ("rate_type",
                          doc_get ti "talentInvoiceRateType" (VStr "Hourly"))]]).
Proof.
  intros Hid Hts Hti Hne Hamt Hdue.
  unfold create_timesheet_invoice, get_timesheet. unfold_M.
  cbn [fst snd ticks clock collections next_oid store_log].
  rewrite Hts.
  pose proof (stringify_id_falsy py_repr ts (found_not_empty _ _ _ _ Hid Hts)) as Hf.
  assert (Hp : forall k, k <> "_id" ->
             match stringify_id py_repr (Some ts) with
             | Some d' => d' !! k = ts !! k
             | None => False
             end) by (intros; apply stringify_id_lookup; assumption).
  destruct (stringify_id py_repr (Some ts)) as [ts'|] eqn:Hs; [|discriminate].
  rewrite Hf. unfold py_get, doc_get.
  rewrite !Hp by discriminate.
  fold (py_get ts "project_id") (py_get ts "user_id").
  change (get_collection _ TALENT_INVOICE) with (get_collection w TALENT_INVOICE).
  rewrite Hti, Hne.
  fold (doc_get ti "talentInvoiceRateType" (VStr "Hourly"))
       (doc_get ts "total_hours" (VFloat 0%float))
       (doc_get ti "talentInvoiceRateValue" (VFloat 0%float)).
  rewrite Hamt. cbn [fst snd ticks clock collections next_oid store_log].
  rewrite Hdue. cbn [fst snd ticks clock collections next_oid store_log].
  match goal with
  | |- context [match ?m !! "_id" with _ => _ end] =>
      replace (m !! "_id") with (@None PyVal) by reflexivity
  end.
  eexists _, _. split; [reflexivity|]. split; reflexivity.
Qed.

(** C1: an invoice created from a timesheet with [total_hours] H, under a
    rate record with [rate_value] R, carries the amount H * R for Hourly,
    (H / 8) * R for Daily, (H / 40) * R for Weekly, (H / 160) * R for
    Monthly, and 0 for any other rate type; in each case the invoice is
    created and nothing is raised.  (The clock is before year 9999, so that
    the due date, 30 days on, exists.) *)
Theorem invoice_amount_by_rate_type (timesheet_id : PyVal) (w : World)
    (ts ti : Doc) (rate_type : PyVal) (H R : float) :
  timesheet_id <> VNone ->
  List.find (doc_matches [("timesheet_id", timesheet_id)])
            (get_collection w TIMESHEETS) = Some ts ->
  List.find (doc_matches [("project_id", py_get ts "project_id");
                          ("talent_id", py_get ts "user_id")])
            (get_collection w TALENT_INVOICE) = Some ti ->
  ts !! "total_hours" = Some (VFloat H) ->
  ti !! "talentInvoiceRateType" = Some rate_type ->
  ti !! "talentInvoiceRateValue" = Some (VFloat R) ->
  (year (dt_date (clock w (S (S (ticks w))))) < 9999)%Z ->
  exists (inv : Doc) (w' : World) (amount : float),
    create_timesheet_invoice py_repr timesheet_id w = (Ok inv, w')
    /\ inv !! "items"
       = Some (VList
                 [VDict [("description",
                          VStr ("Timesheet " ++ py_str py_repr timesheet_id ++ " - "
                                ++ py_str py_repr (VFloat H) ++ " hours"));
                         ("quantity", VFloat H);
                         ("rate", VFloat R);
                         ("amount", VFloat amount);
                         ("rate_type", rate_type)]])
    /\ (rate_type = VStr "Hourly" -> amount = (H * R)%float)
    /\ (rate_type = VStr "Daily" -> amount = (H / 8 * R)%float)
    /\ (rate_type = VStr "Weekly" -> amount = (H / 40 * R)%float)
    /\ (rate_type = VStr "Monthly" -> amount = (H / 160 * R)%float)
    /\ (rate_type <> VStr "Hourly" -> rate_type <> VStr "Daily" ->
        rate_type <> VStr "Weekly" -> rate_type <> VStr "Monthly" ->
        amount = 0%float).
Proof.
  intros Hid Hts Hti Hh Hrt Hrv Hyear.
  destruct (invoice_amount_floats rate_type H R) as (amount & Hamt & Hcases).
  destruct (add_days_ok 30 (dt_date (clock w (S (S (ticks w)))))
              ltac:(lia) ltac:(left; exact Hyear)) as [due Hdue].
  assert (Hne : dict_falsy (Some ti) = false).
  { simpl. apply Nat.eqb_neq. intros Hsize. apply map_size_empty_iff in Hsize.
    subst ti. rewrite lookup_empty in Hrv. discriminate. }
  destruct (create_timesheet_invoice_run timesheet_id w ts ti (VFloat amount) due
              Hid Hts Hti Hne) as (inv & w' & Hrun & _ & Hitems).
  - unfold doc_get. rewrite Hh, Hrt, Hrv. exact Hamt.
  - exact Hdue.
  - exists inv, w', amount. split; [exact Hrun|]. split; [|exact Hcases].
    rewrite Hitems. unfold doc_get. rewrite Hh, Hrt, Hrv. reflexivity.
Qed.

(** C2, as the code has it: for ISO dates [start_date <= end_date] from the
    year 1000 on (the text the C library prints of an earlier date is not
    its ISO text), with [end_date] before 9999-12-31, and float hours [h],
    creation and date-range update produce one entry per calendar day of
    the closed range, in ascending order, each with [hours = h] and with
    the day's ISO text as its [date]; every day of the range is of the year
    1000 or later, and its text reads back as the day; [total_hours] is the
    running float sum 0.0 + h + ... + h, one addition per day.  The update
    puts these entries in place of whatever the timesheet held; the result
    depends on (start, end, h) only, so regenerating is deterministic and
    idempotent. *)
Theorem entries_cover_the_range (start_date end_date : string)
    (start end_ : Date) (h : float) :
  strptime_ymd start_date = Ok start ->
  strptime_ymd end_date = Ok end_ ->
  (1000 <= year start)%Z ->
  date_leb start end_ = true ->
  end_ <> max_date ->
  let days := days_between start end_ in
  let entries := (fun d => make_entry d (VFloat h)) <$> days in
  let total_hours := add_repeatedly (length days) h 0%float in
  (Z.of_nat (length days) = toordinal end_ - toordinal start + 1)%Z
  /\ (forall x : Date,
        valid_date x = true ->
        x ∈ days <-> date_leb start x = true /\ date_leb x end_ = true)
  /\ (forall (i j : nat) (a b : Date),
        days !! i = Some a -> days !! j = Some b -> (i < j)%nat ->
        date_ltb a b = true)
  /\ (forall d : Date,
        d ∈ days ->
        valid_date d = true /\ (1000 <= year d)%Z
        /\ strptime_ymd (strftime_ymd d) = Ok d)
  /\ (forall (project_id talent_id : PyVal) (w : World),
        exists (doc : Doc) (w' : World),
          create_timesheet py_repr project_id talent_id (VStr start_date)
                           (VStr end_date) (VFloat h) w = (Ok doc, w')
          /\ doc !! "entries" = Some (VList entries)
          /\ doc !! "total_hours" = Some (VFloat total_hours))
  /\ (forall (timesheet_id : PyVal) (w : World) (d0 : Doc),
        timesheet_id <> VNone ->
        List.find (doc_matches [("timesheet_id", timesheet_id)])
                  (get_collection w TIMESHEETS) = Some d0 ->
        d0 !! "updated_at" <> Some (VStr (isoformat (clock w (ticks w)))) ->
        exists (doc stored : Doc) (w' : World),
          update_timesheet_dates py_repr timesheet_id (VStr start_date)
                                 (VStr end_date) (VFloat h) w = (Ok (Some doc), w')
          /\ doc !! "entries" = Some (VList entries)
          /\ doc !! "total_hours" = Some (VFloat total_hours)
          /\ doc !! "start_date" = Some (VStr start_date)
          /\ doc !! "end_date" = Some (VStr end_date)
          /\ List.find (doc_matches [("timesheet_id", timesheet_id)])
                       (get_collection w' TIMESHEETS) = Some stored
          /\ stored !! "entries" = Some (VList entries)
          /\ stored !! "total_hours" = Some (VFloat total_hours)).
Proof.
  intros Hs He Hyear Hle Hmax days entries total_hours.
  pose proof (strptime_ymd_valid _ _ Hs) as Hvs.
  pose proof (strptime_ymd_valid _ _ He) as Hve.
  pose proof (generate_entries_days start_date end_date start end_ h Hs He Hmax)
    as Hgen.
  fold days in Hgen. fold entries in Hgen. fold total_hours in Hgen.
  split; [|split; [|split; [|split; [|split]]]].
  - apply days_between_length; [assumption..|].
    apply date_leb_toordinal; assumption.
  - intros x Hx. apply days_between_elem; assumption.
  - intros i j a b Ha Hb Hij.
    exact (days_between_ascending start end_ a b i j Hvs Hve Ha Hb Hij).
  - intros d Hd.
    destruct (days_between_ordinals start end_ Hvs Hve) as [Hvalid _].
    rewrite Forall_forall in Hvalid.
    pose proof (Hvalid d Hd) as Hvd.
    split; [exact Hvd|]. split; [|by apply strptime_strftime].
    apply (days_between_elem start end_ d Hvs Hve Hvd) in Hd as [Hsd _].
    unfold date_leb, date_ltb, date_eqb in Hsd.
    rewrite !orb_true_iff, !andb_true_iff, !Z.ltb_lt, !Z.eqb_eq in Hsd. lia.
  - intros project_id talent_id w.
    pose proof (create_timesheet_run py_repr project_id talent_id (VStr start_date)
                  (VStr end_date) (VFloat h) w) as Hrun.
    rewrite Hgen in Hrun. cbv zeta in Hrun.
    eexists _, _. split; [exact Hrun|]. split; reflexivity.
  - intros timesheet_id w d0 Hid Hfind Hstamp.
    destruct (update_timesheet_dates_run timesheet_id (VStr start_date)
                (VStr end_date) (VFloat h) w d0 entries total_hours Hid Hfind Hgen
                (dates_update_changes _ _ _ _ _ _ Hstamp))
      as (w' & Hrun & Hstored & _).
    assert (Hfields : forall k v,
               (k, v) ∈ [("entries", VList entries);
                         ("total_hours", VFloat total_hours);
                         ("start_date", VStr start_date);
                         ("end_date", VStr end_date)] ->
               apply_set (dates_update (VStr start_date) (VStr end_date) entries
                            total_hours (clock w (ticks w))) d0 !! k = Some v).
    { intros k v Hin. unfold apply_set, dates_update. cbn [fold_left fst snd].
      repeat (apply elem_of_cons in Hin as [[= -> ->]|Hin];
              [repeat (rewrite lookup_insert_ne by discriminate);
               apply lookup_insert_eq|]).
      apply elem_of_nil in Hin. destruct Hin. }
    pose proof (stringify_id_lookup py_repr
                  (apply_set (dates_update (VStr start_date) (VStr end_date) entries
                                total_hours (clock w (ticks w))) d0)) as Hp.
    destruct (stringify_id py_repr
                (Some (apply_set (dates_update (VStr start_date) (VStr end_date)
                                    entries total_hours (clock w (ticks w))) d0)))
      as [doc|] eqn:Hdoc; [|destruct (Hp "entries" ltac:(discriminate))].
    exists doc, (apply_set (dates_update (VStr start_date) (VStr end_date) entries
                       total_hours (clock w (ticks w))) d0), w'.
    split; [exact Hrun|].
    rewrite !Hp by discriminate.
    repeat split; try exact Hstored; apply Hfields;
      repeat (first [apply list_elem_of_here | apply list_elem_of_further]).
Qed.
End CreateAndUpdate.

(** ** The properties on sample data *)

(** 40 hours at a Daily rate of 100: the amount is 500. *)
Lemma invoice_amount_by_rate_type_witness :
  exists (inv : Doc) (w' : World),
    create_timesheet_invoice sample_repr (VStr "TS-202510-148") sample_invoice_world
    = (Ok inv, w')
    /\ inv !! "items"
       = Some (VList [VDict [("description",
                              VStr "Timesheet TS-202510-148 - <float> hours");
                             ("quantity", VFloat 40%float);
                             ("rate", VFloat 100%float);
                             ("amount", VFloat 500%float);
                             ("rate_type", VStr "Daily")]]).
Proof.
  destruct (invoice_amount_by_rate_type sample_repr (VStr "TS-202510-148")
              sample_invoice_world _ _ (VStr "Daily") 40%float 100%float
              ltac:(discriminate) eq_refl eq_refl eq_refl eq_refl eq_refl
              ltac:(vm_compute; reflexivity))
    as (inv & w' & amount & Hrun & Hitems & _ & Hdaily & _).
  exists inv, w'. split; [exact Hrun|].
  rewrite Hitems, (Hdaily eq_refl). reflexivity.
Defined.

(** 2024-02-27 to 2024-03-02 at 7.5 hours: five entries, through the leap
    day, and 37.5 hours, on creation and on update of an existing timesheet. *)
Lemma entries_cover_the_range_witness :
  (exists (doc : Doc) (w' : World),
    create_timesheet sample_repr (VStr "P1") (VStr "T1") (VStr "2024-02-27")
                     (VStr "2024-03-02") (VFloat 7.5%float) sample_world
    = (Ok doc, w')
    /\ doc !! "entries"
       = Some (VList ((fun d => make_entry d (VFloat 7.5%float))
                        <$> [mkDate 2024 2 27; mkDate 2024 2 28; mkDate 2024 2 29;
                             mkDate 2024 3 1; mkDate 2024 3 2]))
    /\ doc !! "total_hours" = Some (VFloat 37.5%float))
  /\ (exists (doc : Doc) (w' : World),
        update_timesheet_dates sample_repr (VStr "TS-202510-456") (VStr "2024-02-27")
                               (VStr "2024-03-02") (VFloat 7.5%float)
                               sample_timesheet_world
        = (Ok (Some doc), w')
        /\ doc !! "start_date" = Some (VStr "2024-02-27")
        /\ doc !! "total_hours" = Some (VFloat 37.5%float)).
Proof.
  destruct (entries_cover_the_range sample_repr "2024-02-27" "2024-03-02"
              (mkDate 2024 2 27) (mkDate 2024 3 2) 7.5%float
              eq_refl eq_refl ltac:(cbn; lia) eq_refl ltac:(discriminate))
    as (_ & _ & _ & _ & Hcreate & Hupdate).
  split.
  - destruct (Hcreate (VStr "P1") (VStr "T1") sample_world)
      as (doc & w' & Hrun & Hentries & Htotal).
    exists doc, w'. split; [exact Hrun|]. split.
    + rewrite Hentries. reflexivity.
    + rewrite Htotal. reflexivity.
  - assert (Hd : match List.find (doc_matches [("timesheet_id", VStr "TS-202510-456")])
                        (get_collection sample_timesheet_world TIMESHEETS) with
                 | Some d => d !! "updated_at" = Some (VStr "2025-10-15T09:30:00.123458")
                 | None => False
                 end) by (vm_compute; reflexivity).
    destruct (List.find (doc_matches [("timesheet_id", VStr "TS-202510-456")])
                        (get_collection sample_timesheet_world TIMESHEETS))
      as [d0|] eqn:Hfind; [|destruct Hd].
    assert (Hstamp : d0 !! "updated_at"
                     <> Some (VStr (isoformat (clock sample_timesheet_world
                                                 (ticks sample_timesheet_world)))))
      by (rewrite Hd; vm_compute; discriminate).
    destruct (Hupdate (VStr "TS-202510-456") sample_timesheet_world d0
                ltac:(discriminate) Hfind Hstamp)
      as (doc & stored & w' & Hrun & _ & Htotal & Hstart & _).
    exists doc, w'. split; [exact Hrun|]. split; [exact Hstart|].
    rewrite Htotal. reflexivity.
Defined.

(** A request with a status and a date range, for the draft timesheet
    TS-202510-456: the timesheet is submitted, the one returned and the one
    stored; the stored end date stays; the result is that of the request
    with the status alone. *)
Lemma status_takes_priority_witness :
  (exists (doc stored : Doc) (w' : World),
     _update_timesheet sample_repr sample_update_entities sample_timesheet_world
     = (Ok (mkOpResult "update_timesheet_status" (Some doc)
              "Updated timesheet TS-202510-456 status to submitted"), w')
     /\ doc !! "status" = Some (VStr "submitted")
     /\ List.find (doc_matches [("timesheet_id", VStr "TS-202510-456")])
                  (get_collection w' TIMESHEETS) = Some stored
     /\ stored !! "status" = Some (VStr "submitted")
     /\ stored !! "end_date" = Some (VStr "2025-01-10"))
  /\ (_update_timesheet sample_repr sample_update_entities sample_timesheet_world).1
     = (_update_timesheet sample_repr
          (list_to_map [("timesheet_id", VStr "TS-202510-456");
                        ("status", VStr "submitted")])
          sample_timesheet_world).1.
Proof.
  destruct (status_takes_priority sample_repr sample_update_entities
              sample_timesheet_world eq_refl eq_refl)
    as (_ & Hsame & _ & Hstatus).
  split; [|rewrite Hsame; reflexivity].
  assert (Hd : match List.find (doc_matches [("timesheet_id", VStr "TS-202510-456")])
                        (get_collection sample_timesheet_world TIMESHEETS) with
               | Some d => d !! "status" = Some (VStr "draft")
                           /\ d !! "end_date" = Some (VStr "2025-01-10")
               | None => False
               end) by (vm_compute; split; reflexivity).
  destruct (List.find (doc_matches [("timesheet_id", VStr "TS-202510-456")])
                      (get_collection sample_timesheet_world TIMESHEETS))
    as [d0|] eqn:Hfind; [|destruct Hd].
  destruct Hd as [Hdraft Hend].
  destruct (Hstatus d0 eq_refl Hfind
              ltac:(left; rewrite Hdraft; discriminate))
    as (doc & stored & w' & Hrun & Hdoc & Hstored & Hst & Hkeep & _).
  exists doc, stored, w'.
  split; [exact Hrun|]. split; [exact Hdoc|]. split; [exact Hstored|].
  split; [exact Hst|]. rewrite Hkeep by not_in_keys. exact Hend.
Defined.

(** A request with an expense id alone. *)
Lemma expense_invoice_requires_talent_witness :
  _create_invoice sample_repr
    {[ "expense_id" := VStr "6479b09b-07f3-433c-aaae-ddc9b9b8f21d" ]}
    sample_invoice_world
  = (Raise (ValueError "talent_id required for expense invoice"),
     sample_invoice_world).
Proof.
  apply (expense_invoice_requires_talent sample_repr); reflexivity.
Defined.

(** At 2025-10-15 09:30:00.123456: TS-202510-456 and INV-202510-456. *)
Lemma generated_identifiers_witness :
  (exists (doc : Doc) (w' : World),
      create_timesheet sample_repr (VStr "P1") (VStr "T1") (VStr "2025-01-01")
                       (VStr "2025-01-10") (VFloat 8%float) sample_world
      = (Ok doc, w')
      /\ doc !! "timesheet_id" = Some (VStr "TS-202510-456"))
  /\ (exists (inv : Doc) (w' : World),
        create_timesheet_invoice sample_repr (VStr "TS-202510-148")
                                 sample_invoice_world = (Ok inv, w')
        /\ inv !! "invoice_number" = Some (VStr "INV-202510-456")).
Proof.
  pose proof (generated_identifiers sample_repr) as (Hts & Hinv & _ & _).
  split.
  - pose proof (create_timesheet_run sample_repr (VStr "P1") (VStr "T1")
                  (VStr "2025-01-01") (VStr "2025-01-10") (VFloat 8%float)
                  sample_world) as Hrun.
    rewrite (generate_entries_days "2025-01-01" "2025-01-10" _ _ 8%float
               eq_refl eq_refl ltac:(discriminate)) in Hrun.
    cbv zeta in Hrun. eexists _, _. split; [exact Hrun|].
    rewrite (Hts _ _ _ _ _ _ _ (f_equal fst Hrun)). reflexivity.
  - destruct (create_timesheet_invoice_run sample_repr (VStr "TS-202510-148")
                sample_invoice_world _ _ (VFloat 500%float) (mkDate 2025 11 14)
                ltac:(discriminate) eq_refl eq_refl eq_refl eq_refl eq_refl)
      as (inv & w' & Hrun & _).
    exists inv, w'. split; [exact Hrun|].
    rewrite (Hinv _ _ _ (f_equal fst Hrun)). reflexivity.
Defined.

(** The timesheet created for talent T1. *)
Lemma timesheet_owner_field_witness :
  exists doc : Doc,
    (create_timesheet sample_repr (VStr "P1") (VStr "T1") (VStr "2025-01-01")
                      (VStr "2025-01-10") (VFloat 8%float) sample_world).1 = Ok doc
    /\ doc !! "user_id" = Some (VStr "T1")
    /\ doc !! "talent_id" = None.
Proof.
  pose proof (create_timesheet_run sample_repr (VStr "P1") (VStr "T1")
                (VStr "2025-01-01") (VStr "2025-01-10") (VFloat 8%float)
                sample_world) as Hrun.
  rewrite (generate_entries_days "2025-01-01" "2025-01-10" _ _ 8%float
             eq_refl eq_refl ltac:(discriminate)) in Hrun.
  cbv zeta in Hrun. eexists. split; [exact (f_equal fst Hrun)|].
  destruct (timesheet_owner_field sample_repr _ _ _ _ _ _ _ (f_equal fst Hrun))
    as (Hu & Ht & _).
  split; assumption.
Defined.

(** A paid invoice set to paid again, later: it is returned with the new
    time stamp. *)
Lemma same_status_update_witness :
  (update_invoice_status sample_repr (VStr "INV-202511-186") (VStr "paid")
                         sample_paid_world).1
  = Ok (Some (list_to_map
                [("invoice_number", VStr "INV-202511-186");
                 ("status", VStr "paid");
                 ("updated_at", VStr "2025-10-15T09:30:00.123456")])).
Proof.
  destruct (proj2 (same_status_update sample_repr) sample_paid_world
              (VStr "INV-202511-186") (VStr "paid") _ eq_refl eq_refl eq_refl)
    as [_ Hok].
  rewrite Hok by discriminate. reflexivity.
Defined.

(** C2, as stated, fails.  With 0.1 hours a day over ten days the total is
    the float sum 0.1 + ... + 0.1 = 0.9999999999999999, not 0.1 * 10 = 1.0;
    and for a range that ends on 9999-12-31 the loop raises [OverflowError]
    when it steps past the last day. *)
Lemma total_hours_is_a_running_sum :
  match (create_timesheet sample_repr (VStr "P1") (VStr "T1") (VStr "2025-01-01")
                          (VStr "2025-01-10") (VFloat 0.1%float) sample_world).1 with
  | Ok doc =>
      exists (entries : list PyVal) (total_hours : float),
        doc !! "entries" = Some (VList entries)
        /\ length entries = 10
        /\ doc !! "total_hours" = Some (VFloat total_hours)
        /\ total_hours <> (0.1 * float_of_nat 10)%float
  | Raise _ => False
  end
  /\ (create_timesheet sample_repr (VStr "P1") (VStr "T1") (VStr "9999-12-30")
                       (VStr "9999-12-31") (VFloat 8%float) sample_world).1
     = Raise (OverflowError "date value out of range").
Proof.
  split; [|vm_compute; reflexivity].
  vm_compute. eexists _, _. split; [reflexivity|]. split; [reflexivity|].
  split; [reflexivity|]. intros H.
  apply (f_equal (fun x => PrimFloat.eqb x 1%float)) in H.
  vm_compute in H. discriminate.
Qed.

(** C9, as stated, fails: the created timesheet has no field [talent_id];
    the talent is under [user_id]. *)
Lemma created_timesheet_has_no_talent_id :
  match (create_timesheet sample_repr (VStr "P1") (VStr "T1") (VStr "2025-01-01")
                          (VStr "2025-01-10") (VFloat 8%float) sample_world).1 with
  | Ok doc => doc !! "talent_id" = None /\ doc !! "user_id" = Some (VStr "T1")
  | Raise _ => False
  end.
Proof. vm_compute. split; reflexivity. Qed.

(** C10, as stated, fails: the draft timesheet TS-202510-456 exists, and a
    status update to "draft" succeeds, since [updated_at] changes. *)
Lemma same_status_update_succeeds :
  match List.find (doc_matches [("timesheet_id", VStr "TS-202510-456")])
                  (get_collection sample_timesheet_world TIMESHEETS) with
  | Some d => d !! "status" = Some (VStr "draft")
  | None => False
  end
  /\ match (update_timesheet_status sample_repr (VStr "TS-202510-456")
                                    (VStr "draft") sample_timesheet_world).1 with
     | Ok (Some d') =>
         d' !! "status" = Some (VStr "draft")
         /\ d' !! "updated_at" = Some (VStr "2025-10-15T09:30:00.123459")
     | _ => False
     end.
Proof. split; vm_compute; [reflexivity | split; reflexivity]. Qed.

(** * Further properties *)

(** ** What the operations do to the store *)

#[local] Instance grows_refl : Reflexive grows.
Proof. intros w. repeat split; try reflexivity; try lia. Qed.

#[local] Instance grows_trans : Transitive grows.
Proof.
  intros a b c (H1 & H2 & H3 & H4 & H5) (G1 & G2 & G3 & G4 & G5).
  repeat split; try congruence; try lia.
  - intros coll. etransitivity; [apply H1 | apply G1].
  - etransitivity; eassumption.
Qed.

#[local] Instance only_reads_refl : Reflexive only_reads.
Proof.
  intros w. repeat split. exists []. split; [by rewrite app_nil_r | reflexivity].
Qed.

#[local] Instance only_reads_trans : Transitive only_reads.
Proof.
  intros a b c (H1 & H2 & H3 & H4 & l1 & H5 & H6) (G1 & G2 & G3 & G4 & l2 & G5 & G6).
  repeat split; try congruence.
  exists (l1 ++ l2)%list. split.
  - rewrite G5, H5. by rewrite <- app_assoc.
  - rewrite forallb_app, H6, G6. reflexivity.
Qed.

#[local] Instance same_docs_refl : Reflexive same_docs.
Proof. intros w. reflexivity. Qed.

#[local] Instance same_docs_trans : Transitive same_docs.
Proof. intros a b c H1 H2. unfold same_docs in *. congruence. Qed.

Section Keeps.
Context (R : World -> World -> Prop) `{!Reflexive R} `{!Transitive R}.

Lemma keeps_ret {A : Type} (a : A) : keeps R (mret a).
Proof. intros w. reflexivity. Qed.

Lemma keeps_raise {A : Type} (e : exn) : keeps R (raise e : M A).
Proof. intros w. reflexivity. Qed.

Lemma keeps_lift {A : Type} (r : Res A) : keeps R (lift r).
Proof. intros w. reflexivity. Qed.

Lemma keeps_bind {A B : Type} (m : M A) (f : A -> M B) :
  keeps R m -> (forall a, keeps R (f a)) -> keeps R (m ≫= f).
Proof.
  intros Hm Hf w. unfold mbind, M_bind. specialize (Hm w).
  destruct (m w) as [[a|e] w1]; cbn in *.
  - etransitivity; [exact Hm | apply Hf].
  - exact Hm.
Qed.

End Keeps.

Lemma only_reads_grows (w w' : World) : only_reads w w' -> grows w w'.
Proof.
  intros (H1 & H2 & H3 & H4 & l & H5 & _). repeat split; try congruence; try lia.
  - intros coll. unfold ids_of, get_collection. rewrite H1. reflexivity.
  - rewrite H5. by apply prefix_app_r.
Qed.

Lemma only_reads_same_docs (w w' : World) : only_reads w w' -> same_docs w w'.
Proof. intros (H1 & _). exact H1. Qed.

Lemma keeps_weaken (R R' : World -> World -> Prop) {A : Type} (m : M A) :
  (forall w w', R w w' -> R' w w') -> keeps R m -> keeps R' m.
Proof. intros H Hm w. apply H, Hm. Qed.

Lemma find_one_only_reads (coll : string) (filter : list (string * PyVal)) :
  keeps only_reads (find_one coll filter).
Proof.
  intros w. unfold find_one, log_op; cbn. repeat split.
  exists [OpFindOne coll]. split; reflexivity.
Qed.

Lemma now_grows : keeps grows now.
Proof.
  intros w. unfold now; cbn. repeat split; cbn; try reflexivity; lia.
Qed.

Lemma now_same_docs : keeps same_docs now.
Proof. intros w. reflexivity. Qed.

Lemma insert_one_grows (coll : string) (doc : Doc) : keeps grows (insert_one coll doc).
Proof.
  intros w. unfold insert_one.
  assert (Hpre : forall (ds : list Doc) (x : Doc) (w0 : World) c,
             collections w0 = collections w ->
             ((fun d : Doc => d !! "_id") <$> get_collection w c)
               `prefix_of`
             ((fun d : Doc => d !! "_id")
                <$> default [] (<[coll := (get_collection w coll ++ [x])%list]>
                                  (collections w0) !! c))).
  { intros ds x w0 c Hc. rewrite Hc. destruct (decide (coll = c)) as [->|Hne].
    - rewrite lookup_insert_eq. cbn. rewrite fmap_app. by apply prefix_app_r.
    - rewrite lookup_insert_ne by done. reflexivity. }
  destruct (doc !! "_id"); unfold log_op; cbn; repeat split; cbn;
    try reflexivity; try lia.
  - intros c. unfold ids_of at 2. unfold get_collection at 2. cbn.
    apply (Hpre [] doc w c eq_refl).
  - by apply prefix_app_r.
  - intros c. unfold ids_of at 2. unfold get_collection at 2. cbn.
    apply (Hpre [] _ w c eq_refl).
  - by apply prefix_app_r.
Qed.

Lemma update_one_grows (coll : string) (filter fields : list (string * PyVal)) :
  "_id" ∉ fields.*1 -> keeps grows (update_one coll filter fields).
Proof.
  intros Hid w. unfold update_one.
  destruct (update_first filter fields (get_collection w coll)) as [[ds n]|] eqn:Hup;
    unfold log_op; cbn; repeat split; cbn; try reflexivity; try lia.
  - intros c. unfold ids_of. unfold get_collection at 2. cbn.
    destruct (decide (coll = c)) as [->|Hne].
    + rewrite lookup_insert_eq. cbn.
      rewrite (update_first_lookup_other _ _ _ _ _ _ Hup Hid). reflexivity.
    + rewrite lookup_insert_ne by done. reflexivity.
  - by apply prefix_app_r.
  - by apply prefix_app_r.
Qed.


Lemma find_one_same_docs (coll : string) (filter : list (string * PyVal)) :
  keeps same_docs (find_one coll filter).
Proof. intros w. reflexivity. Qed.

Lemma find_one_grows (coll : string) (filter : list (string * PyVal)) :
  keeps grows (find_one coll filter).
Proof. eapply keeps_weaken; [apply only_reads_grows | apply find_one_only_reads]. Qed.

Create HintDb keeps_db.
Create HintDb atomic_db.
#[local] Hint Resolve find_one_only_reads find_one_same_docs find_one_grows
  now_grows now_same_docs insert_one_grows : keeps_db.
#[local] Hint Extern 1 (keeps grows (update_one _ _ _)) =>
  apply update_one_grows; not_in_keys : keeps_db.

Ltac keeps_step :=
  lazymatch goal with
  | |- keeps _ (_ ≫= _) => apply keeps_bind; [typeclasses eauto .. | | intros ?]
  | |- keeps _ (mret _) => apply keeps_ret; typeclasses eauto
  | |- keeps _ (raise _) => apply keeps_raise; typeclasses eauto
  | |- keeps _ (lift _) => apply keeps_lift; typeclasses eauto
  | |- keeps _ (if ?b then _ else _) => destruct b
  | |- keeps _ (match ?x with _ => _ end) => destruct x
  end.

Ltac keeps_tac := cbv zeta; repeat first [solve [eauto with keeps_db] | keeps_step].

(** ** Failing operations *)

Lemma atomic_keeps {A : Type} (m : M A) : keeps same_docs m -> atomic m.
Proof. intros H w e _. apply H. Qed.

Lemma never_raises_atomic {A : Type} (m : M A) : never_raises m -> atomic m.
Proof. intros H w e He. destruct (H w) as [a Ha]. congruence. Qed.

Lemma atomic_bind_read {A B : Type} (m : M A) (f : A -> M B) :
  keeps same_docs m -> (forall a, atomic (f a)) -> atomic (m ≫= f).
Proof.
  intros Hm Hf w e. unfold mbind, M_bind. specialize (Hm w). unfold same_docs in Hm.
  destruct (m w) as [[a|e'] w1]; cbn in *.
  - intros He. rewrite (Hf a w1 e He). exact Hm.
  - intros _. exact Hm.
Qed.

Lemma atomic_bind_total {A B : Type} (m : M A) (f : A -> M B) :
  atomic m -> (forall a, never_raises (f a)) -> atomic (m ≫= f).
Proof.
  intros Hm Hf w e. unfold mbind, M_bind. specialize (Hm w).
  destruct (m w) as [[a|e'] w1]; cbn in *.
  - intros He. destruct (Hf a w1) as [b Hb]. congruence.
  - intros _. eapply Hm. reflexivity.
Qed.

Lemma never_raises_ret {A : Type} (a : A) : never_raises (mret a).
Proof. intros w. by exists a. Qed.

Lemma never_raises_bind {A B : Type} (m : M A) (f : A -> M B) :
  never_raises m -> (forall a, never_raises (f a)) -> never_raises (m ≫= f).
Proof.
  intros Hm Hf w. unfold mbind, M_bind. destruct (Hm w) as [a Ha].
  destruct (m w) as [[a'|e] w1]; cbn in *; [|discriminate]. apply Hf.
Qed.

Lemma never_raises_find_one (coll : string) (filter : list (string * PyVal)) :
  never_raises (find_one coll filter).
Proof. intros w. by eexists. Qed.

Lemma never_raises_insert_one (coll : string) (doc : Doc) :
  never_raises (insert_one coll doc).
Proof. intros w. unfold insert_one. destruct (doc !! "_id"); by eexists. Qed.

Lemma val_same_eq (a b : PyVal) : val_same a b = true -> a = b.
Proof.
  revert a b. fix IH 1. intros a b.
  destruct a as [ | s | x | n | l | d ], b as [ | s' | x' | n' | l' | d' ];
    cbn; try discriminate; intros H.
  - reflexivity.
  - apply String.eqb_eq in H. congruence.
  - apply Leibniz.eqb_spec in H. congruence.
  - apply N.eqb_eq in H. congruence.
  - f_equal. revert l' H.
    induction l as [|y ys IHl]; intros [|y' ys']; try discriminate; [reflexivity|].
    intros H. apply andb_true_iff in H as [H1 H2].
    f_equal; [apply IH; exact H1 | apply IHl; exact H2].
  - f_equal. revert d' H.
    induction d as [|[k y] ys IHd]; intros [|[k' y'] ys']; try discriminate;
      [reflexivity|].
    intros H. apply andb_true_iff in H as [H1 H2].
    apply andb_true_iff in H1 as [H0 H1]. apply String.eqb_eq in H0. subst k'.
    f_equal; [f_equal; apply IH; exact H1 | apply IHd; exact H2].
Qed.

Lemma apply_set_unchanged (fields : list (string * PyVal)) (d : Doc) :
  set_changes fields d = false -> apply_set fields d = d.
Proof.
  unfold set_changes, apply_set. revert d.
  induction fields as [|[k v] fields IH]; intros d H; cbn in *; [reflexivity|].
  apply orb_false_iff in H as [H1 H2].
  destruct (d !! k) as [x|] eqn:Hk; [|discriminate].
  apply negb_false_iff, val_same_eq in H1. subst x.
  rewrite insert_id by exact Hk. apply IH, H2.
Qed.

Lemma update_first_zero (filter fields : list (string * PyVal)) (docs ds : list Doc) :
  update_first filter fields docs = Some (ds, 0%N) -> ds = docs.
Proof.
  revert ds. induction docs as [|d docs IH]; intros ds; cbn; [discriminate|].
  destruct (doc_matches filter d).
  - destruct (set_changes fields d) eqn:Hc; [discriminate|].
    intros [= <-]. by rewrite apply_set_unchanged.
  - destruct (update_first filter fields docs) as [[ds' n]|]; [|discriminate].
    intros [= <- ->]. f_equal. by apply IH.
Qed.

Lemma update_one_result (coll : string) (filter fields : list (string * PyVal))
    (w : World) :
  exists n, (update_one coll filter fields w).1 = Ok n
            /\ (n = 0%N ->
                collections (update_one coll filter fields w).2 = collections w).
Proof.
  unfold update_one.
  destruct (update_first filter fields (get_collection w coll)) as [[ds n]|] eqn:Hup;
    cbn; eexists; (split; [reflexivity|]); [|reflexivity].
  intros ->. pose proof (update_first_zero _ _ _ _ Hup) as ->.
  unfold get_collection in *.
  destruct (collections w !! coll) as [docs|] eqn:Hc; cbn in *.
  - by apply insert_id.
  - discriminate Hup.
Qed.

Lemma atomic_update {A : Type} (coll : string) (filter fields : list (string * PyVal))
    (e : exn) (g : M A) :
  never_raises g ->
  atomic (n ← update_one coll filter fields; if N.eqb n 0 then raise e else g).
Proof.
  intros Hg w e'. unfold mbind, M_bind.
  destruct (update_one_result coll filter fields w) as (n & Hn & Hz).
  destruct (update_one coll filter fields w) as [r w1]; cbn in *. subst r.
  destruct (N.eqb_spec n 0) as [->|Hne].
  - intros _. cbn. by apply Hz.
  - intros He. destruct (Hg w1) as [a Ha]. congruence.
Qed.

Section StoreProperties.
Variable py_repr : PyVal -> string.
Variable operators_match : list (string * PyVal) -> option PyVal -> bool.

Lemma find_many_only_reads (coll : string) (query : Doc) :
  keeps only_reads (find_many operators_match coll query).
Proof.
  intros w. unfold find_many, log_op; cbn. repeat split.
  exists [OpFindOne coll]. split; reflexivity.
Qed.

#[local] Hint Resolve find_many_only_reads : keeps_db.

Lemma find_many_grows (coll : string) (query : Doc) :
  keeps grows (find_many operators_match coll query).
Proof. eapply keeps_weaken; [apply only_reads_grows | apply find_many_only_reads]. Qed.

Lemma find_many_same_docs (coll : string) (query : Doc) :
  keeps same_docs (find_many operators_match coll query).
Proof. intros w. reflexivity. Qed.

#[local] Hint Resolve find_many_grows find_many_same_docs : keeps_db.

(** *** Reads *)

Lemma talents_loop_only_reads (talent_ids : list PyVal) (talents : list Doc) :
  keeps only_reads (talents_loop py_repr talent_ids talents).
Proof.
  revert talents. induction talent_ids as [|t rest IH]; intros talents; cbn.
  - keeps_tac.
  - unfold get_talent. keeps_tac; apply IH.
Qed.

Lemma _read_timesheet_only_reads (entities : Doc) :
  keeps only_reads (_read_timesheet py_repr operators_match entities).
Proof.
  unfold _read_timesheet, read_one, list_timesheets, get_timesheet. keeps_tac.
Qed.

Lemma _read_invoice_only_reads (entities : Doc) :
  keeps only_reads (_read_invoice py_repr operators_match entities).
Proof.
  unfold _read_invoice, read_one, list_invoices, get_invoice. keeps_tac.
Qed.

Lemma _read_expense_only_reads (entities : Doc) :
  keeps only_reads (_read_expense py_repr operators_match entities).
Proof.
  unfold _read_expense, read_one, list_expenses, get_expense. keeps_tac.
Qed.

Lemma _read_project_only_reads (entities : Doc) :
  keeps only_reads (_read_project py_repr entities).
Proof. unfold _read_project, read_one, get_project. keeps_tac. Qed.

Lemma _read_talent_only_reads (entities : Doc) :
  keeps only_reads (_read_talent py_repr entities).
Proof. unfold _read_talent, read_one, get_talent. keeps_tac. Qed.

#[local] Hint Resolve _read_timesheet_only_reads _read_invoice_only_reads
  _read_expense_only_reads _read_project_only_reads _read_talent_only_reads
  : keeps_db.

Lemma _generic_query_only_reads (entities parsed_query : Doc) :
  keeps only_reads (_generic_query py_repr operators_match entities parsed_query).
Proof. unfold _generic_query, list_timesheets. keeps_tac. Qed.

#[local] Hint Resolve _generic_query_only_reads : keeps_db.

Lemma _execute_operation_only_reads (intent : Intent)
    (entity_type : option EntityType) (entities parsed_query : Doc) :
  intent = READ \/ intent = QUERY ->
  keeps only_reads (_execute_operation py_repr operators_match intent entity_type
                                       entities parsed_query).
Proof. intros [-> | ->]; unfold _execute_operation; keeps_tac. Qed.

(** *** Operations that raise *)

Ltac never_raises_tac :=
  repeat first
    [ apply never_raises_ret | apply never_raises_find_one
    | apply never_raises_insert_one | apply never_raises_bind; [|intros ?] ].

Ltac atomic_step :=
  lazymatch goal with
  | |- atomic (update_one _ _ _ ≫= _) => apply atomic_update; never_raises_tac
  | |- atomic (insert_one _ _ ≫= _) => apply never_raises_atomic; never_raises_tac
  | |- atomic (_ ≫= _) =>
      first [ apply atomic_bind_read; [solve [keeps_tac] | intros ?]
            | apply atomic_bind_total; [ | intros ?; solve [never_raises_tac]] ]
  | |- atomic (mret _) => apply never_raises_atomic, never_raises_ret
  | |- atomic (raise _) => apply atomic_keeps; solve [keeps_tac]
  | |- atomic (lift _) => apply atomic_keeps; solve [keeps_tac]
  | |- atomic (if ?b then _ else _) => destruct b
  | |- atomic (match ?x with _ => _ end) => destruct x
  end.

Ltac atomic_tac := cbv zeta; repeat first [solve [eauto with atomic_db] | atomic_step].

Lemma create_timesheet_atomic
    (project_id talent_id start_date end_date hours_per_day : PyVal) :
  atomic (create_timesheet py_repr project_id talent_id start_date end_date
                           hours_per_day).
Proof. unfold create_timesheet. atomic_tac. Qed.

Lemma update_timesheet_status_atomic (timesheet_id status : PyVal) :
  atomic (update_timesheet_status py_repr timesheet_id status).
Proof. unfold update_timesheet_status, get_timesheet. atomic_tac. Qed.

Lemma update_timesheet_dates_atomic
    (timesheet_id start_date end_date hours_per_day : PyVal) :
  atomic (update_timesheet_dates py_repr timesheet_id start_date end_date
                                 hours_per_day).
Proof. unfold update_timesheet_dates, get_timesheet. atomic_tac. Qed.

Lemma create_timesheet_invoice_atomic (timesheet_id : PyVal) :
  atomic (create_timesheet_invoice py_repr timesheet_id).
Proof. unfold create_timesheet_invoice, get_timesheet. atomic_tac. Qed.

Lemma create_expense_invoice_atomic (expense_id talent_id : PyVal) :
  atomic (create_expense_invoice py_repr expense_id talent_id).
Proof. unfold create_expense_invoice, get_expense. atomic_tac. Qed.

Lemma update_invoice_status_atomic (invoice_number status : PyVal) :
  atomic (update_invoice_status py_repr invoice_number status).
Proof. unfold update_invoice_status, get_invoice. atomic_tac. Qed.

#[local] Hint Resolve create_timesheet_atomic update_timesheet_status_atomic
  update_timesheet_dates_atomic create_timesheet_invoice_atomic
  create_expense_invoice_atomic update_invoice_status_atomic : atomic_db.

(** X1: whatever the request is, the operation removes no document, moves
    none and changes the [_id] of none; it leaves the clock as it is and takes
    back no reading of it, no ObjectId and no entry of the log. *)
Theorem operations_keep_documents (intent : Intent) (entity_type : option EntityType)
    (entities parsed_query : Doc) (w : World) :
  grows w (_execute_operation py_repr operators_match intent entity_type
                              entities parsed_query w).2.
Proof.
  revert w.
  change (keeps grows (_execute_operation py_repr operators_match intent entity_type
                                          entities parsed_query)).
  destruct intent;
    try (eapply keeps_weaken;
         [apply only_reads_grows | apply _execute_operation_only_reads; auto]; fail).
  all: unfold _execute_operation, _create_timesheet, _create_invoice,
    _update_timesheet, _update_invoice, create_timesheet, create_timesheet_invoice,
    create_expense_invoice, update_timesheet_status, update_timesheet_dates,
    update_invoice_status, get_timesheet, get_invoice, get_expense.
  all: keeps_tac.
Qed.

(** X2: a READ or a QUERY only reads the store: the documents, the clock,
    the number of readings taken and the ObjectId supply are as before, and
    the calls added to the log are reads. *)
Theorem reads_only_read (intent : Intent) (entity_type : option EntityType)
    (entities parsed_query : Doc) (w : World) :
  intent = READ \/ intent = QUERY ->
  only_reads w (_execute_operation py_repr operators_match intent entity_type
                                   entities parsed_query w).2.
Proof. intros Hi. by apply _execute_operation_only_reads. Qed.

(** X3: an operation that raises has changed no document: the collections
    are what they were before the request. *)
Theorem failed_operations_change_nothing (intent : Intent)
    (entity_type : option EntityType) (entities parsed_query : Doc)
    (w : World) (e : exn) :
  (_execute_operation py_repr operators_match intent entity_type
                      entities parsed_query w).1 = Raise e ->
  collections (_execute_operation py_repr operators_match intent entity_type
                                  entities parsed_query w).2
  = collections w.
Proof.
  revert w e.
  change (atomic (_execute_operation py_repr operators_match intent entity_type
                                     entities parsed_query)).
  destruct intent;
    try (apply atomic_keeps; eapply keeps_weaken;
         [apply only_reads_same_docs | apply _execute_operation_only_reads; auto];
         fail).
  all: unfold _execute_operation, _create_timesheet, _create_invoice,
    _update_timesheet, _update_invoice.
  all: atomic_tac.
Qed.

End StoreProperties.

(** ** Creating, reading and updating *)

Lemma find_snoc {A : Type} (f : A -> bool) (l : list A) (x : A) :
  List.find f (l ++ [x])
  = match List.find f l with
    | Some y => Some y
    | None => if f x then Some x else None
    end.
Proof.
  induction l as [|a l IH]; cbn; [reflexivity|].
  destruct (f a); [reflexivity | exact IH].
Qed.

Lemma get_collection_insert_ne (m : gmap string (list Doc)) (c c' : string)
    (ds : list Doc) (ck : nat -> DateTime) (t : nat) (o : N) (l : list StoreOp) :
  c <> c' ->
  get_collection (mkWorld (<[c := ds]> m) ck t o l) c' = default [] (m !! c').
Proof. intros H. unfold get_collection. cbn. by rewrite lookup_insert_ne. Qed.

Lemma expense_item_rate (item it : PyVal) :
  expense_item item = Ok it -> rate_is_amount it.
Proof.
  unfold expense_item, item_get. destruct item; try discriminate.
  cbn. intros [= <-]. eexists. split; reflexivity.
Qed.

Lemma expense_items_loop_spec (expense_items items result : list PyVal) :
  expense_items_loop expense_items items = Ok result ->
  Forall rate_is_amount items ->
  Forall rate_is_amount result
  /\ length result = (length items + length expense_items)%nat.
Proof.
  revert items. induction expense_items as [|item rest IH]; intros items; cbn.
  - intros [= <-] H. split; [exact H | lia].
  - destruct (expense_item item) as [it|e] eqn:Hit; cbn; [|discriminate].
    intros Hl Hf. destruct (IH _ Hl) as [H1 H2].
    + apply Forall_app. split; [exact Hf|].
      constructor; [by eapply expense_item_rate | constructor].
    + split; [exact H1|]. rewrite H2, length_app. cbn. lia.
Qed.

Section ReadBack.
Variable py_repr : PyVal -> string.

Lemma dict_truthy_lookup (d : Doc) (k : string) (v : PyVal) :
  d !! k = Some v -> dict_falsy (Some d) = false.
Proof.
  intros Hk. unfold dict_falsy. destruct (size d) eqn:Hs; [|reflexivity].
  apply map_size_empty_iff in Hs. subst d. by rewrite lookup_empty in Hk.
Qed.

(** X4: a timesheet just created is the one read back under its identifier,
    and its hours are the total it was created with, when no earlier
    timesheet has the identifier; when one has, the read returns the
    earlier one. *)
Theorem created_timesheet_can_be_read
    (project_id talent_id start_date end_date hours_per_day : PyVal)
    (w w' : World) (doc : Doc) :
  create_timesheet py_repr project_id talent_id start_date end_date hours_per_day w
  = (Ok doc, w') ->
  match List.find (doc_matches [("timesheet_id", py_get doc "timesheet_id")])
                  (get_collection w TIMESHEETS) with
  | None =>
      (get_timesheet py_repr (py_get doc "timesheet_id") w').1 = Ok (Some doc)
      /\ (get_timesheet_hours py_repr (py_get doc "timesheet_id") w').1
         = Ok (py_get doc "total_hours")
  | Some older =>
      (get_timesheet py_repr (py_get doc "timesheet_id") w').1
      = Ok (stringify_id py_repr (Some older))
  end.
Proof.
  pose proof (create_timesheet_run py_repr project_id talent_id start_date end_date
                hours_per_day w) as Hrun.
  destruct (generate_entries start_date end_date hours_per_day)
    as [[entries total]|e]; [|intros H; rewrite H in Hrun; discriminate].
  cbv zeta in Hrun. rewrite Hrun. intros [= <- <-].
  set (tdoc := timesheet_doc _ _ _ _ _ _ _ _ _) in *.
  replace (py_get (<["_id" := VStr (py_str py_repr (VOid (next_oid w)))]> tdoc)
                  "timesheet_id")
    with (VStr (make_id "TS" (clock w (ticks w)))) by reflexivity.
  unfold get_timesheet_hours, get_timesheet. unfold_M. cbn [fst snd].
  rewrite get_collection_insert, find_snoc.
  destruct (List.find _ (get_collection w TIMESHEETS)) as [older|]; [reflexivity|].
  lazymatch goal with
  | |- context [doc_matches ?f ?d] =>
      replace (doc_matches f d) with true;
      [|symmetry; unfold doc_matches, field_matches; cbn [forallb];
        replace (<["_id" := VOid (next_oid w)]> tdoc !! "timesheet_id")
          with (Some (VStr (make_id "TS" (clock w (ticks w))))) by reflexivity;
        cbn [val_same]; rewrite String.eqb_refl; reflexivity]
  end.
  cbn [stringify_id]. rewrite lookup_insert_eq, insert_insert_eq.
  split; [reflexivity|].
  rewrite (dict_truthy_lookup _ "_id" _ (lookup_insert_eq _ _ _)). reflexivity.
Qed.

(** X6: a status update that succeeds, for an identifier that is text,
    returns the document a later read returns: the first timesheet with the
    identifier, with the new status and time of update and every other
    field as it was. *)
Theorem timesheet_status_update_is_read_back (timesheet_id : string)
    (status : PyVal) (w w' : World) (r : option Doc) :
  update_timesheet_status py_repr (VStr timesheet_id) status w = (Ok r, w') ->
  exists d0 d : Doc,
    List.find (doc_matches [("timesheet_id", VStr timesheet_id)])
              (get_collection w TIMESHEETS) = Some d0
    /\ r = Some d
    /\ (get_timesheet py_repr (VStr timesheet_id) w').1 = Ok (Some d)
    /\ d !! "status" = Some status
    /\ d !! "updated_at" = Some (VStr (isoformat (clock w (ticks w))))
    /\ (forall k, k ∉ ["status"; "updated_at"; "_id"] -> d !! k = d0 !! k).
Proof.
  unfold update_timesheet_status.
  destruct (py_in_strs status timesheet_statuses); [|discriminate].
  status_read_back d0 Hf Hf'.
  destruct (status_update_lookup py_repr status (clock w (ticks w)) d0)
    as (d & Hs & H1 & H2 & H3).
  unfold get_timesheet, find_one, mbind, M_bind, mret, M_ret. cbn [fst snd].
  intros [= <- <-]. exists d0, d.
  unfold log_op, get_collection in *. cbn [collections].
  fold (status_update status (clock w (ticks w))) in *.
  repeat split; try assumption; congruence.
Qed.

(** X7: a status update of an invoice that succeeds, for a number that is
    text, returns the document a later read returns: the first invoice with
    the number, with the new status and time of update and every other
    field as it was. *)
Theorem invoice_status_update_is_read_back (invoice_number : string)
    (status : PyVal) (w w' : World) (r : option Doc) :
  update_invoice_status py_repr (VStr invoice_number) status w = (Ok r, w') ->
  exists d0 d : Doc,
    List.find (doc_matches [("invoice_number", VStr invoice_number)])
              (get_collection w INVOICES) = Some d0
    /\ r = Some d
    /\ (get_invoice py_repr (VStr invoice_number) w').1 = Ok (Some d)
    /\ d !! "status" = Some status
    /\ d !! "updated_at" = Some (VStr (isoformat (clock w (ticks w))))
    /\ (forall k, k ∉ ["status"; "updated_at"; "_id"] -> d !! k = d0 !! k).
Proof.
  unfold update_invoice_status.
  destruct (py_in_strs status invoice_statuses); [|discriminate].
  status_read_back d0 Hf Hf'.
  destruct (status_update_lookup py_repr status (clock w (ticks w)) d0)
    as (d & Hs & H1 & H2 & H3).
  unfold get_invoice, find_one, mbind, M_bind, mret, M_ret. cbn [fst snd].
  intros [= <- <-]. exists d0, d.
  unfold log_op, get_collection in *. cbn [collections].
  fold (status_update status (clock w (ticks w))) in *.
  repeat split; try assumption; congruence.
Qed.

(** X8: a range that ends before it starts is accepted: the timesheet is
    created with no entry and a total of 0.0 hours, whatever [hours_per_day]
    is. *)
Theorem empty_range_is_accepted
    (project_id talent_id hours_per_day : PyVal) (start_date end_date : string)
    (start end_ : Date) (w : World) :
  strptime_ymd start_date = Ok start ->
  strptime_ymd end_date = Ok end_ ->
  date_ltb end_ start = true ->
  exists (doc : Doc) (w' : World),
    create_timesheet py_repr project_id talent_id (VStr start_date) (VStr end_date)
                     hours_per_day w = (Ok doc, w')
    /\ doc !! "entries" = Some (VList [])
    /\ doc !! "total_hours" = Some (VFloat 0%float)
    /\ doc !! "start_date" = Some (VStr start_date)
    /\ doc !! "end_date" = Some (VStr end_date).
Proof.
  intros Hs He Hlt.
  assert (Hleb : date_leb start end_ = false).
  { destruct (date_leb start end_) eqn:Hle; [exfalso|reflexivity].
    pose proof (strptime_ymd_valid _ _ Hs) as Hvs.
    pose proof (strptime_ymd_valid _ _ He) as Hve.
    apply (date_leb_toordinal _ _ Hvs Hve) in Hle.
    pose proof (toordinal_lt _ _ Hve Hvs Hlt). lia. }
  assert (Hgen : generate_entries (VStr start_date) (VStr end_date) hours_per_day
                 = Ok ([], 0%float)).
  { unfold generate_entries, strptime. rewrite Hs, He.
    unfold mbind, Res_bind, loop_fuel. cbn [entries_loop]. by rewrite Hleb. }
  pose proof (create_timesheet_run py_repr project_id talent_id (VStr start_date)
                (VStr end_date) hours_per_day w) as Hrun.
  rewrite Hgen in Hrun. cbv zeta in Hrun. rewrite Hrun.
  eexists _, _. split; [reflexivity|]. repeat split.
Qed.

Ltac split_matches :=
  repeat match goal with
         | |- context [match ?x with _ => _ end] =>
             lazymatch x with
             | context [match _ with _ => _ end] => fail
             | _ => destruct x eqn:?
             end; cbn [fst snd ticks clock collections next_oid store_log];
             try discriminate
         end.

(** X9: an invoice made from a timesheet, for an identifier that is text,
    is a draft that names the timesheet and no expense, has one item, and
    takes its project and its talent from the [project_id] and [user_id] of
    the first timesheet with the identifier. *)
Theorem timesheet_invoice_provenance (timesheet_id : string) (w : World) (inv : Doc) :
  (create_timesheet_invoice py_repr (VStr timesheet_id) w).1 = Ok inv ->
  inv !! "timesheet_id" = Some (VStr timesheet_id)
  /\ inv !! "expense_id" = None
  /\ inv !! "status" = Some (VStr "draft")
  /\ (exists item, inv !! "items" = Some (VList [item]))
  /\ exists ts ts' : Doc,
       List.find (doc_matches [("timesheet_id", VStr timesheet_id)])
                 (get_collection w TIMESHEETS) = Some ts
       /\ stringify_id py_repr (Some ts) = Some ts'
       /\ inv !! "project_id" = Some (py_get ts' "project_id")
       /\ inv !! "talent_id" = Some (py_get ts' "user_id").
Proof.
  unfold create_timesheet_invoice, get_timesheet. unfold_M.
  cbn [fst snd ticks clock collections next_oid store_log].
  destruct (List.find _ (get_collection w TIMESHEETS)) as [ts|] eqn:Hts;
    [|cbn; discriminate].
  destruct (stringify_id py_repr (Some ts)) as [ts'|] eqn:Hs; [|discriminate].
  split_matches.
  all: intros [= <-]; repeat split; try (eexists; reflexivity).
  all: exists ts, ts'; repeat split; first [assumption | reflexivity].
Qed.

(** X10: an invoice made from an expense, for identifiers that are text,
    is a draft that names the expense and no timesheet, for the talent
    given; it has at least one item, one for each item of the first expense
    with the identifier when that expense has items, and the rate of every
    item is its amount. *)
Theorem expense_invoice_items (expense_id talent_id : string) (w : World)
    (inv : Doc) :
  (create_expense_invoice py_repr (VStr expense_id) (VStr talent_id) w).1 = Ok inv ->
  inv !! "expense_id" = Some (VStr expense_id)
  /\ inv !! "timesheet_id" = None
  /\ inv !! "talent_id" = Some (VStr talent_id)
  /\ inv !! "status" = Some (VStr "draft")
  /\ exists (ex ex' : Doc) (expense_items items : list PyVal),
       List.find (doc_matches [("expense_id", VStr expense_id)])
                 (get_collection w EXPENSES) = Some ex
       /\ stringify_id py_repr (Some ex) = Some ex'
       /\ py_iter (doc_get ex' "items" (VList [])) = Ok expense_items
       /\ inv !! "items" = Some (VList items)
       /\ length items = Nat.max 1 (length expense_items)
       /\ Forall rate_is_amount items.
Proof.
  unfold create_expense_invoice, get_expense. unfold_M.
  cbn [fst snd ticks clock collections next_oid store_log].
  destruct (List.find _ (get_collection w EXPENSES)) as [ex|] eqn:Hex;
    [|cbn; discriminate].
  destruct (stringify_id py_repr (Some ex)) as [ex'|] eqn:Hs; [|discriminate].
  destruct (dict_falsy (Some ex')); [discriminate|].
  destruct (py_iter (doc_get ex' "items" (VList []))) as [its|] eqn:Hit;
    [|discriminate].
  cbn [fst snd ticks clock collections next_oid store_log].
  destruct (expense_items_loop its []) as [items|] eqn:Hloop; [|discriminate].
  destruct (expense_items_loop_spec _ _ _ Hloop (List.Forall_nil _)) as [Hf Hlen].
  split_matches.
  all: intros [= <-]; repeat split.
  all: exists ex, ex', its; eexists; repeat split;
    first [assumption | reflexivity | idtac].
  all: cbn [length] in *; try lia.
  all: try (constructor; [eexists; split; reflexivity | constructor]).
Qed.

Lemma add_days_spec (n : nat) (d d' : Date) :
  valid_date d = true ->
  add_days n d = Ok d' ->
  valid_date d' = true /\ (toordinal d' = toordinal d + Z.of_nat n)%Z.
Proof.
  revert d. induction n as [|n IH]; intros d Hv; cbn [add_days].
  - intros [= <-]. split; [exact Hv | lia].
  - pose proof (add_one_day_spec d Hv) as Hs.
    destruct (add_one_day d) as [d1|e]; [|discriminate].
    destruct Hs as [Hv1 Ho1]. intros H. destruct (IH d1 Hv1 H) as [Hv' Ho'].
    split; [exact Hv' | lia].
Qed.

(** X11: the dates of an invoice, made from a timesheet or from an expense:
    the issue date is the date of the clock reading taken for it, and the
    due date is the day 30 days after the date of the next reading, printed
    as text that reads back as that day. *)
Theorem invoice_dates (timesheet_id expense_id talent_id : PyVal) (w : World)
    (inv : Doc) :
  (create_timesheet_invoice py_repr timesheet_id w).1 = Ok inv
  \/ (create_expense_invoice py_repr expense_id talent_id w).1 = Ok inv ->
  valid_date (dt_date (clock w (S (S (ticks w))))) = true ->
  inv !! "issue_date" = Some (VStr (strftime_ymd (dt_date (clock w (S (ticks w))))))
  /\ exists due : Date,
       inv !! "due_date" = Some (VStr (strftime_ymd due))
       /\ valid_date due = true
       /\ (toordinal due = toordinal (dt_date (clock w (S (S (ticks w))))) + 30)%Z
       /\ strptime_ymd (strftime_ymd due) = Ok due.
Proof.
  intros H Hv.
  assert (Hdue : forall due, add_days 30 (dt_date (clock w (S (S (ticks w))))) = Ok due ->
                 valid_date due = true
                 /\ (toordinal due = toordinal (dt_date (clock w (S (S (ticks w))))) + 30)%Z
                 /\ strptime_ymd (strftime_ymd due) = Ok due).
  { intros due Hd. destruct (add_days_spec 30 _ _ Hv Hd) as [H1 H2].
    repeat split; [exact H1 | exact H2 | by apply strptime_strftime]. }
  revert H. unfold create_timesheet_invoice, create_expense_invoice, get_timesheet,
    get_expense. unfold_M.
  cbn [fst snd ticks clock collections next_oid store_log].
  intros [H|H]; revert H; split_matches.
  all: intros [= <-]; (split; [reflexivity|]).
  all: lazymatch goal with
       | Hd : add_days 30 _ = Ok ?due |- _ =>
           exists due; split; [reflexivity | by apply Hdue]
       end.
Qed.

(** X23: an invoice for a timesheet just created for a project and a talent
    whose identifiers are text, when no earlier timesheet has its
    identifier, needs rate settings for that project and that talent:
    without them the request raises; with them the invoice is for that
    project and that talent, and the quantity of its item is the total of
    the timesheet's hours. *)
Theorem created_timesheet_can_be_invoiced
    (project_id talent_id : string) (start_date end_date hours_per_day : PyVal)
    (w w' : World) (doc : Doc) :
  create_timesheet py_repr (VStr project_id) (VStr talent_id) start_date end_date
                   hours_per_day w
  = (Ok doc, w') ->
  List.find (doc_matches [("timesheet_id", py_get doc "timesheet_id")])
            (get_collection w TIMESHEETS) = None ->
  match List.find (doc_matches [("project_id", VStr project_id);
                                ("talent_id", VStr talent_id)])
                  (get_collection w TALENT_INVOICE) with
  | None =>
      (create_timesheet_invoice py_repr (py_get doc "timesheet_id") w').1
      = Raise (ValueError ("Talent invoice settings not found for project "
                           ++ project_id ++ " and talent " ++ talent_id))
  | Some settings =>
      forall inv : Doc,
        (create_timesheet_invoice py_repr (py_get doc "timesheet_id") w').1 = Ok inv ->
        inv !! "timesheet_id" = Some (py_get doc "timesheet_id")
        /\ inv !! "project_id" = Some (VStr project_id)
        /\ inv !! "talent_id" = Some (VStr talent_id)
        /\ exists item,
             inv !! "items" = Some (VList [VDict item])
             /\ assoc_get item "quantity" VNone = py_get doc "total_hours"
             /\ assoc_get item "rate" VNone
                = doc_get settings "talentInvoiceRateValue" (VFloat 0)
  end.
Proof.
  pose proof (create_timesheet_run py_repr (VStr project_id) (VStr talent_id)
                start_date end_date hours_per_day w) as Hrun.
  destruct (generate_entries start_date end_date hours_per_day)
    as [[entries total]|e]; [|intros H; rewrite H in Hrun; discriminate].
  cbv zeta in Hrun. rewrite Hrun. intros [= <- <-].
  set (tdoc := timesheet_doc _ _ _ _ _ _ _ _ _) in *.
  replace (py_get (<["_id" := VStr (py_str py_repr (VOid (next_oid w)))]> tdoc)
                  "timesheet_id")
    with (VStr (make_id "TS" (clock w (ticks w)))) by reflexivity.
  replace (py_get (<["_id" := VStr (py_str py_repr (VOid (next_oid w)))]> tdoc)
                  "total_hours")
    with (VFloat total) by reflexivity.
  intros Hnone.
  unfold create_timesheet_invoice, get_timesheet. unfold_M.
  cbn [fst snd ticks clock collections next_oid store_log].
  rewrite get_collection_insert, find_snoc, Hnone.
  lazymatch goal with
  | |- context [doc_matches ?f ?d] =>
      replace (doc_matches f d) with true;
      [|symmetry; unfold doc_matches, field_matches; cbn [forallb];
        replace (<["_id" := VOid (next_oid w)]> tdoc !! "timesheet_id")
          with (Some (VStr (make_id "TS" (clock w (ticks w))))) by reflexivity;
        cbn [val_same]; rewrite String.eqb_refl; reflexivity]
  end.
  cbn [stringify_id]. rewrite lookup_insert_eq, insert_insert_eq.
  rewrite (dict_truthy_lookup _ "_id" _ (lookup_insert_eq _ _ _)).
  replace (py_get (<["_id" := VStr (py_str py_repr (VOid (next_oid w)))]> tdoc)
                  "project_id") with (VStr project_id) by reflexivity.
  replace (py_get (<["_id" := VStr (py_str py_repr (VOid (next_oid w)))]> tdoc)
                  "user_id") with (VStr talent_id) by reflexivity.
  replace (doc_get (<["_id" := VStr (py_str py_repr (VOid (next_oid w)))]> tdoc)
                   "total_hours" (VFloat 0)) with (VFloat total) by reflexivity.
  rewrite get_collection_insert_ne by done.
  fold (get_collection w TALENT_INVOICE).
  destruct (List.find _ (get_collection w TALENT_INVOICE)) as [settings|];
    [|reflexivity].
  intros inv. split_matches.
  all: intros [= <-]; repeat split.
  all: eexists; repeat split.
Qed.

End ReadBack.

(** ** Defaults and unknown identifiers *)

Section DefaultsAndUnknown.
Variable py_repr : PyVal -> string.
Variable operators_match : list (string * PyVal) -> option PyVal -> bool.

(** X12: a creation request without [hours] is handled as the request with 8.0
    hours a day, and an update request whose [hours] is absent or falsy (0.0
    is) as the request with 8.0. *)
Theorem default_hours (entities : Doc) (w : World) :
  (entities !! "hours" = None ->
   _create_timesheet py_repr entities w
   = _create_timesheet py_repr (<["hours" := VFloat 8%float]> entities) w)
  /\ (truthy (py_get entities "hours") = false ->
      _update_timesheet py_repr entities w
      = _update_timesheet py_repr (<["hours" := VFloat 8%float]> entities) w).
Proof.
  split; intros H.
  - unfold _create_timesheet, py_get, doc_get.
    rewrite !lookup_insert_ne by discriminate. rewrite lookup_insert_eq, H.
    reflexivity.
  - unfold _update_timesheet.
    assert (Hk : forall k, k <> "hours" ->
               py_get (<["hours" := VFloat 8%float]> entities) k = py_get entities k).
    { intros k Hk. unfold py_get. by rewrite lookup_insert_ne. }
    assert (Hh : py_get (<["hours" := VFloat 8%float]> entities) "hours"
                 = VFloat 8%float)
      by (unfold py_get; by rewrite lookup_insert_eq).
    rewrite !Hk by discriminate. rewrite H, Hh. reflexivity.
Qed.

(** X13: an identifier that is text and that no document has: the totals
    and the orchestrator's reads raise "not found", and the talents of the
    project are the empty list. *)
Theorem unknown_identifiers (id : string) (entities : Doc) (w : World) :
  (List.find (doc_matches [("timesheet_id", VStr id)]) (get_collection w TIMESHEETS)
   = None ->
   (get_timesheet_hours py_repr (VStr id) w).1
   = Raise (ValueError ("Timesheet " ++ id ++ " not found"))
   /\ (entities !! "timesheet_id" = Some (VStr id) -> id <> "" ->
       (_read_timesheet py_repr operators_match entities w).1
       = Raise (ValueError ("Timesheet " ++ id ++ " not found"))))
  /\ (List.find (doc_matches [("expense_id", VStr id)]) (get_collection w EXPENSES)
      = None ->
      (get_expense_total py_repr (VStr id) w).1
      = Raise (ValueError ("Expense " ++ id ++ " not found"))
      /\ (entities !! "expense_id" = Some (VStr id) -> id <> "" ->
          (_read_expense py_repr operators_match entities w).1
          = Raise (ValueError ("Expense " ++ id ++ " not found"))))
  /\ (List.find (doc_matches [("invoice_number", VStr id)]) (get_collection w INVOICES)
      = None ->
      entities !! "invoice_number" = Some (VStr id) -> id <> "" ->
      (_read_invoice py_repr operators_match entities w).1
      = Raise (ValueError ("Invoice " ++ id ++ " not found")))
  /\ (List.find (doc_matches [("project_id", VStr id)]) (get_collection w PROJECTS)
      = None ->
      (get_project_talents py_repr (VStr id) w).1 = Ok []
      /\ (entities !! "project_id" = Some (VStr id) -> id <> "" ->
          (_read_project py_repr entities w).1
          = Raise (ValueError ("Project " ++ id ++ " not found")))).
Proof.
  assert (Ht : id <> "" -> truthy (VStr id) = true).
  { intros Hne. cbn. destruct (String.eqb_spec id ""); [done | reflexivity]. }
  assert (Hg : forall k, entities !! k = Some (VStr id) -> py_get entities k = VStr id).
  { intros k Hk. unfold py_get. by rewrite Hk. }
  split; [|split; [|split]]; intros H.
  - split.
    + unfold get_timesheet_hours, get_timesheet. unfold_M. cbn. by rewrite H.
    + intros He Hne. unfold _read_timesheet, read_one, get_timesheet.
      rewrite (Hg _ He), (Ht Hne). unfold_M. cbn. by rewrite H.
  - split.
    + unfold get_expense_total, get_expense. unfold_M. cbn. by rewrite H.
    + intros He Hne. unfold _read_expense, read_one, get_expense.
      rewrite (Hg _ He), (Ht Hne). unfold_M. cbn. by rewrite H.
  - intros He Hne. unfold _read_invoice, read_one, get_invoice.
    rewrite (Hg _ He), (Ht Hne). unfold_M. cbn. by rewrite H.
  - split.
    + unfold get_project_talents, get_project. unfold_M. cbn. by rewrite H.
    + intros He Hne. unfold _read_project, read_one, get_project.
      rewrite (Hg _ He), (Ht Hne). unfold_M. cbn. by rewrite H.
Qed.

End DefaultsAndUnknown.

(** ** Listing *)

(** X14: the date filters of the two listings: with both bounds, [list_timesheets]
    puts both on [start_date] and none on [end_date]; with the upper bound
    alone it bounds [end_date]. [list_invoices] bounds [issue_date] in every
    case. *)
Theorem listing_date_filters
    (project_id talent_id status start_date end_date : PyVal) :
  truthy end_date = true ->
  (truthy start_date = true ->
   list_timesheets_query project_id talent_id status start_date end_date
     !! "start_date" = Some (VDict [("$gte", start_date); ("$lte", end_date)])
   /\ list_timesheets_query project_id talent_id status start_date end_date
        !! "end_date" = None
   /\ list_invoices_query status project_id talent_id start_date end_date
        !! "issue_date" = Some (VDict [("$gte", start_date); ("$lte", end_date)]))
  /\ (truthy start_date = false ->
      list_timesheets_query project_id talent_id status start_date end_date
        !! "start_date" = None
      /\ list_timesheets_query project_id talent_id status start_date end_date
           !! "end_date" = Some (VDict [("$lte", end_date)])
      /\ list_invoices_query status project_id talent_id start_date end_date
           !! "issue_date" = Some (VDict [("$lte", end_date)])).
Proof.
  intros He. unfold list_timesheets_query, list_invoices_query. rewrite He.
  split; intros Hs; rewrite Hs;
    destruct (truthy project_id), (truthy talent_id), (truthy status);
    repeat split; by simplify_map_eq.
Qed.

Section ListingProperties.
Variable py_repr : PyVal -> string.
Variable operators_match : list (string * PyVal) -> option PyVal -> bool.

(** X5: a timesheet just created is among those [list_timesheets] returns
    for its project, its talent and the status draft. *)
Theorem created_timesheet_is_listed
    (project_id talent_id : string) (start_date end_date hours_per_day : PyVal)
    (w w' : World) (doc : Doc) :
  project_id <> "" -> talent_id <> "" ->
  create_timesheet py_repr (VStr project_id) (VStr talent_id) start_date end_date
                   hours_per_day w = (Ok doc, w') ->
  exists timesheets,
    (list_timesheets py_repr operators_match (VStr project_id) (VStr talent_id)
                     (VStr "draft") VNone VNone w').1 = Ok timesheets
    /\ doc ∈ timesheets.
Proof.
  intros Hp Ht.
  pose proof (create_timesheet_run py_repr (VStr project_id) (VStr talent_id)
                start_date end_date hours_per_day w) as Hrun.
  destruct (generate_entries start_date end_date hours_per_day)
    as [[entries total]|e]; [|intros H; rewrite H in Hrun; discriminate].
  cbv zeta in Hrun. rewrite Hrun. intros [= <- <-].
  set (tdoc := timesheet_doc _ _ _ _ _ _ _ _ _) in *.
  unfold list_timesheets, find_many. unfold_M. cbn [fst snd].
  rewrite get_collection_insert. eexists. split; [reflexivity|].
  apply list_elem_of_fmap.
  exists (<["_id" := VOid (next_oid w)]> tdoc). split.
  - unfold stringify_doc. rewrite lookup_insert_eq, insert_insert_eq. reflexivity.
  - apply list_elem_of_In, filter_In. split.
    + apply in_or_app. right. by left.
    + unfold query_matches. apply forallb_forall. intros [k v] Hin.
      apply list_elem_of_In, elem_of_map_to_list in Hin.
      unfold list_timesheets_query in Hin. cbn [truthy] in Hin.
      apply String.eqb_neq in Hp, Ht. rewrite Hp, Ht in Hin. cbn in Hin.
      apply lookup_insert_Some in Hin as [[<- <-]|[_ Hin]]; [reflexivity|].
      apply lookup_insert_Some in Hin as [[<- <-]|[_ Hin]].
      { unfold query_field_matches. cbn [snd fst field_matches].
        replace (<["_id" := VOid (next_oid w)]> tdoc !! "user_id")
          with (Some (VStr talent_id)) by reflexivity.
        cbn. apply String.eqb_refl. }
      apply lookup_insert_Some in Hin as [[<- <-]|[_ Hin]].
      { unfold query_field_matches. cbn [snd fst field_matches].
        replace (<["_id" := VOid (next_oid w)]> tdoc !! "project_id")
          with (Some (VStr project_id)) by reflexivity.
        cbn. apply String.eqb_refl. }
      by rewrite lookup_empty in Hin.
Qed.

End ListingProperties.

(** ** Text and patterns *)

Lemma str_app_cons (c : ascii) (a b : string) : String c a ++ b = String c (a ++ b).
Proof. reflexivity. Qed.

Lemma str_app_nil_l (s : string) : "" ++ s = s.
Proof. reflexivity. Qed.

Ltac scbn := rewrite ?str_app_cons, ?str_app_nil_l; cbn;
             rewrite ?str_app_cons, ?str_app_nil_l.

Lemma str_app_nil_r (s : string) : s ++ "" = s.
Proof. induction s as [|c s IH]; scbn; [reflexivity | by rewrite IH]. Qed.

Lemma str_length_app (a b : string) :
  String.length (a ++ b) = (String.length a + String.length b)%nat.
Proof. induction a as [|c a IH]; scbn; [reflexivity | by rewrite IH]. Qed.

Lemma str_lower_length (s : string) : String.length (str_lower s) = String.length s.
Proof. induction s as [|c s IH]; scbn; [reflexivity | by rewrite IH]. Qed.

Lemma str_take_app (a b : string) : str_take (String.length a) (a ++ b) = a.
Proof. induction a as [|c a IH]; scbn; [by destruct b | by rewrite IH]. Qed.

Lemma str_forall_app (f : ascii -> bool) (a b : string) :
  str_forall f (a ++ b) = str_forall f a && str_forall f b.
Proof.
  induction a as [|c a IH]; scbn; [reflexivity|]. by rewrite IH, andb_assoc.
Qed.

(** *** The pieces of a match *)

Lemma strip_prefix_ci_app (p r : string) :
  strip_prefix_ci (str_lower p) (p ++ r) = Some r.
Proof.
  induction p as [|c p IH]; scbn; [by destruct r|].
  rewrite Ascii.eqb_refl. exact IH.
Qed.

Lemma strip_prefix_ci_inv (pre s r : string) :
  strip_prefix_ci pre s = Some r ->
  exists p, s = p ++ r /\ str_lower p = pre.
Proof.
  revert s. induction pre as [|a pre IH]; intros s; scbn.
  - destruct s; intros [= <-]; by exists "".
  - destruct s as [|b s]; [discriminate|].
    destruct (Ascii.eqb_spec a (lower_ascii b)) as [->|]; [|discriminate].
    intros H. destruct (IH _ H) as (p & -> & <-). by exists (String b p).
Qed.

Lemma strip_prefix_app (p r : string) : strip_prefix p (p ++ r) = Some r.
Proof.
  induction p as [|c p IH]; scbn; [by destruct r|].
  rewrite Ascii.eqb_refl. exact IH.
Qed.

Lemma strip_prefix_inv (p s r : string) :
  strip_prefix p s = Some r -> s = p ++ r.
Proof.
  revert s. induction p as [|a p IH]; intros s; scbn.
  - destruct s; by intros [= <-].
  - destruct s as [|b s]; [discriminate|].
    destruct (Ascii.eqb_spec a b) as [->|]; [|discriminate].
    intros H. by rewrite (IH _ H).
Qed.

Lemma take_class_app (f : ascii -> bool) (d r : string) :
  str_forall f d = true -> take_class f (String.length d) (d ++ r) = Some r.
Proof.
  induction d as [|c d IH]; scbn; [reflexivity|].
  intros H. apply andb_true_iff in H as [-> H]. by apply IH.
Qed.

Lemma take_class_inv (f : ascii -> bool) (n : nat) (s r : string) :
  take_class f n s = Some r ->
  exists d, s = d ++ r /\ String.length d = n /\ str_forall f d = true.
Proof.
  revert s. induction n as [|n IH]; intros s; scbn.
  - intros [= <-]. by exists "".
  - destruct s as [|c s]; [discriminate|].
    destruct (f c) eqn:Hc; [|discriminate].
    intros H. destruct (IH _ H) as (d & -> & <- & Hd).
    exists (String c d). cbn. by rewrite Hc, Hd.
Qed.

Lemma span_class_app (f : ascii -> bool) (d r : string) :
  str_forall f d = true -> not_starting f r = true ->
  span_class f (d ++ r) = (String.length d, r).
Proof.
  intros Hd Hr. induction d as [|c d IH]; scbn.
  - destruct r as [|c r]; [reflexivity|]. cbn in Hr |- *.
    apply negb_true_iff in Hr. by rewrite Hr.
  - cbn in Hd. apply andb_true_iff in Hd as [-> Hd]. by rewrite (IH Hd).
Qed.

Lemma span_class_inv (f : ascii -> bool) (s r : string) (n : nat) :
  span_class f s = (n, r) ->
  exists d, s = d ++ r /\ String.length d = n
            /\ str_forall f d = true /\ not_starting f r = true.
Proof.
  revert n. induction s as [|c s IH]; intros n; scbn.
  - intros [= <- <-]. by exists "".
  - destruct (f c) eqn:Hc.
    + destruct (span_class f s) as [k r'] eqn:Hs. intros [= <- <-].
      destruct (IH _ eq_refl) as (d & -> & <- & Hd & Hr).
      exists (String c d). cbn. by rewrite Hc, Hd.
    + intros [= <- <-]. exists "". cbn. by rewrite Hc.
Qed.

(** *** [match_id] *)

Lemma match_id_complete (prefix id post : string) :
  id_shape prefix id -> not_starting is_digit post = true ->
  match_id prefix (id ++ post) = Some id.
Proof.
  intros (p & d & n & -> & <- & Hlen & Hd & Hn & Hds) Hpost.
  unfold match_id. rewrite !str_app_assoc.
  rewrite strip_prefix_ci_app. cbn [mbind option_bind].
  rewrite <- Hlen, (take_class_app _ _ _ Hd). cbn [mbind option_bind].
  rewrite strip_prefix_app. cbn [mbind option_bind].
  rewrite (span_class_app _ _ _ Hds Hpost).
  destruct n as [|c n]; [done|]. cbn [String.length].
  f_equal. rewrite <- !str_app_assoc.
  rewrite <- (str_take_app (((p ++ d) ++ "-") ++ String c n) post) at 2.
  f_equal. rewrite !str_length_app, str_lower_length. cbn. lia.
Qed.

Lemma match_id_sound (prefix s id : string) :
  match_id prefix s = Some id ->
  exists post, s = id ++ post /\ id_shape prefix id
               /\ not_starting is_digit post = true.
Proof.
  unfold match_id.
  destruct (strip_prefix_ci prefix s) as [r1|] eqn:H1; [|discriminate].
  cbn [mbind option_bind].
  destruct (take_class is_digit 6 r1) as [r2|] eqn:H2; [|discriminate].
  cbn [mbind option_bind].
  destruct (strip_prefix "-" r2) as [r3|] eqn:H3; [|discriminate].
  cbn [mbind option_bind].
  destruct (span_class is_digit r3) as [k r4] eqn:H4.
  destruct k as [|k]; [discriminate|]. intros [= <-].
  destruct (strip_prefix_ci_inv _ _ _ H1) as (p & -> & Hp).
  destruct (take_class_inv _ _ _ _ H2) as (d & -> & Hlen & Hd).
  apply strip_prefix_inv in H3 as ->.
  destruct (span_class_inv _ _ _ _ H4) as (n & -> & Hk & Hn & Hr).
  assert (Hid : str_take (String.length prefix + 7 + S k)
                  (p ++ d ++ "-" ++ n ++ r4) = p ++ d ++ "-" ++ n).
  { rewrite <- (str_take_app (p ++ d ++ "-" ++ n) r4).
    rewrite !str_app_assoc. f_equal.
    rewrite !str_length_app, Hlen, Hk, <- Hp, str_lower_length. cbn. lia. }
  rewrite Hid. exists r4. split; [by rewrite !str_app_assoc|]. split; [|exact Hr].
  exists p, d, n. repeat split; try assumption.
  intros ->. discriminate.
Qed.

(** *** [re.search] *)

Lemma re_search_Some {A : Type} (m : string -> option A) (text : string) (x : A) :
  re_search m text = Some x ->
  exists pre s, text = pre ++ s /\ m s = Some x.
Proof.
  induction text as [|c text IH]; scbn.
  - destruct (m "") eqn:H; [|discriminate]. intros [= <-]. by exists "", "".
  - destruct (m (String c text)) eqn:H.
    + intros [= <-]. by exists "", (String c text).
    + intros Hs. destruct (IH Hs) as (pre & s & -> & Hm).
      by exists (String c pre), s.
Qed.

Lemma re_search_None {A : Type} (m : string -> option A) (pre s : string) :
  re_search m (pre ++ s) = None -> m s = None.
Proof.
  induction pre as [|c pre IH]; scbn.
  - destruct s; cbn; destruct (m _); done.
  - destruct (m (String c (pre ++ s))); [discriminate|]. exact IH.
Qed.

Lemma re_search_skip {A : Type} (m : string -> option A) (pre s : string) :
  (forall a b, pre = a ++ b -> b <> "" -> m (b ++ s) = None) ->
  re_search m (pre ++ s) = re_search m s.
Proof.
  induction pre as [|c pre IH]; intros H; [reflexivity|].
  pose proof (H "" (String c pre) eq_refl ltac:(done)) as H0.
  rewrite str_app_cons in H0 |- *. cbn. rewrite H0.
  apply IH. intros a b -> Hb. by apply (H (String c a) b).
Qed.

Lemma re_search_head {A : Type} (m : string -> option A) (s : string) (x : A) :
  m s = Some x -> re_search m s = Some x.
Proof. intros H. destruct s; cbn; by rewrite H. Qed.

(** What [re.search] finds for an identifier pattern. *)
Lemma search_id_spec (prefix text : string) :
  match re_search (match_id prefix) text with
  | Some id =>
      exists pre post, text = pre ++ id ++ post /\ id_shape prefix id
                       /\ not_starting is_digit post = true
  | None =>
      forall pre id post, text = pre ++ id ++ post -> ~ id_shape prefix id
  end.
Proof.
  destruct (re_search (match_id prefix) text) as [id|] eqn:Hs.
  - destruct (re_search_Some _ _ _ Hs) as (pre & s & -> & Hm).
    destruct (match_id_sound _ _ _ Hm) as (post & -> & Hid & Hp).
    by exists pre, post.
  - intros pre id post -> Hid.
    apply re_search_None in Hs.
    destruct (span_class is_digit post) as [k post'] eqn:Hsp.
    destruct (span_class_inv _ _ _ _ Hsp) as (dp & -> & _ & Hdp & Hpost').
    assert (Hid' : id_shape prefix (id ++ dp)).
    { destruct Hid as (p & d & n & -> & Hp & Hlen & Hd & Hn & Hds).
      exists p, d, (n ++ dp). repeat split; try assumption.
      - by rewrite !str_app_assoc.
      - destruct n; [done | discriminate].
      - by rewrite str_forall_app, Hds, Hdp. }
    rewrite <- str_app_assoc in Hs.
    rewrite (match_id_complete _ _ _ Hid' Hpost') in Hs. discriminate.
Qed.

(** *** Identifiers the handlers make *)

Lemma serial_text_ok_all : forallb serial_text_ok (seqZ 0 1000) = true.
Proof. vm_compute. reflexivity. Qed.

Lemma make_id_shape (prefix : string) (t : DateTime) :
  valid_date (dt_date t) = true ->
  id_shape (str_lower (prefix ++ "-")) (make_id prefix t).
Proof.
  intros Hv. apply valid_date_bounds in Hv as (Hy & Hm & _).
  rewrite make_id_form.
  exists (prefix ++ "-"), (fmt_04d (year (dt_date t)) ++ fmt_02d (month (dt_date t))),
    (str_of_Z (microsecond t mod 1000)).
  assert (Hok : year_text_ok (year (dt_date t)) = true).
  { pose proof year_text_ok_all as Hall. rewrite forallb_forall in Hall.
    apply Hall, list_elem_of_In, elem_of_seqZ. lia. }
  assert (Hmm : String.length (fmt_02d (month (dt_date t))) = 2
                /\ str_forall is_digit (fmt_02d (month (dt_date t))) = true).
  { set (m := month (dt_date t)) in *.
    assert (H : (m = 1 \/ m = 2 \/ m = 3 \/ m = 4 \/ m = 5 \/ m = 6 \/ m = 7
                 \/ m = 8 \/ m = 9 \/ m = 10 \/ m = 11 \/ m = 12)%Z) by lia.
    repeat (destruct H as [H|H]); rewrite H; split; reflexivity. }
  assert (Hs : serial_text_ok (microsecond t mod 1000) = true).
  { pose proof serial_text_ok_all as Hall. rewrite forallb_forall in Hall.
    apply Hall, list_elem_of_In, elem_of_seqZ.
    pose proof (Z.mod_pos_bound (microsecond t) 1000). lia. }
  unfold year_text_ok in Hok.
  destruct (fmt_04d (year (dt_date t))) as [|a [|b [|c [|d [|? ?]]]]];
    try discriminate.
  apply andb_prop in Hok as [Hdig _].
  apply andb_prop in Hs as [Hs1 Hs2].
  destruct Hmm as [Hm1 Hm2].
  repeat split.
  - by rewrite !str_app_assoc.
  - rewrite str_length_app, Hm1. reflexivity.
  - rewrite str_forall_app, Hm2. cbn.
    apply andb_prop in Hdig as [Hdig Hd4]. apply andb_prop in Hdig as [Hdig Hd3].
    apply andb_prop in Hdig as [Hd1 Hd2]. by rewrite Hd1, Hd2, Hd3, Hd4.
  - intros Hn. rewrite Hn in Hs2. discriminate.
  - exact Hs1.
Qed.

(** *** A match does not run over a character the pattern has no place for *)

Lemma strip_prefix_ci_cross (pre b r rest : string) (c : ascii) :
  str_forall (fun a => negb (Ascii.eqb a (lower_ascii c))) pre = true ->
  strip_prefix_ci pre (b ++ String c rest) = Some r ->
  exists b', r = b' ++ String c rest /\ strip_prefix_ci pre b = Some b'.
Proof.
  revert b. induction pre as [|a pre IH]; intros b Hpre; scbn.
  - intros H. exists b. split; [|by destruct b].
    destruct b; scbn; cbn in H; by injection H as <-.
  - cbn in Hpre. apply andb_true_iff in Hpre as [Ha Hpre].
    destruct b as [|x b]; scbn.
    + apply negb_true_iff in Ha. by rewrite Ha.
    + destruct (Ascii.eqb a (lower_ascii x)); [|discriminate]. by apply IH.
Qed.

Lemma strip_prefix_cross (p b r rest : string) (c : ascii) :
  str_forall (fun a => negb (Ascii.eqb a c)) p = true ->
  strip_prefix p (b ++ String c rest) = Some r ->
  exists b', r = b' ++ String c rest /\ strip_prefix p b = Some b'.
Proof.
  revert b. induction p as [|a p IH]; intros b Hp; scbn.
  - intros H. exists b. split; [|by destruct b].
    destruct b; scbn; cbn in H; by injection H as <-.
  - cbn in Hp. apply andb_true_iff in Hp as [Ha Hp].
    destruct b as [|x b]; scbn.
    + apply negb_true_iff in Ha. by rewrite Ha.
    + destruct (Ascii.eqb a x); [|discriminate]. by apply IH.
Qed.

Lemma take_class_cross (f : ascii -> bool) (n : nat) (b r rest : string) (c : ascii) :
  f c = false ->
  take_class f n (b ++ String c rest) = Some r ->
  exists b', r = b' ++ String c rest /\ take_class f n b = Some b'.
Proof.
  intros Hc. revert b. induction n as [|n IH]; intros b; scbn.
  - intros [= <-]. by exists b.
  - destruct b as [|x b]; scbn.
    + by rewrite Hc.
    + destruct (f x); [|discriminate]. apply IH.
Qed.

Lemma span_class_cross (f : ascii -> bool) (b rest : string) (c : ascii) :
  f c = false ->
  (span_class f (b ++ String c rest)).1 = (span_class f b).1.
Proof.
  intros Hc. induction b as [|x b IH]; scbn.
  - by rewrite Hc.
  - destruct (f x); [|reflexivity].
    destruct (span_class f (b ++ String c rest)), (span_class f b).
    cbn in *. by rewrite IH.
Qed.

Lemma match_id_cross (a0 : ascii) (pre b rest : string) (c : ascii) :
  b <> "" ->
  str_forall (fun a => negb (Ascii.eqb a (lower_ascii c))) pre = true ->
  is_digit c = false ->
  Ascii.eqb "-" c = false ->
  is_Some (match_id (String a0 pre) (b ++ String c rest)) ->
  is_Some (match_id (String a0 pre) b).
Proof.
  intros Hb Hpre Hdig Hdash. destruct b as [|x b]; [done|]. clear Hb.
  unfold match_id. rewrite str_app_cons. cbn [strip_prefix_ci].
  destruct (Ascii.eqb a0 (lower_ascii x)); [|by intros [? [=]]].
  destruct (strip_prefix_ci pre (b ++ String c rest)) as [r1|] eqn:H1;
    [|by intros [? [=]]].
  destruct (strip_prefix_ci_cross _ _ _ _ _ Hpre H1) as (b1 & -> & ->).
  cbn [mbind option_bind].
  destruct (take_class is_digit 6 (b1 ++ String c rest)) as [r2|] eqn:H2;
    [|by intros [? [=]]].
  destruct (take_class_cross _ _ _ _ _ _ Hdig H2) as (b2 & -> & ->).
  cbn [mbind option_bind].
  destruct (strip_prefix "-" (b2 ++ String c rest)) as [r3|] eqn:H3;
    [|by intros [? [=]]].
  assert (Hd : str_forall (fun a => negb (Ascii.eqb a c)) "-" = true)
    by (change (negb (Ascii.eqb "-" c) && true = true); by rewrite Hdash).
  destruct (strip_prefix_cross _ _ _ _ _ Hd H3) as (b3 & -> & ->).
  cbn [mbind option_bind].
  pose proof (span_class_cross is_digit b3 rest c Hdig) as Hsp.
  destruct (span_class is_digit (b3 ++ String c rest)) as [k r4],
    (span_class is_digit b3) as [k' r4']. cbn in Hsp. subst k'.
  destruct k; [by intros [? [=]]|]. intros _. by eexists.
Qed.

(** An identifier that follows a text without one is the one found. *)
Lemma search_id_after (a0 : ascii) (pre pfx id post : string) :
  re_search (match_id (String a0 pre)) pfx = None ->
  id_shape (String a0 pre) id ->
  str_forall (fun a => negb (Ascii.eqb a a0)) pre = true ->
  is_digit a0 = false -> Ascii.eqb "-" a0 = false ->
  not_starting is_digit post = true ->
  re_search (match_id (String a0 pre)) (pfx ++ id ++ post) = Some id.
Proof.
  intros Hnone Hid Hpre Hdig Hdash Hpost.
  rewrite re_search_skip.
  - apply re_search_head. by apply match_id_complete.
  - intros a b -> Hb.
    destruct (match_id (String a0 pre) (b ++ id ++ post)) as [x|] eqn:Hm;
      [exfalso|reflexivity].
    destruct Hid as (p & d & n & -> & Hp & _).
    destruct p as [|c p]; [discriminate|]. cbn in Hp. injection Hp as Hc Hp.
    change ((String c p ++ d ++ "-" ++ n) ++ post)
      with (String c ((p ++ d ++ "-" ++ n) ++ post)) in Hm.
    assert (Hs : is_Some (match_id (String a0 pre) b)).
    { apply (match_id_cross a0 pre b ((p ++ d ++ "-" ++ n) ++ post) c Hb).
      - rewrite Hc. exact Hpre.
      - destruct (is_digit c) eqn:Hdc; [|reflexivity].
        assert (lower_ascii c = c) as Hlc.
        { unfold lower_ascii, is_digit in *.
          destruct ((65 <=? N_of_ascii c)%N && (N_of_ascii c <=? 90)%N) eqn:Hu;
            [|reflexivity].
          apply andb_true_iff in Hu as [Hu1 Hu2]. apply andb_true_iff in Hdc as [Hd1 Hd2].
          apply N.leb_le in Hu1, Hu2, Hd1, Hd2. lia. }
        congruence.
      - destruct (Ascii.eqb_spec "-" c) as [<-|]; [|reflexivity].
        cbn in Hc. subst a0. discriminate.
      - by rewrite Hm. }
    apply (re_search_None _ a b) in Hnone. rewrite Hnone in Hs.
    by destruct Hs.
Qed.

(** X15: the timesheet identifier found in a text is a part of the text, in
    the case it has there, that is TS, a dash, six digits, a dash and digits
    up to the next character that is not one; none is found only when no
    part of the text has this shape.  The same for invoice numbers, with
    INV. *)
Theorem extracted_identifiers (text : string) :
  match extract_timesheet_id text with
  | Some id =>
      exists pre post, text = pre ++ id ++ post /\ id_shape "ts-" id
                       /\ not_starting is_digit post = true
  | None =>
      forall pre id post, text = pre ++ id ++ post -> ~ id_shape "ts-" id
  end
  /\ match extract_invoice_number text with
     | Some id =>
         exists pre post, text = pre ++ id ++ post /\ id_shape "inv-" id
                          /\ not_starting is_digit post = true
     | None =>
         forall pre id post, text = pre ++ id ++ post -> ~ id_shape "inv-" id
     end.
Proof. split; apply search_id_spec. Qed.

(** X16: the identifier [create_timesheet] makes at a valid date is found
    again in any text that has it after a part without identifier and
    before a character that is not a digit; the same for the number of an
    invoice. *)
Theorem generated_ids_are_extracted (t : DateTime) (pre post : string) :
  valid_date (dt_date t) = true ->
  not_starting is_digit post = true ->
  (extract_timesheet_id pre = None ->
   extract_timesheet_id (pre ++ make_id "TS" t ++ post) = Some (make_id "TS" t))
  /\ (extract_invoice_number pre = None ->
      extract_invoice_number (pre ++ make_id "INV" t ++ post)
      = Some (make_id "INV" t)).
Proof.
  intros Hv Hpost. split; intros Hnone.
  - apply search_id_after; try done. apply (make_id_shape "TS" t Hv).
  - apply search_id_after; try done. apply (make_id_shape "INV" t Hv).
Qed.

(** ** Key words *)

Lemma lower_upper_ascii (c : ascii) : lower_ascii (upper_ascii c) = lower_ascii c.
Proof. destruct c as [[] [] [] [] [] [] [] []]; reflexivity. Qed.

Lemma upper_lower_ascii (c : ascii) : upper_ascii (lower_ascii c) = upper_ascii c.
Proof. destruct c as [[] [] [] [] [] [] [] []]; reflexivity. Qed.

Lemma upper_upper_ascii (c : ascii) : upper_ascii (upper_ascii c) = upper_ascii c.
Proof. destruct c as [[] [] [] [] [] [] [] []]; reflexivity. Qed.

Lemma str_lower_upper (s : string) : str_lower (str_upper s) = str_lower s.
Proof.
  induction s as [|c s IH]; cbn; [reflexivity|].
  rewrite lower_upper_ascii. f_equal. exact IH.
Qed.

Lemma str_upper_lower (s : string) : str_upper (str_lower s) = str_upper s.
Proof.
  induction s as [|c s IH]; cbn; [reflexivity|].
  rewrite upper_lower_ascii. f_equal. exact IH.
Qed.

(** What [find] returns is the first element of the list that passes. *)
Lemma find_first {A : Type} (f : A -> bool) (l : list A) (x : A) :
  List.find f l = Some x ->
  exists before after,
    l = (before ++ x :: after)%list
    /\ f x = true
    /\ forall y, y ∈ before -> f y = false.
Proof.
  induction l as [|a l IH]; cbn; [discriminate|].
  destruct (f a) eqn:Ha.
  - intros [= ->]. exists [], l. repeat split; [exact Ha|].
    intros y Hy. by apply elem_of_nil in Hy.
  - intros H. destruct (IH H) as (before & after & -> & Hx & Hb).
    exists (a :: before), after. repeat split; [exact Hx|].
    intros y Hy. apply elem_of_cons in Hy as [->|Hy]; [exact Ha | by apply Hb].
Qed.

(** X18: the status found in a text is the first of the seven, in the order
    of the list, that the text contains in any case: the text contains it
    and none of those before it in the list; it is one a timesheet or an
    invoice can be given.  The currency found is, in the same way, the
    first of the six that the text contains in any case.  Nothing is found
    only when the text contains none.  For a text of ASCII characters, the
    case of the text makes no difference to either. *)
Theorem keywords_found (text : string) :
  match extract_status text with
  | Some s =>
      (exists before after,
          statuses = (before ++ s :: after)%list
          /\ forall s', s' ∈ before -> str_contains s' (str_lower text) = false)
      /\ str_contains s (str_lower text) = true
      /\ py_in_strs (VStr s) timesheet_statuses
         || py_in_strs (VStr s) invoice_statuses = true
  | None => forall s, s ∈ statuses -> str_contains s (str_lower text) = false
  end
  /\ match extract_currency text with
     | Some c =>
         (exists before after,
             currencies = (before ++ c :: after)%list
             /\ forall c', c' ∈ before -> str_contains c' (str_upper text) = false)
         /\ str_contains c (str_upper text) = true
     | None => forall c, c ∈ currencies -> str_contains c (str_upper text) = false
     end
  /\ (ascii_text text = true ->
      extract_status (str_upper text) = extract_status text
      /\ extract_status (str_lower text) = extract_status text
      /\ extract_currency (str_upper text) = extract_currency text
      /\ extract_currency (str_lower text) = extract_currency text).
Proof.
  assert (Hll : str_lower (str_lower text) = str_lower text).
  { rewrite <- (str_lower_upper (str_lower text)), str_upper_lower.
    apply str_lower_upper. }
  assert (Huu : str_upper (str_upper text) = str_upper text).
  { rewrite <- (str_upper_lower (str_upper text)), str_lower_upper.
    apply str_upper_lower. }
  split; [|split].
  - unfold extract_status.
    destruct (List.find _ statuses) as [s|] eqn:Hf.
    + destruct (find_first _ _ _ Hf) as (before & after & Hl & Hc & Hb).
      split; [by exists before, after|]. split; [exact Hc|].
      apply find_some in Hf as [Hin _]. cbn in Hin.
      repeat (destruct Hin as [<-|Hin]; [reflexivity|]). destruct Hin.
    + intros s Hs. apply list_elem_of_In in Hs.
      exact (find_none _ _ Hf s Hs).
  - unfold extract_currency.
    destruct (List.find _ currencies) as [c|] eqn:Hf.
    + destruct (find_first _ _ _ Hf) as (before & after & Hl & Hc & Hb).
      split; [by exists before, after | exact Hc].
    + intros c Hc. apply list_elem_of_In in Hc.
      exact (find_none _ _ Hf c Hc).
  - intros _. unfold extract_status, extract_currency.
    by rewrite str_lower_upper, Hll, Huu, str_upper_lower.
Qed.

(** ** The entities of a query *)

Lemma assign_month_match_keys (current_year : Z) (text : string)
    (dates : gmap string string) (m : Z * nat * Z) (k : string) :
  is_Some (assign_month_match current_year text dates m !! k) ->
  is_Some (dates !! k) \/ k = "start_date" \/ k = "end_date".
Proof.
  destruct m as [[month start] day]. unfold assign_month_match.
  intros Hk.
  destruct (decide (k = "start_date")) as [->|]; [auto|].
  destruct (decide (k = "end_date")) as [->|]; [auto|].
  left. repeat case_match; by rewrite lookup_insert_ne in Hk by done.
Qed.

Lemma extract_dates_keys (current_year : Z) (text : string) (k : string) :
  is_Some (extract_dates current_year text !! k) ->
  k = "start_date" \/ k = "end_date".
Proof.
  unfold extract_dates.
  assert (Hfold : forall l (d : gmap string string),
             (forall k, is_Some (d !! k) -> k = "start_date" \/ k = "end_date") ->
             forall k, is_Some (fold_left (assign_month_match current_year text) l d !! k)
                       -> k = "start_date" \/ k = "end_date").
  { induction l as [|m l IH]; intros d Hd k0; cbn; [apply Hd|].
    apply IH. intros k1 H1.
    destruct (assign_month_match_keys _ _ _ _ _ H1) as [H|H]; [by apply Hd | exact H]. }
  specialize (Hfold (month_matches text) ∅).
  unfold add_explicit_dates.
  intros Hk. repeat case_match.
  - apply (Hfold ltac:(intros ? [? Hx]; by rewrite lookup_empty in Hx) k Hk).
  - destruct (decide (k = "start_date")) as [->|]; [auto|].
    rewrite lookup_insert_ne in Hk by done.
    apply (Hfold ltac:(intros ? [? Hx]; by rewrite lookup_empty in Hx) k Hk).
  - destruct (decide (k = "end_date")) as [->|]; [auto|].
    destruct (decide (k = "start_date")) as [->|]; [auto|].
    rewrite !lookup_insert_ne in Hk by done.
    apply (Hfold ltac:(intros ? [? Hx]; by rewrite lookup_empty in Hx) k Hk).
Qed.

Section EntityProperties.
Variable py_float : string -> float.
Variable current_year : Z.

Lemma extract_numbers_keys (text : string) (k : string) :
  is_Some (extract_numbers py_float text !! k) -> k = "hours" \/ k = "amount".
Proof.
  unfold extract_numbers. intros Hk.
  destruct (decide (k = "hours")) as [->|]; [auto|].
  destruct (decide (k = "amount")) as [->|]; [auto|].
  repeat case_match; rewrite ?lookup_insert_ne in Hk by done;
    rewrite lookup_empty in Hk; by destruct Hk.
Qed.

Lemma fill_lookup_ne (k k' : string) (found : option string) (entities : Doc) :
  k <> k' -> fill k found entities !! k' = entities !! k'.
Proof.
  intros Hne. unfold fill. case_match; [|reflexivity].
  by rewrite lookup_insert_ne.
Qed.

Lemma fill_lookup (k : string) (found : option string) (entities : Doc) :
  fill k found entities !! k
  = if truthy (py_get entities k) then entities !! k else Some (opt_str found).
Proof.
  unfold fill. destruct (truthy (py_get entities k)) eqn:Ht; cbn; [reflexivity|].
  by rewrite lookup_insert_eq.
Qed.

Lemma truthy_not_None (v : PyVal) : truthy v = true -> is_not_None v = true.
Proof. by destruct v. Qed.

(** X20: what [extract_all_entities] returns: no value is [None]; an identifier
    the parser gave is kept when it is truthy and is otherwise the one found
    in the text; the dates found in the text replace the parser's. *)
Theorem extracted_entities (parsed_query : Doc) (original_query : string)
    (entities : Doc) :
  extract_all_entities py_float current_year parsed_query original_query
  = Ok entities ->
  exists given : Doc,
    entities_copy parsed_query = Ok given
    /\ (forall k, entities !! k <> Some VNone)
    /\ (forall k v, k ∈ ["timesheet_id"; "invoice_number"; "expense_id"] ->
                    given !! k = Some v -> truthy v = true ->
                    entities !! k = Some v)
    /\ (truthy (py_get given "timesheet_id") = false ->
        entities !! "timesheet_id" = VStr <$> extract_timesheet_id original_query)
    /\ (truthy (py_get given "invoice_number") = false ->
        entities !! "invoice_number"
        = VStr <$> extract_invoice_number original_query)
    /\ (truthy (py_get given "expense_id") = false ->
        entities !! "expense_id" = VStr <$> extract_uuid original_query)
    /\ (forall k d, extract_dates current_year original_query !! k = Some d ->
                    entities !! k = Some (VStr d)).
Proof.
  unfold extract_all_entities.
  destruct (entities_copy parsed_query) as [given|e]; [|discriminate].
  cbn [mbind Res_bind mret Res_ret]. intros [= <-].
  exists given. split; [reflexivity|].
  set (dates := extract_dates current_year original_query).
  set (numbers := extract_numbers py_float original_query).
  assert (Hd : forall k, k <> "start_date" -> k <> "end_date" ->
               (VStr <$> dates) !! k = None).
  { intros k H1 H2. rewrite lookup_fmap.
    destruct (dates !! k) eqn:Hk; [|reflexivity].
    destruct (extract_dates_keys current_year original_query k) as [?|?]; done. }
  assert (Hn : forall k, k <> "hours" -> k <> "amount" ->
               (VFloat <$> numbers) !! k = None).
  { intros k H1 H2. rewrite lookup_fmap.
    destruct (numbers !! k) eqn:Hk; [|reflexivity].
    destruct (extract_numbers_keys original_query k) as [?|?]; done. }
  assert (Hid : forall k (m : Doc),
            k ∈ ["timesheet_id"; "invoice_number"; "expense_id"] ->
            fill "currency" (extract_currency original_query)
              ((VFloat <$> numbers)
                 ∪ fill "status" (extract_status original_query)
                     ((VStr <$> dates) ∪ m)) !! k = m !! k).
  { intros k m Hk.
    assert (k <> "currency" /\ k <> "status" /\ k <> "hours" /\ k <> "amount"
            /\ k <> "start_date" /\ k <> "end_date") as (?&?&?&?&?&?).
    { repeat (apply elem_of_cons in Hk as [->|Hk]; [done|]).
      by apply elem_of_nil in Hk. }
    rewrite fill_lookup_ne by done.
    rewrite lookup_union_r by (by apply Hn).
    rewrite fill_lookup_ne by done.
    by rewrite lookup_union_r by (by apply Hd). }
  split; [|split; [|split; [|split; [|split]]]].
  - intros k Hk. apply map_lookup_filter_Some in Hk as [_ Hk]. discriminate.
  - intros k v Hk Hg Ht.
    apply map_lookup_filter_Some. split; [|by apply truthy_not_None].
    rewrite Hid by exact Hk.
    repeat (apply elem_of_cons in Hk as [->|Hk];
            [rewrite ?fill_lookup_ne by done; rewrite fill_lookup;
             unfold py_get; rewrite ?fill_lookup_ne by done;
             rewrite Hg; cbn; by rewrite Ht|]).
    by apply elem_of_nil in Hk.
  - intros Hf.
    destruct (extract_timesheet_id original_query) as [id|] eqn:Hx; cbn.
    + apply map_lookup_filter_Some. split; [|done].
      rewrite Hid by (left). rewrite !fill_lookup_ne by done.
      by rewrite fill_lookup, Hf.
    + apply map_lookup_filter_None. right. intros v.
      rewrite Hid by (left). rewrite !fill_lookup_ne by done.
      rewrite fill_lookup, Hf. by intros [= <-].
  - intros Hf.
    assert (Hf' : truthy (py_get (fill "timesheet_id"
                    (extract_timesheet_id original_query) given) "invoice_number")
                  = false)
      by (unfold py_get; by rewrite fill_lookup_ne).
    destruct (extract_invoice_number original_query) as [id|] eqn:Hx; cbn.
    + apply map_lookup_filter_Some. split; [|done].
      rewrite Hid by (right; left). rewrite !fill_lookup_ne by done.
      by rewrite fill_lookup, Hf'.
    + apply map_lookup_filter_None. right. intros v.
      rewrite Hid by (right; left). rewrite !fill_lookup_ne by done.
      rewrite fill_lookup, Hf'. by intros [= <-].
  - intros Hf.
    assert (Hf' : truthy (py_get (fill "invoice_number"
                    (extract_invoice_number original_query)
                    (fill "timesheet_id"
                       (extract_timesheet_id original_query) given)) "expense_id")
                  = false)
      by (unfold py_get; by rewrite !fill_lookup_ne).
    destruct (extract_uuid original_query) as [id|] eqn:Hx; cbn.
    + apply map_lookup_filter_Some. split; [|done].
      rewrite Hid by (right; right; left).
      by rewrite fill_lookup, Hf'.
    + apply map_lookup_filter_None. right. intros v.
      rewrite Hid by (right; right; left).
      rewrite fill_lookup, Hf'. by intros [= <-].
  - intros k d Hk.
    assert (k = "start_date" \/ k = "end_date") as Hkk
      by (apply (extract_dates_keys current_year original_query); by eexists).
    apply map_lookup_filter_Some. split; [|done].
    assert (k <> "currency" /\ k <> "status" /\ k <> "hours" /\ k <> "amount")
      as (?&?&?&?) by (destruct Hkk as [->| ->]; done).
    rewrite fill_lookup_ne by done.
    rewrite lookup_union_r by (by apply Hn).
    rewrite fill_lookup_ne by done.
    apply lookup_union_Some_l. rewrite lookup_fmap. fold dates. by rewrite Hk.
Qed.

End EntityProperties.

(** ** The cleaned response *)

Lemma str_rev_app (a b : string) : str_rev (a ++ b) = str_rev b ++ str_rev a.
Proof.
  induction a as [|c a IH]; scbn; [by rewrite str_app_nil_r|].
  by rewrite IH, str_app_assoc.
Qed.

Lemma str_rev_involutive (s : string) : str_rev (str_rev s) = s.
Proof.
  induction s as [|c s IH]; scbn; [reflexivity|].
  rewrite str_rev_app, IH. reflexivity.
Qed.

Lemma str_forall_rev (f : ascii -> bool) (s : string) :
  str_forall f (str_rev s) = str_forall f s.
Proof.
  induction s as [|c s IH]; scbn; [reflexivity|].
  rewrite str_forall_app, IH. cbn. by rewrite andb_true_r, andb_comm.
Qed.

Lemma lstrip_app (ws r : string) :
  str_forall is_space ws = true -> not_starting is_space r = true ->
  lstrip (ws ++ r) = r.
Proof. intros H1 H2. unfold lstrip. by rewrite (span_class_app _ _ _ H1 H2). Qed.

Lemma rstrip_app (a ws : string) :
  str_forall is_space ws = true -> not_starting is_space (str_rev a) = true ->
  rstrip (a ++ ws) = a.
Proof.
  intros H1 H2. unfold rstrip. rewrite str_rev_app, lstrip_app.
  - apply str_rev_involutive.
  - by rewrite str_forall_rev.
  - exact H2.
Qed.

Lemma strip_app (ws a ws' : string) :
  str_forall is_space ws = true -> str_forall is_space ws' = true ->
  a <> "" ->
  not_starting is_space a = true -> not_starting is_space (str_rev a) = true ->
  strip (ws ++ a ++ ws') = a.
Proof.
  intros H1 H2 Ha H3 H4. unfold strip. rewrite lstrip_app.
  - by apply rstrip_app.
  - exact H1.
  - destruct a as [|c a]; [done | exact H3].
Qed.

Lemma startswith_app (p r : string) : startswith p (p ++ r) = true.
Proof. unfold startswith. by rewrite strip_prefix_app. Qed.

Lemma str_drop_app (p r : string) : str_drop (String.length p) (p ++ r) = r.
Proof. induction p as [|c p IH]; scbn; [by destruct r | exact IH]. Qed.

Lemma endswith_app (a p : string) : endswith p (a ++ p) = true.
Proof. unfold endswith. rewrite str_rev_app. apply startswith_app. Qed.

Lemma drop_last_app (a p : string) : drop_last (String.length p) (a ++ p) = a.
Proof.
  unfold drop_last. rewrite str_rev_app.
  replace (String.length p) with (String.length (str_rev p)).
  - rewrite str_drop_app. apply str_rev_involutive.
  - induction p as [|c p IH]; scbn; [reflexivity|].
    rewrite str_length_app, IH. cbn. lia.
Qed.

Lemma startswith_cancel (a p s : string) :
  startswith (a ++ p) (a ++ s) = startswith p s.
Proof.
  unfold startswith. induction a as [|c a IH]; scbn; [reflexivity|].
  rewrite Ascii.eqb_refl. exact IH.
Qed.

Lemma startswith_space (p ws r : string) (c : ascii) :
  str_forall is_space ws = true ->
  not_starting is_space p = true -> p <> "" ->
  (forall r', startswith p (String c r') = false) ->
  startswith p (ws ++ String c r) = false.
Proof.
  intros Hws Hp Hne Hc. destruct ws as [|x ws]; [apply Hc|].
  destruct p as [|a p]; [done|]. cbn in Hws, Hp.
  apply andb_true_iff in Hws as [Hx _]. apply negb_true_iff in Hp.
  unfold startswith. rewrite str_app_cons. cbn.
  destruct (Ascii.eqb_spec a x) as [->|]; [congruence | reflexivity].
Qed.

(** X21: a JSON object the model wraps in a code fence, with or without the
    language tag and with white space anywhere around it, comes out of the
    cleaning as the object alone; so does one that has no fence. *)
Theorem code_fences_are_removed (body ws0 ws1 ws2 ws3 : string) :
  str_forall is_space ws0 = true -> str_forall is_space ws1 = true ->
  str_forall is_space ws2 = true -> str_forall is_space ws3 = true ->
  let object := "{" ++ body ++ "}" in
  clean_response (ws0 ++ "```json" ++ ws1 ++ object ++ ws2 ++ "```" ++ ws3) = object
  /\ clean_response (ws0 ++ "```" ++ ws1 ++ object ++ ws2 ++ "```" ++ ws3) = object
  /\ clean_response (ws0 ++ object ++ ws3) = object.
Proof.
  intros H0 H1 H2 H3 object.
  assert (Hrev : forall x : string, str_rev (x ++ "}") = String "}" (str_rev x))
    by (intros x; by rewrite str_rev_app).
  assert (Ho1 : not_starting is_space object = true) by reflexivity.
  assert (Ho2 : not_starting is_space (str_rev object) = true).
  { unfold object. rewrite <- str_app_assoc, Hrev. reflexivity. }
  assert (Hone : object <> "") by discriminate.
  assert (Hinner : strip (ws1 ++ object ++ ws2) = object) by by apply strip_app.
  assert (Hs1 : forall p, startswith (String "`" p) (ws1 ++ object ++ ws2 ++ "```")
                          = false).
  { intros p. unfold object. rewrite !str_app_cons.
    apply startswith_space; try done. }
  assert (Hfence : forall tag : string,
             strip (ws0 ++ ("```" ++ tag ++ ws1 ++ object ++ ws2 ++ "```") ++ ws3)
             = "```" ++ tag ++ ws1 ++ object ++ ws2 ++ "```").
  { intros tag. apply strip_app; try done.
    rewrite <- !str_app_assoc, str_rev_app. reflexivity. }
  unfold clean_response. repeat split.
  - specialize (Hfence "json").
    change (ws0 ++ "```json" ++ ws1 ++ object ++ ws2 ++ "```" ++ ws3)
      with (ws0 ++ "```" ++ "json" ++ ws1 ++ object ++ ws2 ++ "```" ++ ws3).
    replace (ws0 ++ "```" ++ "json" ++ ws1 ++ object ++ ws2 ++ "```" ++ ws3)
      with (ws0 ++ ("```" ++ "json" ++ ws1 ++ object ++ ws2 ++ "```") ++ ws3)
      by (by rewrite !str_app_assoc).
    rewrite Hfence.
    change ("```" ++ "json" ++ ws1 ++ object ++ ws2 ++ "```")
      with ("```json" ++ (ws1 ++ object ++ ws2 ++ "```")).
    rewrite startswith_app.
    rewrite (str_drop_app "```json"). rewrite Hs1.
    replace (ws1 ++ object ++ ws2 ++ "```") with ((ws1 ++ object ++ ws2) ++ "```")
      by (by rewrite !str_app_assoc).
    rewrite endswith_app, (drop_last_app _ "```"). exact Hinner.
  - specialize (Hfence ""). rewrite str_app_nil_l in Hfence.
    replace (ws0 ++ "```" ++ ws1 ++ object ++ ws2 ++ "```" ++ ws3)
      with (ws0 ++ ("```" ++ ws1 ++ object ++ ws2 ++ "```") ++ ws3)
      by (by rewrite !str_app_assoc).
    rewrite Hfence.
    assert (Hj : startswith "```json" ("```" ++ ws1 ++ object ++ ws2 ++ "```") = false).
    { change "```json" with ("```" ++ "json"). rewrite startswith_cancel.
      unfold object. rewrite !str_app_cons. by apply startswith_space. }
    rewrite Hj, startswith_app, (str_drop_app "```").
    replace (ws1 ++ object ++ ws2 ++ "```") with ((ws1 ++ object ++ ws2) ++ "```")
      by (by rewrite !str_app_assoc).
    rewrite endswith_app, (drop_last_app _ "```"). exact Hinner.
  - rewrite (strip_app ws0 object ws3) by done.
    replace (startswith "```json" object) with false by reflexivity.
    replace (startswith "```" object) with false by reflexivity.
    replace (endswith "```" object) with false.
    + rewrite <- (str_app_nil_l object) at 1.
      rewrite <- (str_app_nil_r object) at 1.
      by apply (strip_app "" object "").
    + unfold endswith, object. rewrite <- str_app_assoc, Hrev. reflexivity.
Qed.

(** ** UUIDs and numbers *)

Lemma take_class_len (f : ascii -> bool) (n : nat) (d r : string) :
  String.length d = n -> str_forall f d = true ->
  take_class f n (d ++ r) = Some r.
Proof. intros <-. apply take_class_app. Qed.

Lemma match_uuid_complete (u post : string) :
  uuid_shape u -> match_uuid (u ++ post) = Some u.
Proof.
  intros (a & b & c & d & e & -> & Ha & Hb & Hc & Hd & He & Hhex).
  rewrite !str_forall_app in Hhex.
  repeat (apply andb_true_iff in Hhex as [? Hhex]).
  unfold match_uuid. rewrite !str_app_assoc.
  rewrite (take_class_len _ _ a _ Ha) by done. cbn [mbind option_bind].
  rewrite strip_prefix_app. cbn [mbind option_bind].
  rewrite (take_class_len _ _ b _ Hb) by done. cbn [mbind option_bind].
  rewrite strip_prefix_app. cbn [mbind option_bind].
  rewrite (take_class_len _ _ c _ Hc) by done. cbn [mbind option_bind].
  rewrite strip_prefix_app. cbn [mbind option_bind].
  rewrite (take_class_len _ _ d _ Hd) by done. cbn [mbind option_bind].
  rewrite strip_prefix_app. cbn [mbind option_bind].
  rewrite (take_class_len _ _ e _ He) by done. cbn [mbind option_bind].
  f_equal. rewrite <- !str_app_assoc.
  rewrite <- (str_take_app
                ((((((((a ++ "-") ++ b) ++ "-") ++ c) ++ "-") ++ d) ++ "-") ++ e)
                post) at 2.
  f_equal. rewrite !str_length_app, Ha, Hb, Hc, Hd, He. reflexivity.
Qed.

Lemma match_uuid_sound (s u : string) :
  match_uuid s = Some u -> exists post, s = u ++ post /\ uuid_shape u.
Proof.
  unfold match_uuid.
  destruct (take_class is_hex 8 s) as [r1|] eqn:H1; [|discriminate].
  cbn [mbind option_bind].
  destruct (strip_prefix "-" r1) as [r2|] eqn:H2; [|discriminate].
  cbn [mbind option_bind].
  destruct (take_class is_hex 4 r2) as [r3|] eqn:H3; [|discriminate].
  cbn [mbind option_bind].
  destruct (strip_prefix "-" r3) as [r4|] eqn:H4; [|discriminate].
  cbn [mbind option_bind].
  destruct (take_class is_hex 4 r4) as [r5|] eqn:H5; [|discriminate].
  cbn [mbind option_bind].
  destruct (strip_prefix "-" r5) as [r6|] eqn:H6; [|discriminate].
  cbn [mbind option_bind].
  destruct (take_class is_hex 4 r6) as [r7|] eqn:H7; [|discriminate].
  cbn [mbind option_bind].
  destruct (strip_prefix "-" r7) as [r8|] eqn:H8; [|discriminate].
  cbn [mbind option_bind].
  destruct (take_class is_hex 12 r8) as [r9|] eqn:H9; [|discriminate].
  cbn [mbind option_bind]. intros Hx.
  assert (Hx' : u = str_take 36 s) by congruence. clear Hx. subst u.
  destruct (take_class_inv _ _ _ _ H1) as (a & -> & Ha & Hha).
  apply strip_prefix_inv in H2 as ->.
  destruct (take_class_inv _ _ _ _ H3) as (b & -> & Hb & Hhb).
  apply strip_prefix_inv in H4 as ->.
  destruct (take_class_inv _ _ _ _ H5) as (c & -> & Hc & Hhc).
  apply strip_prefix_inv in H6 as ->.
  destruct (take_class_inv _ _ _ _ H7) as (d & -> & Hd & Hhd).
  apply strip_prefix_inv in H8 as ->.
  destruct (take_class_inv _ _ _ _ H9) as (e & -> & He & Hhe).
  assert (Hu : str_take 36 (a ++ "-" ++ b ++ "-" ++ c ++ "-" ++ d ++ "-" ++ e ++ r9)
               = a ++ "-" ++ b ++ "-" ++ c ++ "-" ++ d ++ "-" ++ e).
  { rewrite <- (str_take_app (a ++ "-" ++ b ++ "-" ++ c ++ "-" ++ d ++ "-" ++ e) r9).
    rewrite !str_app_assoc. f_equal.
    rewrite !str_length_app, Ha, Hb, Hc, Hd, He. reflexivity. }
  rewrite Hu. exists r9. split; [by rewrite !str_app_assoc|].
  exists a, b, c, d, e. repeat split; try assumption.
  rewrite !str_forall_app. by rewrite Hha, Hhb, Hhc, Hhd, Hhe.
Qed.

(** X17: the UUID found in a text is a part of the text with the shape of
    one; none is found only when no part of the text has it. *)
Theorem extract_uuid_spec (text : string) :
  match extract_uuid text with
  | Some u => exists pre post, text = pre ++ u ++ post /\ uuid_shape u
  | None => forall pre u post, text = pre ++ u ++ post -> ~ uuid_shape u
  end.
Proof.
  unfold extract_uuid.
  destruct (re_search match_uuid text) as [u|] eqn:Hs.
  - destruct (re_search_Some _ _ _ Hs) as (pre & s & -> & Hm).
    destruct (match_uuid_sound _ _ Hm) as (post & -> & Hu).
    by exists pre, post.
  - intros pre u post -> Hu. apply re_search_None in Hs.
    rewrite (match_uuid_complete _ _ Hu) in Hs. discriminate.
Qed.

(** *** Numbers *)

Lemma match_number_numeral (n rest : string) :
  numeral n ->
  not_starting (fun c => is_digit c || Ascii.eqb c ".") rest = true ->
  match_number (n ++ rest) = Some (String.length n, rest).
Proof.
  intros (i & Hi & Hdi & Hn) Hrest.
  assert (Hrd : not_starting is_digit rest = true).
  { destruct rest as [|c rest]; [reflexivity|]. cbn in *.
    apply negb_true_iff, orb_false_iff in Hrest as [-> _]. reflexivity. }
  unfold match_number. destruct Hn as [->|(f & -> & Hf & Hdf)].
  - rewrite (span_class_app _ _ _ Hdi Hrd).
    destruct i as [|c i]; [done|]. cbn [String.length].
    destruct rest as [|x rest]; [reflexivity|]. cbn in Hrest.
    apply negb_true_iff, orb_false_iff in Hrest as [_ Hx].
    destruct x as [[] [] [] [] [] [] [] []]; try reflexivity. discriminate.
  - rewrite !str_app_assoc. rewrite (span_class_app _ i _ Hdi) by reflexivity.
    destruct i as [|c i]; [done|]. cbn [String.length].
    rewrite str_app_cons, str_app_nil_l.
    rewrite (span_class_app _ _ _ Hdf Hrd).
    destruct f as [|y f]; [done|]. cbn [String.length].
    f_equal. f_equal. rewrite !str_length_app. cbn. lia.
Qed.

Lemma unit_first_char (unit : string) (c : ascii) (u : string) :
  str_lower unit = String c u ->
  is_digit c = false -> is_space c = false -> Ascii.eqb c "." = false ->
  not_starting (fun c => is_digit c || Ascii.eqb c ".") unit = true
  /\ not_starting is_space unit = true.
Proof.
  destruct unit as [|x unit]; [discriminate|]. cbn. intros [= <- _].
  destruct x as [[] [] [] [] [] [] [] []]; cbn; intros; done.
Qed.

Section NumberProperties.
Variable py_float : string -> float.

(** X19: the hours of a text that has no digit before a number followed by
    [hour], in any case and after any white space, are that number. *)
Theorem hours_are_the_number_before_the_unit (pre n ws unit post : string) :
  str_forall (fun c => negb (is_digit c)) pre = true ->
  numeral n ->
  str_forall is_space ws = true ->
  str_lower unit = "hour" ->
  extract_numbers py_float (pre ++ n ++ ws ++ unit ++ post) !! "hours"
  = Some (py_float n).
Proof.
  intros Hpre Hn Hws Hunit.
  destruct (unit_first_char unit "h" "our" Hunit) as [Hu1 Hu2]; try reflexivity.
  assert (Hfirst : first_match hours_patterns (pre ++ n ++ ws ++ unit ++ post)
                   = Some n).
  { unfold hours_patterns. cbn [first_match].
    rewrite re_search_skip.
    - rewrite (re_search_head _ _ n); [reflexivity|].
      unfold match_number_unit.
      assert (Hrest : not_starting (fun c => is_digit c || Ascii.eqb c ".")
                        (ws ++ unit ++ post) = true).
      { destruct ws as [|x ws].
        - destruct unit; [discriminate | exact Hu1].
        - cbn in Hws |- *. apply andb_true_iff in Hws as [Hx _].
          destruct x as [[] [] [] [] [] [] [] []]; try discriminate; reflexivity. }
      rewrite (match_number_numeral _ _ Hn Hrest). cbn [mbind option_bind].
      rewrite (span_class_app is_space ws (unit ++ post) Hws)
        by (destruct unit; [discriminate | exact Hu2]).
      cbn [existsb]. unfold starts_with_ci.
      rewrite <- Hunit, strip_prefix_ci_app. cbn [orb].
      by rewrite str_take_app.
    - intros a b -> Hb. destruct b as [|c b]; [done|].
      rewrite str_forall_app in Hpre. apply andb_true_iff in Hpre as [_ Hc].
      cbn in Hc. apply andb_true_iff in Hc as [Hc _]. apply negb_true_iff in Hc.
      unfold match_number_unit, match_number. rewrite str_app_cons.
      cbn [span_class]. rewrite Hc. reflexivity. }
  unfold extract_numbers. rewrite Hfirst.
  destruct (first_match amount_patterns _);
    rewrite ?lookup_insert_ne by done; by rewrite lookup_insert_eq.
Qed.

End NumberProperties.

(** ** Amounts *)

Lemma str_forall_impl (f g : ascii -> bool) (s : string) :
  (forall c, f c = true -> g c = true) ->
  str_forall f s = true -> str_forall g s = true.
Proof.
  intros Hfg. induction s as [|c s IH]; cbn; [done|].
  intros H. apply andb_true_iff in H as [Hc Hs]. by rewrite (Hfg _ Hc), IH.
Qed.

Lemma str_upper_app (a b : string) : str_upper (a ++ b) = str_upper a ++ str_upper b.
Proof. induction a as [|c a IH]; scbn; [reflexivity | by rewrite <- IH]. Qed.

Lemma str_lower_app (a b : string) : str_lower (a ++ b) = str_lower a ++ str_lower b.
Proof. induction a as [|c a IH]; scbn; [reflexivity | by rewrite <- IH]. Qed.

Lemma str_contains_app (p a r : string) : str_contains p (a ++ p ++ r) = true.
Proof.
  induction a as [|c a IH]; scbn.
  - destruct (p ++ r) eqn:E; cbn; rewrite <- E, strip_prefix_app; reflexivity.
  - destruct (strip_prefix p _); [reflexivity | exact IH].
Qed.

Lemma strip_prefix_ci_lower (p b b' : string) :
  strip_prefix_ci p b = Some b' -> exists r, strip_prefix p (str_lower b) = Some r.
Proof.
  revert b. induction p as [|a p IH]; intros b; scbn.
  - intros _. by eexists.
  - destruct b as [|x b]; [discriminate|]. scbn.
    destruct (Ascii.eqb a (lower_ascii x)); [apply IH | discriminate].
Qed.

(** A letter is no digit, no white space, no point and no dollar sign. *)
Lemma letter_class (c : ascii) :
  (let k := N_of_ascii (lower_ascii c) in (97 <=? k)%N && (k <=? 122)%N) = true ->
  negb (is_digit c) && negb (is_space c) && negb (Ascii.eqb c ".")
  && negb (Ascii.eqb c "$") = true.
Proof. destruct c as [[] [] [] [] [] [] [] []]; cbn; intros; done. Qed.

Lemma letters_class (s : string) :
  str_forall (fun c => let k := N_of_ascii c in (97 <=? k)%N && (k <=? 122)%N)
             (str_lower s) = true ->
  str_forall (fun c => negb (is_digit c) && negb (is_space c)
                       && negb (Ascii.eqb c ".") && negb (Ascii.eqb c "$")) s = true.
Proof.
  induction s as [|c s IH]; cbn; [done|].
  intros H. apply andb_true_iff in H as [Hc Hs].
  by rewrite (letter_class c Hc), (IH Hs).
Qed.

(** *** Where a pattern cannot match *)

Lemma re_search_skip_class {A : Type} (m : string -> option A) (g : ascii -> bool)
    (pre s : string) :
  (forall c r, g c = true -> m (String c r) = None) ->
  str_forall g pre = true ->
  re_search m (pre ++ s) = re_search m s.
Proof.
  intros Hm Hpre. apply re_search_skip. intros a b -> Hb.
  destruct b as [|c b]; [done|].
  rewrite str_forall_app in Hpre. apply andb_true_iff in Hpre as [_ Hc].
  cbn in Hc. apply andb_true_iff in Hc as [Hc _].
  rewrite str_app_cons. by apply Hm.
Qed.

Lemma re_search_class_None {A : Type} (m : string -> option A) (g : ascii -> bool)
    (s : string) :
  (forall x, str_forall g x = true -> m x = None) ->
  str_forall g s = true -> re_search m s = None.
Proof.
  intros Hm. induction s as [|c s IH]; intros Hs; cbn; rewrite (Hm _ Hs); [done|].
  cbn in Hs. apply andb_true_iff in Hs as [_ Hs]. by apply IH.
Qed.

Lemma match_number_no_digit (s : string) :
  not_starting is_digit s = true -> match_number s = None.
Proof.
  unfold match_number. destruct s as [|c s]; [reflexivity|]. cbn.
  intros H. apply negb_true_iff in H. by rewrite H.
Qed.

Lemma no_digit_not_starting (s : string) :
  str_forall (fun c => negb (is_digit c)) s = true -> not_starting is_digit s = true.
Proof. destruct s; cbn; [done|]. intros H. by apply andb_true_iff in H as [-> _]. Qed.

Lemma match_number_inv (s r : string) (k : nat) :
  match_number s = Some (k, r) ->
  exists d, s = d ++ r
            /\ str_forall (fun c => is_digit c || Ascii.eqb c ".") d = true.
Proof.
  unfold match_number.
  destruct (span_class is_digit s) as [n r1] eqn:H1.
  destruct (span_class_inv _ _ _ _ H1) as (d1 & -> & _ & Hd1 & _).
  assert (Hd1' : str_forall (fun c => is_digit c || Ascii.eqb c ".") d1 = true).
  { revert Hd1. apply str_forall_impl. by intros c ->. }
  assert (Hdef : Some (n, r1) = Some (k, r) -> exists d, d1 ++ r1 = d ++ r
            /\ str_forall (fun c => is_digit c || Ascii.eqb c ".") d = true).
  { intros [= <- <-]. by exists d1. }
  destruct n as [|n]; [discriminate|].
  destruct r1 as [|c r1]; [exact Hdef|].
  destruct (Ascii.eqb_spec c ".") as [->|Hc].
  - destruct (span_class is_digit r1) as [j r2] eqn:H2.
    destruct (span_class_inv _ _ _ _ H2) as (d2 & -> & _ & Hd2 & _).
    destruct j; [exact Hdef|]. intros [= <- <-].
    exists (d1 ++ "." ++ d2). split; [by rewrite !str_app_assoc|].
    rewrite !str_forall_app, Hd1'. cbn.
    revert Hd2. apply str_forall_impl. by intros c ->.
  - destruct c as [[] [] [] [] [] [] [] []]; try exact Hdef. done.
Qed.

(** A prefix in a class of characters ends before the first character that
    is not in the class. *)
Lemma class_prefix (f : ascii -> bool) (y t d r : string) :
  str_forall f y = true -> t <> "" -> not_starting f t = true ->
  str_forall f d = true ->
  y ++ t = d ++ r ->
  exists y', y = d ++ y' /\ r = y' ++ t.
Proof.
  intros Hy Ht Hnt. revert y Hy. induction d as [|c d IH]; intros y Hy Hd; scbn.
  - intros <-. by exists y.
  - cbn in Hd. apply andb_true_iff in Hd as [Hc Hd].
    destruct y as [|x y]; scbn.
    + destruct t as [|x t]; [done|]. intros [= -> _]. cbn in Hnt. by rewrite Hc in Hnt.
    + cbn in Hy. apply andb_true_iff in Hy as [_ Hy].
      intros [= -> H]. destruct (IH y Hy Hd H) as (y' & -> & ->). by exists y'.
Qed.

(** A number with a unit is not found where the number is followed by a
    word that starts none of the units. *)
Lemma match_number_unit_other (b ws t : string) :
  str_forall (fun c => is_digit c || Ascii.eqb c ".") b = true ->
  str_forall is_space ws = true ->
  t <> "" ->
  not_starting (fun c => is_digit c || Ascii.eqb c "." || is_space c) t = true ->
  existsb (fun u => starts_with_ci u t) ["usd"; "eur"; "gbp"; "aud"] = false ->
  match_number_unit ["usd"; "eur"; "gbp"; "aud"] (b ++ ws ++ t) = None.
Proof.
  intros Hb Hws Ht Hnt Hu. unfold match_number_unit.
  destruct (match_number (b ++ ws ++ t)) as [[k r]|] eqn:Hm; [|reflexivity].
  cbn [mbind option_bind]. unfold mbind, option_bind.
  destruct (match_number_inv _ _ _ Hm) as (d & Hd & Hfd).
  destruct (span_class is_space r) as [j r2] eqn:Hs.
  destruct (span_class_inv _ _ _ _ Hs) as (d2 & -> & _ & Hd2 & _).
  rewrite <- !str_app_assoc in Hd.
  assert (Hy : str_forall (fun c => is_digit c || Ascii.eqb c "." || is_space c)
                 (b ++ ws) = true).
  { rewrite str_forall_app. apply andb_true_iff. split.
    - revert Hb. apply str_forall_impl. by intros c ->.
    - revert Hws. apply str_forall_impl. intros c ->. by rewrite orb_true_r. }
  assert (Hdd : str_forall (fun c => is_digit c || Ascii.eqb c "." || is_space c)
                  (d ++ d2) = true).
  { rewrite str_forall_app. apply andb_true_iff. split.
    - revert Hfd. apply str_forall_impl. by intros c ->.
    - revert Hd2. apply str_forall_impl. intros c ->. by rewrite orb_true_r. }
  destruct (class_prefix _ _ _ _ _ Hy Ht Hnt Hdd Hd) as (y' & Hy' & ->).
  destruct y' as [|x y'].
  - rewrite str_app_nil_l, Hu. reflexivity.
  - rewrite Hy', str_forall_app in Hy. apply andb_true_iff in Hy as [_ Hx].
    cbn in Hx. apply andb_true_iff in Hx as [Hx _].
    rewrite str_app_cons. unfold starts_with_ci. cbn.
    destruct x as [[] [] [] [] [] [] [] []]; try discriminate; reflexivity.
Qed.

Lemma match_dollar_no_digit (s : string) :
  str_forall (fun c => negb (is_digit c)) s = true -> match_dollar s = None.
Proof.
  intros Hs. unfold match_dollar.
  destruct (strip_prefix "$" s) as [r|] eqn:Hr; [|reflexivity].
  apply strip_prefix_inv in Hr. subst s.
  rewrite str_forall_app in Hs. apply andb_true_iff in Hs as [_ Hs].
  cbn [mbind option_bind]. unfold mbind, option_bind.
  by rewrite (match_number_no_digit _ (no_digit_not_starting _ Hs)).
Qed.

Lemma match_number_unit_no_digit (units : list string) (s : string) :
  str_forall (fun c => negb (is_digit c)) s = true -> match_number_unit units s = None.
Proof.
  intros Hs. unfold match_number_unit.
  by rewrite (match_number_no_digit _ (no_digit_not_starting _ Hs)).
Qed.

Lemma match_label_number_no_digit (label : string) (plural : bool) (s : string) :
  str_forall (fun c => negb (is_digit c)) s = true ->
  match_label_number label plural s = None.
Proof.
  intros Hs. unfold match_label_number.
  destruct (strip_prefix_ci label s) as [r|] eqn:Hr; [|reflexivity].
  destruct (strip_prefix_ci_inv _ _ _ Hr) as (p & -> & _).
  rewrite str_forall_app in Hs. apply andb_true_iff in Hs as [_ Hs].
  cbn [mbind option_bind]. unfold mbind, option_bind.
  assert (Hr1 : forall r1, str_forall (fun c => negb (is_digit c)) r1 = true ->
            match span_class (fun c => Ascii.eqb c ":" || is_space c) r1 with
            | (S _, r') =>
                match match_number r' with
                | Some (n, _) => Some (str_take n r')
                | None => None
                end
            | (O, _) => @None string
            end = None).
  { intros r1 H1.
    destruct (span_class _ r1) as [j r'] eqn:Hsp.
    destruct (span_class_inv _ _ _ _ Hsp) as (d & -> & _ & _ & _).
    rewrite str_forall_app in H1. apply andb_true_iff in H1 as [_ H1].
    destruct j; [reflexivity|].
    by rewrite (match_number_no_digit _ (no_digit_not_starting _ H1)). }
  destruct plural; [|by apply Hr1].
  destruct (strip_prefix_ci "s" r) as [r'|] eqn:Hr'; [|by apply Hr1].
  destruct (strip_prefix_ci_inv _ _ _ Hr') as (p' & -> & _).
  rewrite str_forall_app in Hs. apply andb_true_iff in Hs as [_ Hs].
  by apply Hr1.
Qed.

Lemma numeral_chars (n : string) :
  numeral n ->
  str_forall (fun c => is_digit c || Ascii.eqb c ".") n = true
  /\ exists d n', n = String d n' /\ is_digit d = true.
Proof.
  intros (i & Hi & Hdi & Hn).
  assert (Hi' : str_forall (fun c => is_digit c || Ascii.eqb c ".") i = true).
  { revert Hdi. apply str_forall_impl. by intros c ->. }
  destruct i as [|d i]; [done|]. cbn in Hdi. apply andb_true_iff in Hdi as [Hd _].
  destruct Hn as [->|(f & -> & _ & Hdf)].
  - split; [exact Hi' | by exists d, i].
  - split; [|by exists d, (i ++ "." ++ f)].
    rewrite !str_forall_app, Hi'. cbn.
    revert Hdf. apply str_forall_impl. by intros c ->.
Qed.

Section AmountProperties.
Variable py_float : string -> float.

(** X22: in a text with no digit and no dollar sign before a number that is
    followed, after any white space, by a currency code in any case: the
    amount is that number when the code is USD, EUR, GBP or AUD and no
    dollar sign comes later; there is no amount when the code is CAD or JPY,
    the word amount does not come before and no digit comes later, though
    a currency is found. *)
Theorem amount_needs_a_listed_currency (pre n ws code post : string) :
  str_forall (fun c => negb (is_digit c) && negb (Ascii.eqb c "$")) pre = true ->
  numeral n ->
  str_forall is_space ws = true ->
  (str_upper code ∈ ["USD"; "EUR"; "GBP"; "AUD"] ->
   str_forall (fun c => negb (Ascii.eqb c "$")) post = true ->
   extract_numbers py_float (pre ++ n ++ ws ++ code ++ post) !! "amount"
   = Some (py_float n))
  /\ (str_upper code ∈ ["CAD"; "JPY"] ->
      str_contains "amount" (str_lower pre) = false ->
      str_forall (fun c => negb (is_digit c)) post = true ->
      extract_numbers py_float (pre ++ n ++ ws ++ code ++ post) !! "amount" = None
      /\ extract_currency (pre ++ n ++ ws ++ code ++ post) <> None).
Proof.
  intros Hpre Hn Hws.
  destruct (numeral_chars n Hn) as (Hnc & d & n' & Hnd & Hd).
  assert (Hpre_d : str_forall (fun c => negb (is_digit c)) pre = true).
  { revert Hpre. apply str_forall_impl. intros c H. by apply andb_true_iff in H as [-> _]. }
  assert (Hpre_s : str_forall (fun c => negb (Ascii.eqb c "$")) pre = true).
  { revert Hpre. apply str_forall_impl. intros c H. by apply andb_true_iff in H as [_ ->]. }
  assert (Hdollar : forall c r, negb (Ascii.eqb c "$") = true ->
                      match_dollar (String c r) = None).
  { intros c r Hc. unfold match_dollar.
    change (strip_prefix "$" (String c r))
      with (if Ascii.eqb "$" c then Some r else None).
    apply negb_true_iff in Hc. rewrite Ascii.eqb_sym in Hc. by rewrite Hc. }
  assert (Hunit : forall units c r, negb (is_digit c) = true ->
                    match_number_unit units (String c r) = None).
  { intros units c r Hc. unfold match_number_unit, match_number. cbn.
    apply negb_true_iff in Hc. by rewrite Hc. }
  assert (Hcode : forall C, str_upper code = C ->
            str_forall (fun c => let k := N_of_ascii c in (97 <=? k)%N && (k <=? 122)%N)
                       (str_lower C) = true ->
            str_lower code = str_lower C
            /\ str_forall (fun c => negb (is_digit c) && negb (is_space c)
                           && negb (Ascii.eqb c ".") && negb (Ascii.eqb c "$")) code
               = true).
  { intros C HC Hl. rewrite <- HC, str_lower_upper in Hl |- *.
    split; [reflexivity | by apply letters_class]. }
  split.
  - intros Hin Hpost.
    assert (Hc : exists C, str_upper code = C /\ C ∈ ["USD"; "EUR"; "GBP"; "AUD"])
      by (by eexists).
    destruct Hc as (C & HC & HinC).
    assert (Hl : str_forall
                   (fun c => let k := N_of_ascii c in (97 <=? k)%N && (k <=? 122)%N)
                   (str_lower C) = true).
    { apply list_elem_of_In in HinC. cbn in HinC.
      repeat (destruct HinC as [<-|HinC]; [reflexivity|]). destruct HinC. }
    destruct (Hcode C HC Hl) as [Hlow Hcl].
    assert (Hfirst : first_match amount_patterns (pre ++ n ++ ws ++ code ++ post)
                     = Some n).
    { unfold amount_patterns. cbn [first_match].
      rewrite (re_search_class_None match_dollar (fun c => negb (Ascii.eqb c "$"))).
      - rewrite (re_search_skip_class _ _ pre _ (Hunit _) Hpre_d).
        rewrite (re_search_head _ _ n); [reflexivity|].
        unfold match_number_unit.
        assert (Hne : code <> "").
        { intros ->. apply list_elem_of_In in HinC. cbn in HC. subst C.
          cbn in HinC. repeat (destruct HinC as [?|HinC]; [discriminate|]).
          destruct HinC. }
        destruct code as [|c1 code']; [done|].
        cbn in Hcl. apply andb_true_iff in Hcl as [Hc1 _].
        assert (Hrest : not_starting (fun c => is_digit c || Ascii.eqb c ".")
                          (ws ++ String c1 code' ++ post) = true).
        { destruct ws as [|x ws].
          - rewrite str_app_nil_l, str_app_cons. cbn.
            destruct c1 as [[] [] [] [] [] [] [] []]; try discriminate; reflexivity.
          - cbn in Hws |- *. apply andb_true_iff in Hws as [Hx _].
            destruct x as [[] [] [] [] [] [] [] []]; try discriminate; reflexivity. }
        rewrite (match_number_numeral _ _ Hn Hrest). cbn [mbind option_bind].
        unfold mbind, option_bind.
        rewrite (span_class_app is_space ws (String c1 code' ++ post) Hws).
        2:{ rewrite str_app_cons. cbn.
            destruct c1 as [[] [] [] [] [] [] [] []]; try discriminate; reflexivity. }
        assert (Hsw : starts_with_ci (str_lower C) (String c1 code' ++ post) = true).
        { unfold starts_with_ci. by rewrite <- Hlow, strip_prefix_ci_app. }
        replace (existsb _ _) with true; [by rewrite str_take_app|].
        symmetry. apply existsb_exists. exists (str_lower C). split; [|exact Hsw].
        apply list_elem_of_In in HinC. cbn in HinC |- *.
        repeat (destruct HinC as [<-|HinC]; [cbn; tauto|]). destruct HinC.
      - intros [|c x] Hx; [reflexivity|]. cbn in Hx.
        apply andb_true_iff in Hx as [Hc _]. by apply Hdollar.
      - rewrite !str_forall_app, Hpre_s, Hpost. cbn [andb].
        repeat (apply andb_true_iff; split); try reflexivity.
        + revert Hnc. apply str_forall_impl.
          intros c Hc. destruct c as [[] [] [] [] [] [] [] []]; try discriminate;
            reflexivity.
        + revert Hws. apply str_forall_impl.
          intros c Hc. destruct c as [[] [] [] [] [] [] [] []]; try discriminate;
            reflexivity.
        + revert Hcl. apply str_forall_impl.
          intros c Hc. by apply andb_true_iff in Hc as [_ ->]. }
    unfold extract_numbers. rewrite Hfirst. by rewrite lookup_insert_eq.
  - intros Hin Hamount Hpost.
    assert (Hc : exists C, str_upper code = C /\ C ∈ ["CAD"; "JPY"]) by (by eexists).
    destruct Hc as (C & HC & HinC).
    assert (Hl : str_forall
                   (fun c => let k := N_of_ascii c in (97 <=? k)%N && (k <=? 122)%N)
                   (str_lower C) = true).
    { apply list_elem_of_In in HinC. cbn in HinC.
      repeat (destruct HinC as [<-|HinC]; [reflexivity|]). destruct HinC. }
    destruct (Hcode C HC Hl) as [Hlow Hcl].
    split.
    + assert (Htail : str_forall (fun c => negb (is_digit c)) (ws ++ code ++ post) = true).
      { rewrite !str_forall_app, Hpost, andb_true_r. apply andb_true_iff. split.
        - revert Hws. apply str_forall_impl.
          intros c Hc. destruct c as [[] [] [] [] [] [] [] []]; try discriminate;
            reflexivity.
        - revert Hcl. apply str_forall_impl. intros c Hc.
          apply andb_true_iff in Hc as [Hc _]. apply andb_true_iff in Hc as [Hc _].
          by apply andb_true_iff in Hc as [-> _]. }
      assert (Hfirst : first_match amount_patterns (pre ++ n ++ ws ++ code ++ post)
                       = None).
      { unfold amount_patterns. cbn [first_match].
        rewrite (re_search_skip_class match_dollar _ pre _ Hdollar Hpre_s).
        rewrite (re_search_skip_class match_dollar
                   (fun c => is_digit c || Ascii.eqb c ".") n).
        2:{ intros c r Hc. apply Hdollar.
            destruct c as [[] [] [] [] [] [] [] []]; try discriminate; reflexivity. }
        2:{ exact Hnc. }
        rewrite (re_search_class_None match_dollar _ _ match_dollar_no_digit Htail).
        rewrite (re_search_skip_class _ _ pre _ (Hunit _) Hpre_d).
        rewrite (re_search_skip _ n).
        2:{ intros a b -> Hb.
            rewrite str_forall_app in Hnc. apply andb_true_iff in Hnc as [_ Hb'].
            assert (Hne : code <> "").
            { intros ->. apply list_elem_of_In in HinC. cbn in HC. subst C.
              cbn in HinC. repeat (destruct HinC as [?|HinC]; [discriminate|]).
              destruct HinC. }
            destruct code as [|c1 code']; [done|].
            apply match_number_unit_other; try assumption.
            - by rewrite str_app_cons.
            - rewrite str_app_cons. cbn. cbn in Hcl.
              apply andb_true_iff in Hcl as [Hc1 _].
              destruct c1 as [[] [] [] [] [] [] [] []]; try discriminate; reflexivity.
            - unfold starts_with_ci. rewrite str_app_cons. cbn in Hlow |- *.
              apply list_elem_of_In in HinC. cbn in HinC.
              destruct HinC as [<-|[<-|[]]]; cbn in Hlow;
                injection Hlow as -> _; reflexivity. }
        rewrite (re_search_class_None _ _ _ (match_number_unit_no_digit _) Htail).
        rewrite (re_search_skip _ pre).
        2:{ intros a b -> Hb. rewrite Hnd, str_app_cons.
            unfold match_label_number.
            destruct (strip_prefix_ci "amount" _) as [r|] eqn:Hr; [|reflexivity].
            exfalso. apply strip_prefix_ci_cross in Hr as (b' & _ & Hb').
            - destruct (strip_prefix_ci_lower _ _ _ Hb') as (r' & Hr').
              rewrite str_lower_app in Hamount.
              pose proof (strip_prefix_inv _ _ _ Hr') as E.
              rewrite E, str_contains_app in Hamount. discriminate.
            - destruct d as [[] [] [] [] [] [] [] []]; try discriminate; reflexivity. }
        rewrite (re_search_skip_class (match_label_number "amount" false)
                   (fun c => is_digit c || Ascii.eqb c ".") n).
        2:{ intros c r Hc. unfold match_label_number. cbn.
            destruct c as [[] [] [] [] [] [] [] []]; try discriminate; reflexivity. }
        2:{ exact Hnc. }
        by rewrite (re_search_class_None _ _ _ (match_label_number_no_digit _ _) Htail). }
      unfold extract_numbers. rewrite Hfirst.
      destruct (first_match hours_patterns _);
        rewrite ?lookup_insert_ne by done; apply lookup_empty.
    + unfold extract_currency. intros Hf.
      assert (HinC' : In C currencies).
      { apply list_elem_of_In in HinC. cbn in HinC |- *.
        destruct HinC as [<-|[<-|[]]]; tauto. }
      pose proof (find_none _ _ Hf C HinC') as Hno. cbn beta in Hno.
      rewrite <- !str_app_assoc in Hno. rewrite str_upper_app in Hno.
      rewrite (str_upper_app _ code), HC in Hno.
      rewrite str_app_assoc, str_contains_app in Hno. discriminate.
Qed.

End AmountProperties.

(** ** The further properties on sample data *)

(** A read of the timesheet TS-202510-456. *)
Lemma reads_only_read_witness :
  only_reads sample_timesheet_world
    (_execute_operation sample_repr sample_operators READ (Some TIMESHEET)
       {[ "timesheet_id" := VStr "TS-202510-456" ]} ∅ sample_timesheet_world).2.
Proof. apply reads_only_read. left. reflexivity. Defined.

(** An approval of a timesheet the store does not have: the clock is read,
    the update finds nothing, and the store stays empty. *)
Lemma failed_operations_change_nothing_witness :
  (_execute_operation sample_repr sample_operators UPDATE (Some TIMESHEET)
     (list_to_map [("timesheet_id", VStr "TS-202510-1"); ("status", VStr "approved")])
     ∅ sample_world).1
  = Raise (ValueError "Timesheet TS-202510-1 not found")
  /\ collections
       (_execute_operation sample_repr sample_operators UPDATE (Some TIMESHEET)
          (list_to_map [("timesheet_id", VStr "TS-202510-1");
                        ("status", VStr "approved")])
          ∅ sample_world).2
     = ∅.
Proof.
  assert (H : (_execute_operation sample_repr sample_operators UPDATE (Some TIMESHEET)
                 (list_to_map [("timesheet_id", VStr "TS-202510-1");
                               ("status", VStr "approved")])
                 ∅ sample_world).1
              = Raise (ValueError "Timesheet TS-202510-1 not found"))
    by (vm_compute; reflexivity).
  split; [exact H|].
  exact (failed_operations_change_nothing sample_repr sample_operators _ _ _ _ _ _ H).
Defined.

(** The timesheet created on the empty store, read back with its 80 hours. *)
Lemma created_timesheet_can_be_read_witness :
  exists (doc : Doc) (w' : World),
    create_timesheet sample_repr (VStr "P1") (VStr "T1") (VStr "2025-01-01")
                     (VStr "2025-01-10") (VFloat 8%float) sample_world
    = (Ok doc, w')
    /\ (get_timesheet sample_repr (VStr "TS-202510-456") w').1 = Ok (Some doc)
    /\ (get_timesheet_hours sample_repr (VStr "TS-202510-456") w').1
       = Ok (VFloat 80%float).
Proof.
  pose proof (create_timesheet_run sample_repr (VStr "P1") (VStr "T1")
                (VStr "2025-01-01") (VStr "2025-01-10") (VFloat 8%float)
                sample_world) as Hrun.
  rewrite (generate_entries_days "2025-01-01" "2025-01-10" _ _ 8%float
             eq_refl eq_refl ltac:(discriminate)) in Hrun.
  cbv zeta in Hrun. eexists _, _. split; [exact Hrun|].
  pose proof (created_timesheet_can_be_read sample_repr _ _ _ _ _ _ _ _ Hrun) as H.
  change (List.find _ (get_collection sample_world TIMESHEETS)) with (@None Doc) in H.
  destruct H as [H1 H2]. split.
  - exact H1.
  - etransitivity; [exact H2|]. vm_compute. reflexivity.
Defined.

(** The same timesheet, listed for project P1, talent T1 and status draft. *)
Lemma created_timesheet_is_listed_witness :
  exists (doc : Doc) (w' : World) (timesheets : list Doc),
    create_timesheet sample_repr (VStr "P1") (VStr "T1") (VStr "2025-01-01")
                     (VStr "2025-01-10") (VFloat 8%float) sample_world
    = (Ok doc, w')
    /\ (list_timesheets sample_repr sample_operators (VStr "P1") (VStr "T1")
                        (VStr "draft") VNone VNone w').1 = Ok timesheets
    /\ doc ∈ timesheets.
Proof.
  pose proof (create_timesheet_run sample_repr (VStr "P1") (VStr "T1")
                (VStr "2025-01-01") (VStr "2025-01-10") (VFloat 8%float)
                sample_world) as Hrun.
  rewrite (generate_entries_days "2025-01-01" "2025-01-10" _ _ 8%float
             eq_refl eq_refl ltac:(discriminate)) in Hrun.
  cbv zeta in Hrun.
  destruct (created_timesheet_is_listed sample_repr sample_operators "P1" "T1"
              _ _ _ _ _ _ ltac:(discriminate) ltac:(discriminate) Hrun)
    as (timesheets & Hl & Hin).
  eexists _, _, timesheets. split; [exact Hrun|]. split; assumption.
Defined.

(** The draft timesheet TS-202509-7 submitted. *)
Lemma timesheet_status_update_is_read_back_witness :
  match update_timesheet_status sample_repr (VStr "TS-202509-7") (VStr "submitted")
                                sample_draft_world with
  | (Ok (Some d), w') =>
      (get_timesheet sample_repr (VStr "TS-202509-7") w').1 = Ok (Some d)
      /\ d !! "status" = Some (VStr "submitted")
      /\ d !! "total_hours" = Some (VFloat 16%float)
  | _ => False
  end.
Proof.
  assert (Hok : match (update_timesheet_status sample_repr (VStr "TS-202509-7")
                         (VStr "submitted") sample_draft_world).1 with
                | Ok _ => True
                | Raise _ => False
                end) by (vm_compute; exact I).
  assert (Hd0 : match List.find (doc_matches [("timesheet_id", VStr "TS-202509-7")])
                                (get_collection sample_draft_world TIMESHEETS) with
                | Some d0 => d0 !! "total_hours" = Some (VFloat 16%float)
                | None => False
                end) by (vm_compute; reflexivity).
  destruct (update_timesheet_status sample_repr (VStr "TS-202509-7")
              (VStr "submitted") sample_draft_world) as [[r|e] w'] eqn:Hrun;
    [|destruct Hok].
  destruct (timesheet_status_update_is_read_back sample_repr _ _ _ _ _ Hrun)
    as (d0 & d & Hfind & -> & Hget & Hs & _ & Hk).
  rewrite Hfind in Hd0.
  split; [exact Hget|]. split; [exact Hs|].
  rewrite Hk by not_in_keys. exact Hd0.
Defined.

(** The paid invoice INV-202511-186 cancelled. *)
Lemma invoice_status_update_is_read_back_witness :
  match update_invoice_status sample_repr (VStr "INV-202511-186") (VStr "cancelled")
                              sample_paid_world with
  | (Ok (Some d), w') =>
      (get_invoice sample_repr (VStr "INV-202511-186") w').1 = Ok (Some d)
      /\ d !! "status" = Some (VStr "cancelled")
  | _ => False
  end.
Proof.
  assert (Hok : match (update_invoice_status sample_repr (VStr "INV-202511-186")
                         (VStr "cancelled") sample_paid_world).1 with
                | Ok _ => True
                | Raise _ => False
                end) by (vm_compute; exact I).
  destruct (update_invoice_status sample_repr (VStr "INV-202511-186")
              (VStr "cancelled") sample_paid_world) as [[r|e] w'] eqn:Hrun;
    [|destruct Hok].
  destruct (invoice_status_update_is_read_back sample_repr _ _ _ _ _ Hrun)
    as (d0 & d & _ & -> & Hget & Hs & _).
  split; assumption.
Defined.

(** From 2025-02-10 to 2025-02-01, with no hours given at all. *)
Lemma empty_range_is_accepted_witness :
  exists (doc : Doc) (w' : World),
    create_timesheet sample_repr (VStr "P1") (VStr "T1") (VStr "2025-02-10")
                     (VStr "2025-02-01") VNone sample_world = (Ok doc, w')
    /\ doc !! "entries" = Some (VList [])
    /\ doc !! "total_hours" = Some (VFloat 0%float)
    /\ doc !! "start_date" = Some (VStr "2025-02-10")
    /\ doc !! "end_date" = Some (VStr "2025-02-01").
Proof.
  exact (empty_range_is_accepted sample_repr (VStr "P1") (VStr "T1") VNone
           "2025-02-10" "2025-02-01" (mkDate 2025 2 10) (mkDate 2025 2 1)
           sample_world eq_refl eq_refl eq_refl).
Defined.

(** The invoice of the timesheet TS-202510-148 of talent T1. *)
Lemma timesheet_invoice_provenance_witness :
  match (create_timesheet_invoice sample_repr (VStr "TS-202510-148")
                                  sample_invoice_world).1 with
  | Ok inv =>
      inv !! "timesheet_id" = Some (VStr "TS-202510-148")
      /\ inv !! "expense_id" = None
      /\ inv !! "status" = Some (VStr "draft")
      /\ inv !! "talent_id" = Some (VStr "T1")
  | Raise _ => False
  end.
Proof.
  assert (Hok : match (create_timesheet_invoice sample_repr (VStr "TS-202510-148")
                         sample_invoice_world).1 with
                | Ok inv => inv !! "talent_id" = Some (VStr "T1")
                | Raise _ => False
                end) by (vm_compute; reflexivity).
  destruct (create_timesheet_invoice sample_repr (VStr "TS-202510-148")
              sample_invoice_world).1 as [inv|e] eqn:Hrun; [|destruct Hok].
  destruct (timesheet_invoice_provenance sample_repr _ _ _ Hrun)
    as (H1 & H2 & H3 & _).
  repeat split; assumption.
Defined.

(** The invoice of the expense of two items: two items, each at the rate of
    its amount. *)
Lemma expense_invoice_items_witness :
  match (create_expense_invoice sample_repr
           (VStr "6479b09b-07f3-433c-aaae-ddc9b9b8f21d") (VStr "T1")
           sample_expense_world).1 with
  | Ok inv =>
      inv !! "expense_id" = Some (VStr "6479b09b-07f3-433c-aaae-ddc9b9b8f21d")
      /\ inv !! "timesheet_id" = None
      /\ exists items, inv !! "items" = Some (VList items)
                       /\ length items = 2
                       /\ Forall rate_is_amount items
  | Raise _ => False
  end.
Proof.
  assert (Hok : match (create_expense_invoice sample_repr
                         (VStr "6479b09b-07f3-433c-aaae-ddc9b9b8f21d") (VStr "T1")
                         sample_expense_world).1 with
                | Ok inv =>
                    match inv !! "items" with
                    | Some (VList items) => length items = 2
                    | _ => False
                    end
                | Raise _ => False
                end) by (vm_compute; reflexivity).
  destruct (create_expense_invoice sample_repr
              (VStr "6479b09b-07f3-433c-aaae-ddc9b9b8f21d") (VStr "T1")
              sample_expense_world).1 as [inv|e] eqn:Hrun; [|destruct Hok].
  destruct (expense_invoice_items sample_repr _ _ _ _ Hrun)
    as (H1 & H2 & _ & _ & ex & ex' & its & items & _ & _ & _ & Hitems & _ & Hrate).
  split; [exact H1|]. split; [exact H2|].
  exists items. rewrite Hitems in Hok. repeat split; assumption.
Defined.

(** Issued on 2025-10-15: due on 2025-11-14. *)
Lemma invoice_dates_witness :
  match (create_timesheet_invoice sample_repr (VStr "TS-202510-148")
                                  sample_invoice_world).1 with
  | Ok inv =>
      inv !! "issue_date" = Some (VStr "2025-10-15")
      /\ exists due : Date,
           inv !! "due_date" = Some (VStr (strftime_ymd due))
           /\ toordinal due = (toordinal (mkDate 2025 10 15) + 30)%Z
  | Raise _ => False
  end.
Proof.
  assert (Hok : match (create_timesheet_invoice sample_repr (VStr "TS-202510-148")
                         sample_invoice_world).1 with
                | Ok _ => True
                | Raise _ => False
                end) by (vm_compute; exact I).
  destruct (create_timesheet_invoice sample_repr (VStr "TS-202510-148")
              sample_invoice_world).1 as [inv|e] eqn:Hrun; [|destruct Hok].
  destruct (invoice_dates sample_repr (VStr "TS-202510-148") VNone VNone
              sample_invoice_world inv (or_introl Hrun) eq_refl)
    as (Hissue & due & Hdue & _ & Hord & _).
  split; [exact Hissue|]. exists due. split; assumption.
Defined.

(** A request without hours. *)
Lemma default_hours_witness :
  _create_timesheet sample_repr sample_create_entities sample_world
  = _create_timesheet sample_repr
      (<["hours" := VFloat 8%float]> sample_create_entities) sample_world.
Proof.
  exact (proj1 (default_hours sample_repr sample_create_entities sample_world)
               eq_refl).
Defined.

(** The store with the timesheet TS-202510-456 has no timesheet TS-202510-1
    and no project P1; the store with the invoice INV-202511-186 has no
    invoice INV-202511-1. *)
Lemma unknown_identifiers_witness :
  (get_timesheet_hours sample_repr (VStr "TS-202510-1") sample_timesheet_world).1
  = Raise (ValueError "Timesheet TS-202510-1 not found")
  /\ (_read_timesheet sample_repr sample_operators
        {[ "timesheet_id" := VStr "TS-202510-1" ]} sample_timesheet_world).1
     = Raise (ValueError "Timesheet TS-202510-1 not found")
  /\ (_read_invoice sample_repr sample_operators
        {[ "invoice_number" := VStr "INV-202511-1" ]} sample_paid_world).1
     = Raise (ValueError "Invoice INV-202511-1 not found")
  /\ (get_project_talents sample_repr (VStr "P1") sample_timesheet_world).1 = Ok [].
Proof.
  pose proof (unknown_identifiers sample_repr sample_operators "TS-202510-1"
                {[ "timesheet_id" := VStr "TS-202510-1" ]} sample_timesheet_world)
    as (Hts & _).
  pose proof (unknown_identifiers sample_repr sample_operators "INV-202511-1"
                {[ "invoice_number" := VStr "INV-202511-1" ]} sample_paid_world)
    as (_ & _ & Hinv & _).
  pose proof (unknown_identifiers sample_repr sample_operators "P1"
                ∅ sample_timesheet_world) as (_ & _ & _ & Hp).
  destruct (Hts ltac:(vm_compute; reflexivity)) as [Hhours Hread].
  split; [exact Hhours|].
  split; [exact (Hread eq_refl ltac:(discriminate))|].
  split; [exact (Hinv ltac:(vm_compute; reflexivity) eq_refl ltac:(discriminate))|].
  exact (proj1 (Hp ltac:(vm_compute; reflexivity))).
Defined.

(** Timesheets of January 2025: both bounds are on the start date. *)
Lemma listing_date_filters_witness :
  list_timesheets_query VNone VNone VNone (VStr "2025-01-01") (VStr "2025-01-31")
  = {[ "start_date" := VDict [("$gte", VStr "2025-01-01");
                              ("$lte", VStr "2025-01-31")] ]}
  /\ list_timesheets_query VNone VNone VNone (VStr "2025-01-01") (VStr "2025-01-31")
       !! "end_date" = None.
Proof.
  destruct (listing_date_filters VNone VNone VNone (VStr "2025-01-01")
              (VStr "2025-01-31") eq_refl) as [Hboth _].
  destruct (Hboth eq_refl) as (_ & Hend & _).
  split; [reflexivity | exact Hend].
Defined.

(** The identifiers made at 2025-10-15 09:30:00.123456, in a sentence. *)
Lemma generated_ids_are_extracted_witness :
  extract_timesheet_id "Approve TS-202510-456 please" = Some "TS-202510-456"
  /\ extract_invoice_number "Approve INV-202510-456 please" = Some "INV-202510-456".
Proof.
  destruct (generated_ids_are_extracted (sample_clock 0) "Approve " " please"
              eq_refl eq_refl) as [Hts Hinv].
  split; [exact (Hts eq_refl) | exact (Hinv eq_refl)].
Defined.

(** Seven and a half hours. *)
Lemma hours_are_the_number_before_the_unit_witness :
  extract_numbers sample_float "log 7.5 Hours today" !! "hours" = Some 7.5%float.
Proof.
  assert (Hn : numeral "7.5").
  { exists "7". split; [discriminate|]. split; [reflexivity|].
    right. exists "5". split; [reflexivity|]. split; [discriminate | reflexivity]. }
  etransitivity;
    [exact (hours_are_the_number_before_the_unit sample_float "log " "7.5" " "
              "Hour" "s today" eq_refl Hn eq_refl eq_refl)|].
  vm_compute. reflexivity.
Defined.

(** The parser's empty identifier is replaced by the one in the text, its
    invoice number is kept, and its start date gives way to the date in the
    text. *)
Lemma extracted_entities_witness :
  match extract_all_entities sample_float 2025 sample_parsed_query
          "update TS-202510-456 to approved from 2025-01-02" with
  | Ok entities =>
      entities !! "timesheet_id" = Some (VStr "TS-202510-456")
      /\ entities !! "invoice_number" = Some (VStr "INV-202510-1")
      /\ entities !! "start_date" = Some (VStr "2025-01-02")
      /\ entities !! "expense_id" = None
  | Raise _ => False
  end.
Proof.
  assert (Hok : match extract_all_entities sample_float 2025 sample_parsed_query
                        "update TS-202510-456 to approved from 2025-01-02" with
                | Ok _ => True
                | Raise _ => False
                end) by (vm_compute; exact I).
  destruct (extract_all_entities sample_float 2025 sample_parsed_query
              "update TS-202510-456 to approved from 2025-01-02")
    as [entities|e] eqn:Hrun; [|destruct Hok].
  destruct (extracted_entities sample_float 2025 _ _ _ Hrun)
    as (given & Hgiven & _ & Hkeep & Hts & _ & Hex & Hdates).
  injection Hgiven as <-.
  split; [exact (Hts eq_refl)|].
  split; [apply (Hkeep "invoice_number" (VStr "INV-202510-1"));
          [right; left | reflexivity | reflexivity]|].
  split; [apply Hdates; reflexivity|].
  exact (Hex eq_refl).
Defined.

(** An empty object in a fence with its tag, one line each. *)
Lemma code_fences_are_removed_witness :
  clean_response ("```json" ++ sample_newline ++ "{}" ++ sample_newline ++ "```")
  = "{}".
Proof.
  exact (proj1 (code_fences_are_removed "" "" sample_newline sample_newline ""
                  eq_refl eq_refl eq_refl eq_refl)).
Defined.

(** A timesheet created beside the rate record of its project and talent,
    then invoiced: the invoice is for P1 and T1, for 80 hours. *)
Lemma created_timesheet_can_be_invoiced_witness :
  match (create_timesheet_invoice sample_repr (VStr "TS-202510-456")
           (create_timesheet sample_repr (VStr "P1") (VStr "T1") (VStr "2025-01-01")
              (VStr "2025-01-10") (VFloat 8%float) sample_invoice_world).2).1 with
  | Ok inv =>
      inv !! "project_id" = Some (VStr "P1")
      /\ inv !! "talent_id" = Some (VStr "T1")
      /\ exists item,
           inv !! "items" = Some (VList [VDict item])
           /\ assoc_get item "quantity" VNone = VFloat 80%float
  | Raise _ => False
  end.
Proof.
  pose proof (create_timesheet_run sample_repr (VStr "P1") (VStr "T1")
                (VStr "2025-01-01") (VStr "2025-01-10") (VFloat 8%float)
                sample_invoice_world) as Hrun.
  rewrite (generate_entries_days "2025-01-01" "2025-01-10" _ _ 8%float
             eq_refl eq_refl ltac:(discriminate)) in Hrun.
  cbv zeta in Hrun.
  pose proof (created_timesheet_can_be_invoiced sample_repr _ _ _ _ _ _ _ _ Hrun
                ltac:(vm_compute; reflexivity)) as H.
  lazymatch type of H with
  | match ?f with _ => _ end =>
      replace f
        with (Some (list_to_map
                      [("project_id", VStr "P1");
                       ("talent_id", VStr "T1");
                       ("talentInvoiceRateType", VStr "Daily");
                       ("talentInvoiceRateValue", VFloat 100%float);
                       ("talentInvoicingCurrency", VStr "EUR")] : Doc)) in H
        by (vm_compute; reflexivity)
  end.
  rewrite Hrun. cbn [snd].
  match goal with
  | |- match ?r with _ => _ end =>
      assert (Hok : match r with Ok _ => True | Raise _ => False end)
        by (vm_compute; exact I);
      destruct r as [inv|e] eqn:Hinv; [|destruct Hok]
  end.
  destruct (H inv Hinv) as (_ & Hp & Ht & item & Hi & Hq & _).
  split; [exact Hp|]. split; [exact Ht|].
  exists item. split; [exact Hi|].
  etransitivity; [exact Hq|]. vm_compute. reflexivity.
Defined.

(** Twelve and a half dollars, and fifty Canadian ones. *)
Lemma amount_needs_a_listed_currency_witness :
  extract_numbers sample_float "pay 12.5 usd by card" !! "amount" = Some 12.5%float
  /\ extract_numbers sample_float "pay 50 CAD for lunch" !! "amount" = None.
Proof.
  assert (Hn : numeral "12.5").
  { exists "12". split; [discriminate|]. split; [reflexivity|].
    right. exists "5". split; [reflexivity|]. split; [discriminate | reflexivity]. }
  assert (Hm : numeral "50").
  { exists "50". split; [discriminate|]. split; [reflexivity|]. by left. }
  split.
  - etransitivity;
      [refine (proj1 (amount_needs_a_listed_currency sample_float "pay " "12.5" " "
                        "usd" " by card" eq_refl Hn eq_refl) _ eq_refl); left|].
    vm_compute. reflexivity.
  - refine (proj1 (proj2 (amount_needs_a_listed_currency sample_float "pay " "50" " "
                            "CAD" " for lunch" eq_refl Hm eq_refl) _ eq_refl eq_refl)).
    left.
Defined.

(** A text with two statuses and one with two currencies, in the other order
    than the lists: the first of the list is found, in upper case too. *)
Lemma keywords_found_witness :
  extract_status "Approved, not DRAFT" = Some "draft"
  /\ extract_status (str_upper "Approved, not DRAFT") = Some "draft"
  /\ extract_currency "eur or usd" = Some "USD"
  /\ extract_currency (str_lower "eur or usd") = Some "USD".
Proof.
  destruct (keywords_found "Approved, not DRAFT") as (_ & _ & Hstatus).
  destruct (keywords_found "eur or usd") as (_ & _ & Hcurrency).
  destruct (Hstatus eq_refl) as (Hup & _).
  destruct (Hcurrency eq_refl) as (_ & _ & _ & Hlow).
  split; [reflexivity|]. split; [rewrite Hup; reflexivity|].
  split; [reflexivity|]. rewrite Hlow. reflexivity.
Defined.
